(** * A shallow embedding of the keye spreadsheet grid engine

    Sources embedded here:
    - [utils/cellUtils.ts]   : [getCellKey], [parseCellKey], [validateCellValue],
                               [formatDate]
    - [types/spreadsheet.ts] : the data model
    - [hooks/useSpreadsheet.ts] : [saveToHistory], [dispatch], the three readers
    - [components/Spreadsheet.tsx] : the range move performed on pointer release

    Row and column indices are mathematical integers ([Z]); JavaScript values
    of type [string | number] are a two-constructor sum; exceptions are an
    explicit error monad; the [cells] object is an insertion-ordered
    association list, because [Object.keys] order is observable in the
    delete-row and delete-column remapping loops. *)

From Stdlib Require Import ZArith String Ascii List Lia Bool.
From Stdlib Require Import DecimalString DecimalZ.
From stdpp Require Import base option list gmap strings.

Open Scope Z_scope.
Open Scope string_scope.

(** ** Exceptions *)

Module Js.

Inductive error : Set :=
| TypeError    (* property read on [undefined] *)
| RangeError.  (* Intl option out of range, malformed currency code *)

Inductive result (A : Type) : Type :=
| Ok (a : A)
| Throw (e : error).
Arguments Ok {A} a.
Arguments Throw {A} e.

Definition bind {A B} (m : result A) (k : A -> result B) : result B :=
  match m with
  | Ok a => k a
  | Throw e => Throw e
  end.

Definition isOk {A} (m : result A) : bool :=
  match m with Ok _ => true | Throw _ => false end.

(** The value returned, or [fallback] after a throw. *)
Definition get {A} (fallback : A) (m : result A) : A :=
  match m with Ok a => a | Throw _ => fallback end.

(** [String(n)] and a template hole [${n}] for an integer [n]. *)
Definition toString (n : Z) : string :=
  NilZero.string_of_int (Z.to_int n).

(** [String(x)] for a number that is an integer or [NaN]. *)
Definition numString (x : option Z) : string :=
  match x with Some n => toString n | None => "NaN" end.

(** [Number(s)] on the strings that [split('-')] produces from a cell key:
    the empty string is [0], a run of decimal digits is its value, anything
    else is [NaN] (here [None]).  Signs, blanks, exponents and fractions
    never occur in a piece of a key built from integer indices. *)
Definition Number (s : string) : option Z :=
  match NilEmpty.uint_of_string s with
  | Some d => Some (Z.of_uint d)
  | None => None
  end.

(** [s.split(sep)] for a one-character separator: [acc] holds the piece
    read so far. *)
Fixpoint splitAux (sep : ascii) (acc : string) (s : string) : list string :=
  match s with
  | EmptyString => [acc]
  | String a rest =>
      if Ascii.eqb a sep
      then acc :: splitAux sep EmptyString rest
      else splitAux sep (acc ++ String a EmptyString) rest
  end.

Definition split (sep : ascii) (s : string) : list string :=
  splitAux sep EmptyString s.

(** [a === b] and [a > b] where [a] may be [NaN] or [undefined]. *)
Definition strictEq (a : option Z) (b : Z) : bool :=
  match a with Some x => Z.eqb x b | None => false end.

Definition gt (a : option Z) (b : Z) : bool :=
  match a with Some x => Z.ltb b x | None => false end.

(** [arr[i]] for an integer [i]: [undefined] outside [0 <= i < length]. *)
Definition index {A} (l : list A) (i : Z) : option A :=
  if Z.ltb i 0 then None else l !! Z.to_nat i.

(** Relative index of [slice] and [splice]: negative counts from the end,
    the result is clamped to [0 .. len]. *)
Definition relIndex (len : nat) (i : Z) : nat :=
  if Z.ltb i 0
  then Z.to_nat (Z.max (Z.of_nat len + i) 0)
  else Nat.min (Z.to_nat i) len.

(** [arr.slice(from, to)]. *)
Definition slice {A} (l : list A) (from to : Z) : list A :=
  let k := relIndex (length l) from in
  let e := relIndex (length l) to in
  take (e - k) (drop k l).

(** [arr.slice(from)]. *)
Definition sliceFrom {A} (l : list A) (from : Z) : list A :=
  drop (relIndex (length l) from) l.

(** [arr.splice(at, 0, x)] on a copy of [arr]. *)
Definition spliceInsert {A} (l : list A) (at_ : Z) (x : A) : list A :=
  let k := relIndex (length l) at_ in
  take k l ++ x :: drop k l.

(** [arr.filter((_, i) => i !== d)]. *)
Definition removeAt {A} (l : list A) (d : Z) : list A :=
  if Z.ltb d 0 then l else delete (Z.to_nat d) l.

End Js.

#[global] Instance result_bind : MBind Js.result := fun _ _ k m => Js.bind m k.
#[global] Instance result_ret : MRet Js.result := fun _ a => Js.Ok a.

(** ** Cell addressing ([cellUtils.ts]) *)

(** [`${row}-${col}`], at numbers that may be [NaN] and at integers. *)
Definition getCellKeyNum (row col : option Z) : string :=
  Js.numString row ++ "-" ++ Js.numString col.

Definition getCellKey (row col : Z) : string :=
  getCellKeyNum (Some row) (Some col).

(** [const [row, col] = key.split('-').map(Number)]: a missing piece is
    [undefined], a piece that is no number is [NaN]; both are [None]. *)
Definition parseCellKey (key : string) : option Z * option Z :=
  let pieces := map Js.Number (Js.split "-" key) in
  (mjoin (pieces !! 0%nat), mjoin (pieces !! 1%nat)).

(** ** The JavaScript host

    Floating point, locale-dependent formatting, date parsing and URL parsing
    are services of the JavaScript engine, not code of the repository.  They
    are taken as an interface; every theorem below holds for every host. *)

Class Host := {
  number : Type;
  (** the literal [n] for an integer [n] *)
  ofZ : Z -> number;
  (** [isNaN(x)] *)
  isNaN : number -> bool;
  (** [x === 0], true of both zeros *)
  isZero : number -> bool;
  (** [String(x)] *)
  numberToString : number -> string;
  (** [parseFloat(s)] *)
  parseFloat : string -> number;
  (** [x.toLocaleString('en-US', { minimumFractionDigits: d,
      maximumFractionDigits: d })]; a [RangeError] when [d] is not an
      accepted digit count *)
  toLocaleFixed : number -> number -> Js.result string;
  (** [x.toLocaleString(undefined, { maximumFractionDigits: 2,
      minimumFractionDigits: 0 })] *)
  toLocaleDisplay : number -> string;
  (** [new Intl.NumberFormat('en-US', { style: 'currency', currency: c })
      .format(x)]; a [RangeError] when [c] is not a well-formed code *)
  formatCurrency : string -> number -> Js.result string;
  (** [x.toFixed(1)] *)
  toFixed1 : number -> string;
  (** [s.trim()] and [s.toLowerCase()] *)
  trim : string -> string;
  toLowerCase : string -> string;
  (** [new Date(s)], [isNaN(d.getTime())] and the local-time getters *)
  date : Type;
  newDate : string -> date;
  dateIsInvalid : date -> bool;
  getMonth : date -> Z;
  getDate : date -> Z;
  getFullYear : date -> Z;
  (** [/^[^\s@]+@[^\s@]+\.[^\s@]+$/.test(s)] *)
  emailRegexTest : string -> bool;
  (** [new URL(s)] returns rather than throws *)
  urlParses : string -> bool
}.

(** ** Data model ([types/spreadsheet.ts]) *)

Inductive ColumnType : Set :=
| text | number_ | currency | percentage | date_ | email | url | boolean.

(** The string a [ColumnType] is at run time. *)
Definition columnTypeName (t : ColumnType) : string :=
  match t with
  | text => "text"
  | number_ => "number"
  | currency => "currency"
  | percentage => "percentage"
  | date_ => "date"
  | email => "email"
  | url => "url"
  | boolean => "boolean"
  end.

Record CellPosition : Set := { row : Z; col : Z }.

Record CellRange : Set := { start : CellPosition; end_ : CellPosition }.

Inductive TextAlign : Set := alignLeft | alignCenter | alignRight.

Record CellStyle : Set := {
  bold : option bool;
  italic : option bool;
  textAlign : option TextAlign;
  backgroundColor : option string
}.

(** [{}] as a [CellStyle]. *)
Definition noStyle : CellStyle :=
  {| bold := None; italic := None; textAlign := None; backgroundColor := None |}.

(** [{ ...a, ...b }] on styles: a field named by [b] wins. *)
Definition mergeStyle (a b : CellStyle) : CellStyle :=
  {| bold := match bold b with Some x => Some x | None => bold a end;
     italic := match italic b with Some x => Some x | None => italic a end;
     textAlign := match textAlign b with Some x => Some x | None => textAlign a end;
     backgroundColor :=
       match backgroundColor b with Some x => Some x | None => backgroundColor a end |}.

Section Engine.
Context `{JS : Host}.

(** [string | number] *)
Inductive Value : Type :=
| VStr (s : string)
| VNum (n : number).

Record Validation : Type := {
required : option bool;
min : option number;
max : option number;
pattern : option string
}.

Record Format : Type := {
decimals : option number;
currency_ : option string;
dateFormat : option string;
validation : option Validation
}.

Definition emptyFormat : Format :=
{| decimals := None; currency_ := None; dateFormat := None; validation := None |}.

Record SpreadsheetColumn : Type := {
key : string;
name : string;
type : ColumnType;
format : option Format
}.

(** [{ [key: string]: string | number }] *)
Definition SpreadsheetItem : Type := gmap string Value.

Record SpreadsheetData : Type := {
columns : list SpreadsheetColumn;
items : list SpreadsheetItem
}.

Record Cell : Type := {
value : Value;
displayValue : option string;
style : option CellStyle;
formula : option string
}.

(** [{ [key: string]: Cell }], in property (insertion) order.  No key of
  this object is an array index, so the order is insertion order. *)
Definition Cells : Type := list (string * Cell).

#[warnings="-register-all"]
Inductive SpreadsheetState : Type := mkState {
data : SpreadsheetData;
cells : Cells;
selectedCell : option CellPosition;
selectedRange : option CellRange;
editingCell : option CellPosition;
history : list SpreadsheetState;
historyIndex : Z
}.

Inductive Direction : Set := asc | desc.

Inductive CellOperation : Type :=
| SET_VALUE (position : CellPosition) (value : Value)
| SET_STYLE (position : CellPosition) (style : CellStyle)
| SET_FORMULA (position : CellPosition) (formula : string)
| SELECT_CELL (position : CellPosition)
| SELECT_RANGE (range : CellRange)
| START_EDITING (position : CellPosition)
| STOP_EDITING
| ADD_COLUMN (index : option Z) (name : option string)
| ADD_ROW (index : option Z)
| DELETE_COLUMN (index : Z)
| DELETE_ROW (index : Z)
| UPDATE_COLUMN_NAME (columnIndex : Z) (newName : string)
| UPDATE_COLUMN_TYPE (columnIndex : Z) (columnType : ColumnType) (format : option Format)
| SORT_COLUMN (columnIndex : Z) (direction : Direction)
| UNDO
| REDO.


(** ** Validation and formatting ([cellUtils.ts]) *)

Record ValidationResult : Type := {
isValid : bool;
error : option string;
formattedValue : option string
}.

Definition valid (s : string) : ValidationResult :=
{| isValid := true; error := None; formattedValue := Some s |}.

Definition invalid (msg : string) : ValidationResult :=
{| isValid := false; error := Some msg; formattedValue := None |}.

(** [String(value)] *)
Definition valueToString (v : Value) : string :=
match v with
| VStr s => s
| VNum n => numberToString n
end.

(** [!value && value !== 0] *)
Definition isBlank (v : Value) : bool :=
match v with
| VStr s => String.eqb s ""
| VNum n => isNaN n
end.

(** [value !== ''] *)
Definition notEmptyString (v : Value) : bool :=
match v with
| VStr s => negb (String.eqb s "")
| VNum _ => true
end.

(** [o || d] for an optional number: [undefined], [NaN] and [0] are falsy. *)
Definition numberOr (o : option number) (d : number) : number :=
match o with
| Some n => if isNaN n || isZero n then d else n
| None => d
end.

(** [o || d] for an optional string: [undefined] and [''] are falsy. *)
Definition stringOr (o : option string) (d : string) : string :=
match o with
| Some s => if String.eqb s "" then d else s
| None => d
end.

(** [s.replace(/[...]/g, '')] for a class of single characters. *)
Fixpoint removeChars (drop : ascii -> bool) (s : string) : string :=
match s with
| EmptyString => EmptyString
| String a rest =>
    if drop a then removeChars drop rest else String a (removeChars drop rest)
end.

(** [s.padStart(2, '0')] *)
Definition padStart2 (s : string) : string :=
match s with
| EmptyString => "00"
| String a EmptyString => String "0" (String a EmptyString)
| _ => s
end.

Definition formatDate (d : date) (fmt : string) : string :=
let month := padStart2 (Js.toString (getMonth d + 1)) in
let day := padStart2 (Js.toString (getDate d)) in
let year := Js.toString (getFullYear d) in
if String.eqb fmt "MM/DD/YYYY" then month ++ "/" ++ day ++ "/" ++ year
else if String.eqb fmt "DD/MM/YYYY" then day ++ "/" ++ month ++ "/" ++ year
else if String.eqb fmt "YYYY-MM-DD" then year ++ "-" ++ month ++ "-" ++ day
else month ++ "/" ++ day ++ "/" ++ year.

(** [const decimals = format?.decimals || 2] *)
Definition numberDecimals (fmt : option Format) : number :=
numberOr (fmt ≫= decimals) (ofZ 2).

Definition validateCellValue (v : Value) (columnType : string) (fmt : option Format)
: Js.result ValidationResult :=
if isBlank v then Js.Ok (valid "")
else
  let stringValue := trim (valueToString v) in
  if String.eqb columnType "text" then Js.Ok (valid stringValue)
  else if String.eqb columnType "number" then
    let num := parseFloat stringValue in
    if isNaN num then Js.Ok (invalid "Must be a valid number")
    else
      let decimals := numberDecimals fmt in
      s ← toLocaleFixed num decimals; Js.Ok (valid s)
  else if String.eqb columnType "currency" then
    let currencyNum :=
      parseFloat (removeChars (fun a => Ascii.eqb a "$" || Ascii.eqb a ",") stringValue) in
    if isNaN currencyNum then Js.Ok (invalid "Must be a valid currency amount")
    else
      let currency := stringOr (fmt ≫= currency_) "USD" in
      s ← formatCurrency currency currencyNum; Js.Ok (valid s)
  else if String.eqb columnType "percentage" then
    let percentNum := parseFloat (removeChars (fun a => Ascii.eqb a "%") stringValue) in
    if isNaN percentNum then Js.Ok (invalid "Must be a valid percentage")
    else Js.Ok (valid (toFixed1 percentNum ++ "%"))
  else if String.eqb columnType "date" then
    let dateValue := newDate stringValue in
    if dateIsInvalid dateValue then Js.Ok (invalid "Must be a valid date (MM/DD/YYYY)")
    else
      let dateFormat := stringOr (fmt ≫= dateFormat) "MM/DD/YYYY" in
      Js.Ok (valid (formatDate dateValue dateFormat))
  else if String.eqb columnType "email" then
    if negb (emailRegexTest stringValue)
    then Js.Ok (invalid "Must be a valid email address")
    else Js.Ok (valid (toLowerCase stringValue))
  else if String.eqb columnType "url" then
    if urlParses (if String.prefix "http" stringValue
                  then stringValue else "https://" ++ stringValue)
    then Js.Ok (valid stringValue)
    else Js.Ok (invalid "Must be a valid URL")
  else if String.eqb columnType "boolean" then
    let boolValue := toLowerCase stringValue in
    if bool_decide (boolValue ∈ ["true"; "false"; "yes"; "no"; "1"; "0"]) then
      let formatted :=
        if bool_decide (boolValue ∈ ["true"; "yes"; "1"]) then "Yes" else "No" in
      Js.Ok (valid formatted)
    else Js.Ok (invalid "Must be Yes/No, True/False, or 1/0")
  else Js.Ok (valid stringValue).

(** ** The [cells] object *)

(** [cells[k]] *)
Fixpoint cellsGet (k : string) (m : Cells) : option Cell :=
match m with
| [] => None
| (k', c) :: rest => if String.eqb k k' then Some c else cellsGet k rest
end.

(** [cells[k] = c]: an existing property keeps its place, a new one goes
  last. *)
Fixpoint cellsSet (k : string) (c : Cell) (m : Cells) : Cells :=
match m with
| [] => [(k, c)]
| (k', c') :: rest =>
    if String.eqb k k' then (k, c) :: rest else (k', c') :: cellsSet k c rest
end.

(** [delete cells[k]] *)
Fixpoint cellsDelete (k : string) (m : Cells) : Cells :=
match m with
| [] => []
| (k', c') :: rest =>
    if String.eqb k k' then cellsDelete k rest else (k', c') :: cellsDelete k rest
end.

(** [Object.keys(cells)] *)
Definition cellsKeys (m : Cells) : list string := map fst m.

(** [{ value: '' }] *)
Definition emptyCell : Cell :=
{| value := VStr ""; displayValue := None; style := None; formula := None |}.

(** [{ ...cells[key], value: v }] *)
Definition cellWithValue (existing : option Cell) (v : Value) : Cell :=
match existing with
| Some c => {| value := v; displayValue := displayValue c;
               style := style c; formula := formula c |}
| None => {| value := v; displayValue := None; style := None; formula := None |}
end.

(** [{ ...existingCell, style: { ...existingCell.style, ...st } }] *)
Definition cellWithStyle (existingCell : Cell) (st : CellStyle) : Cell :=
{| value := value existingCell;
   displayValue := displayValue existingCell;
   style := Some (mergeStyle (default noStyle (style existingCell)) st);
   formula := formula existingCell |}.

(** [{ ...existingCell, formula: f }] *)
Definition cellWithFormula (existingCell : Cell) (f : string) : Cell :=
{| value := value existingCell;
   displayValue := displayValue existingCell;
   style := style existingCell;
   formula := Some f |}.

(** ** The store ([useSpreadsheet.ts]) *)

Definition initialState : SpreadsheetState :=
{| data := {| columns := []; items := [] |};
   cells := [];
   selectedCell := None;
   selectedRange := None;
   editingCell := None;
   history := [];
   historyIndex := -1 |}.

(** [{ ...initialState, data: initialData || initialState.data }] *)
Definition useSpreadsheet (initialData : option SpreadsheetData) : SpreadsheetState :=
{| data := default (data initialState) initialData;
   cells := cells initialState;
   selectedCell := selectedCell initialState;
   selectedRange := selectedRange initialState;
   editingCell := editingCell initialState;
   history := history initialState;
   historyIndex := historyIndex initialState |}.

(** Field updates [{ ...s, f: x }]. *)
Definition withData (s : SpreadsheetState) (d : SpreadsheetData) : SpreadsheetState :=
{| data := d; cells := cells s; selectedCell := selectedCell s;
   selectedRange := selectedRange s; editingCell := editingCell s;
   history := history s; historyIndex := historyIndex s |}.

Definition withCells (s : SpreadsheetState) (m : Cells) : SpreadsheetState :=
{| data := data s; cells := m; selectedCell := selectedCell s;
   selectedRange := selectedRange s; editingCell := editingCell s;
   history := history s; historyIndex := historyIndex s |}.

Definition withSelection (s : SpreadsheetState)
  (c : option CellPosition) (r : option CellRange) : SpreadsheetState :=
{| data := data s; cells := cells s; selectedCell := c;
   selectedRange := r; editingCell := editingCell s;
   history := history s; historyIndex := historyIndex s |}.

Definition withEditing (s : SpreadsheetState) (e : option CellPosition) : SpreadsheetState :=
{| data := data s; cells := cells s; selectedCell := selectedCell s;
   selectedRange := selectedRange s; editingCell := e;
   history := history s; historyIndex := historyIndex s |}.

Definition withHistory (s : SpreadsheetState)
  (h : list SpreadsheetState) (i : Z) : SpreadsheetState :=
{| data := data s; cells := cells s; selectedCell := selectedCell s;
   selectedRange := selectedRange s; editingCell := editingCell s;
   history := h; historyIndex := i |}.

(** The snapshot pushed is [{ ...currentState }], history fields included;
  the index is computed from the array before it is cut to 50. *)
Definition saveToHistory (currentState : SpreadsheetState) : SpreadsheetState :=
let newHistory :=
  (Js.slice (history currentState) 0 (historyIndex currentState + 1)
     ++ [currentState])%list in
withHistory currentState
  (Js.sliceFrom newHistory (-50))
  (Z.of_nat (length newHistory) - 1).

(** [validation.formattedValue || operation.value] *)
Definition finalValue (validation : ValidationResult) (v : Value) : Value :=
match formattedValue validation with
| Some s => if String.eqb s "" then v else VStr s
| None => v
end.

(** The loop of [DELETE_COLUMN] over [Object.keys(newCells)]: the key list
  is fixed before the loop, the object is updated in place.  A key is
  deleted only when the loop visits it, so [newCells[cellKey]] is defined
  at every visit. *)
Fixpoint remapColumns (d : Z) (keys : list string) (newCells : Cells) : Cells :=
match keys with
| [] => newCells
| cellKey :: rest =>
    let '(cellRow, cellCol) := parseCellKey cellKey in
    if Js.strictEq cellCol d then
      remapColumns d rest (cellsDelete cellKey newCells)
    else if Js.gt cellCol d then
      let newKey := getCellKeyNum cellRow (Z.pred <$> cellCol) in
      let moved :=
        match cellsGet cellKey newCells with
        | Some c => cellsSet newKey c newCells
        | None => newCells
        end in
      remapColumns d rest (cellsDelete cellKey moved)
    else remapColumns d rest newCells
end.

(** The loop of [DELETE_ROW]. *)
Fixpoint remapRows (d : Z) (keys : list string) (newCells : Cells) : Cells :=
match keys with
| [] => newCells
| cellKey :: rest =>
    let '(cellRow, cellCol) := parseCellKey cellKey in
    if Js.strictEq cellRow d then
      remapRows d rest (cellsDelete cellKey newCells)
    else if Js.gt cellRow d then
      let newKey := getCellKeyNum (Z.pred <$> cellRow) cellCol in
      let moved :=
        match cellsGet cellKey newCells with
        | Some c => cellsSet newKey c newCells
        | None => newCells
        end in
      remapRows d rest (cellsDelete cellKey moved)
    else remapRows d rest newCells
end.

(** [items.map(f)] for an [f] that may throw. *)
Fixpoint mapThrowing {A B} (f : A -> Js.result B) (l : list A) : Js.result (list B) :=
match l with
| [] => Js.Ok []
| a :: rest => b ← f a; bs ← mapThrowing f rest; Js.Ok (b :: bs)
end.

(** [{ ...s.cells, [key]: c }] written back into the state. *)
Definition putCell (s : SpreadsheetState) (k : string) (c : Cell) : SpreadsheetState :=
withCells s (cellsSet k c (cells s)).

(** The state updater that [dispatch] hands to [setState].  [now] is the
  reading of [Date.now()].  A [Throw] is an exception escaping the
  updater. *)
Definition dispatch (now : Z) (prevState : SpreadsheetState) (operation : CellOperation)
: Js.result SpreadsheetState :=
let newState := prevState in
match operation with
| SET_VALUE position v =>
    let k := getCellKey (row position) (col position) in
    let column := Js.index (columns (data newState)) (col position) in
    match column with
    | Some column =>
        if notEmptyString v then
          validation ← validateCellValue v (columnTypeName (type column)) (format column);
          let final := finalValue validation v in
          Js.Ok (saveToHistory
                   (putCell newState k (cellWithValue (cellsGet k (cells newState)) final)))
        else
          Js.Ok (saveToHistory
                   (putCell newState k (cellWithValue (cellsGet k (cells newState)) v)))
    | None =>
        Js.Ok (saveToHistory
                 (putCell newState k (cellWithValue (cellsGet k (cells newState)) v)))
    end

| SET_STYLE position st =>
    let k := getCellKey (row position) (col position) in
    let existingCell := default emptyCell (cellsGet k (cells newState)) in
    Js.Ok (putCell newState k (cellWithStyle existingCell st))

| SET_FORMULA position f =>
    let k := getCellKey (row position) (col position) in
    let existingCell := default emptyCell (cellsGet k (cells newState)) in
    Js.Ok (saveToHistory (putCell newState k (cellWithFormula existingCell f)))

| ADD_COLUMN index nm =>
    let newColumnKey := "column_" ++ Js.toString now in
    let newColumn :=
      {| key := newColumnKey;
         name := stringOr nm
                   ("Column " ++
                    Js.toString (Z.of_nat (length (columns (data newState))) + 1));
         type := text;
         format := None |} in
    let insertIndex :=
      match index with
      | Some i => i
      | None => Z.of_nat (length (columns (data newState)))
      end in
    let newColumns := Js.spliceInsert (columns (data newState)) insertIndex newColumn in
    let newItems :=
      map (fun item : SpreadsheetItem => <[newColumnKey := VStr ""]> item)
          (items (data newState)) in
    Js.Ok (saveToHistory
             (withData newState {| columns := newColumns; items := newItems |}))

| ADD_ROW index =>
    let newRow : SpreadsheetItem :=
      foldl (fun (r : SpreadsheetItem) column => <[key column := VStr ""]> r)
            ∅ (columns (data newState)) in
    let insertIndex :=
      match index with
      | Some i => i
      | None => Z.of_nat (length (items (data newState)))
      end in
    let newItems := Js.spliceInsert (items (data newState)) insertIndex newRow in
    Js.Ok (saveToHistory
             (withData newState
                {| columns := columns (data newState); items := newItems |}))

| DELETE_COLUMN index =>
    if Z.ltb index (Z.of_nat (length (columns (data newState)))) then
      let columnToDelete := Js.index (columns (data newState)) index in
      let newColumns := Js.removeAt (columns (data newState)) index in
      newItems ←
        mapThrowing
          (fun item : SpreadsheetItem =>
             match columnToDelete with
             | Some c => Js.Ok (delete (key c) item)
             | None => Js.Throw Js.TypeError
             end)
          (items (data newState));
      let newCells :=
        remapColumns index (cellsKeys (cells newState)) (cells newState) in
      Js.Ok (saveToHistory
               (withCells
                  (withData newState {| columns := newColumns; items := newItems |})
                  newCells))
    else Js.Ok newState

| DELETE_ROW index =>
    if Z.ltb index (Z.of_nat (length (items (data newState)))) then
      let newItems := Js.removeAt (items (data newState)) index in
      let newCells :=
        remapRows index (cellsKeys (cells newState)) (cells newState) in
      Js.Ok (saveToHistory
               (withCells
                  (withData newState
                     {| columns := columns (data newState); items := newItems |})
                  newCells))
    else Js.Ok newState

| SELECT_CELL position =>
    Js.Ok (withSelection newState (Some position) None)

| SELECT_RANGE range =>
    Js.Ok (withSelection newState None (Some range))

| START_EDITING position =>
    Js.Ok (withEditing newState (Some position))

| STOP_EDITING =>
    Js.Ok (withEditing newState None)

| UPDATE_COLUMN_NAME columnIndex newName =>
    if Z.leb 0 columnIndex
       && Z.ltb columnIndex (Z.of_nat (length (columns (data newState)))) then
      let updatedColumns :=
        alter (fun c => {| key := key c; name := newName;
                           type := type c; format := format c |})
              (Z.to_nat columnIndex) (columns (data newState)) in
      Js.Ok (saveToHistory
               (withData newState
                  {| columns := updatedColumns; items := items (data newState) |}))
    else Js.Ok newState

| UPDATE_COLUMN_TYPE columnIndex columnType fmt =>
    if Z.leb 0 columnIndex
       && Z.ltb columnIndex (Z.of_nat (length (columns (data newState)))) then
      let updatedColumns :=
        alter (fun c => {| key := key c; name := name c;
                           type := columnType;
                           format := Some (default emptyFormat fmt) |})
              (Z.to_nat columnIndex) (columns (data newState)) in
      Js.Ok (saveToHistory
               (withData newState
                  {| columns := updatedColumns; items := items (data newState) |}))
    else Js.Ok newState

| SORT_COLUMN _ _ => Js.Ok newState

| UNDO =>
    if Z.ltb 0 (historyIndex newState) then
      match Js.index (history newState) (historyIndex newState - 1) with
      | Some previousState =>
          Js.Ok (withHistory previousState
                   (history newState) (historyIndex newState - 1))
      | None =>
          (* the spread of [undefined] leaves a state without [data] and
             [cells]; the first read of it throws *)
          Js.Throw Js.TypeError
      end
    else Js.Ok newState

| REDO =>
    if Z.ltb (historyIndex newState) (Z.of_nat (length (history newState)) - 1) then
      match Js.index (history newState) (historyIndex newState + 1) with
      | Some nextState =>
          Js.Ok (withHistory nextState
                   (history newState) (historyIndex newState + 1))
      | None => Js.Throw Js.TypeError
      end
    else Js.Ok newState
end.

(** Successive [dispatch] calls: React runs the queued updaters in order. *)
Fixpoint dispatchAll (now : Z) (s : SpreadsheetState) (ops : list CellOperation)
: Js.result SpreadsheetState :=
match ops with
| [] => Js.Ok s
| op :: rest => s' ← dispatch now s op; dispatchAll now s' rest
end.

(** ** Readers *)

(** A JavaScript falsy [string | number]. *)
Definition falsy (v : Value) : bool :=
match v with
| VStr s => String.eqb s ""
| VNum n => isNaN n || isZero n
end.

Definition getCellRawValue (state : SpreadsheetState) (row col : Z) : Js.result Value :=
let k := getCellKey row col in
match cellsGet k (cells state) with
| Some cell => Js.Ok (value cell)
| None =>
    if Z.ltb row (Z.of_nat (length (items (data state))))
       && Z.ltb col (Z.of_nat (length (columns (data state)))) then
      match Js.index (items (data state)) row,
            Js.index (columns (data state)) col with
      | Some item, Some column =>
          match item !! key column with
          | Some v => Js.Ok (if falsy v then VStr "" else v)
          | None => Js.Ok (VStr "")
          end
      | _, _ => Js.Throw Js.TypeError
      end
    else Js.Ok (VStr "")
end.

Definition getCellDisplayValue (state : SpreadsheetState) (row col : Z)
: Js.result string :=
rawValue ← getCellRawValue state row col;
let localized :=
  if Z.ltb col (Z.of_nat (length (columns (data state)))) then
    match Js.index (columns (data state)) col, rawValue with
    | Some column, VNum n =>
        match type column with
        | number_ | currency => Some (toLocaleDisplay n)
        | _ => None
        end
    | _, _ => None
    end
  else None in
Js.Ok (default (valueToString rawValue) localized).

(** [state.cells[key]?.style || {}] *)
Definition getCellStyle (state : SpreadsheetState) (row col : Z) : CellStyle :=
default noStyle (cellsGet (getCellKey row col) (cells state) ≫= style).

(** ** The range move ([Spreadsheet.tsx], [handleMouseUp]) *)

Record MoveEntry : Type := {
sourcePos : CellPosition;
targetPos : CellPosition;
entryValue : string;
entryStyle : CellStyle
}.

(** The body of the two nested loops, at one [(row, col)]: nothing is
  collected unless the target is inside the dataset and the displayed
  value is a non-empty string. *)
Definition collectCell (state : SpreadsheetState) (rowOffset colOffset row col : Z)
: Js.result (list MoveEntry) :=
let newRow := row + rowOffset in
let newCol := col + colOffset in
if Z.leb 0 newRow && Z.ltb newRow (Z.of_nat (length (items (data state))))
   && Z.leb 0 newCol && Z.ltb newCol (Z.of_nat (length (columns (data state)))) then
  v ← getCellDisplayValue state row col;
  let st := getCellStyle state row col in
  if negb (String.eqb v "") then
    Js.Ok [ {| sourcePos := {| row := row; col := col |};
               targetPos := {| row := newRow; col := newCol |};
               entryValue := v;
               entryStyle := st |} ]
  else Js.Ok []
else Js.Ok [].

(** A [for] loop whose body appends to the collected list and may throw. *)
Fixpoint forEachAppend {A B} (f : A -> Js.result (list B)) (l : list A)
: Js.result (list B) :=
match l with
| [] => Js.Ok []
| a :: rest => xs ← f a; ys ← forEachAppend f rest; Js.Ok (xs ++ ys)%list
end.

Definition collectCellData (state : SpreadsheetState)
  (minRow maxRow minCol maxCol rowOffset colOffset : Z) : Js.result (list MoveEntry) :=
forEachAppend
  (fun row =>
     forEachAppend
       (fun col => collectCell state rowOffset colOffset row col)
       (seqZ minCol (maxCol - minCol + 1)))
  (seqZ minRow (maxRow - minRow + 1)).

(** The operations dispatched after collection: every source is cleared,
  then every target receives its value and its style, then the selection
  follows the range. *)
Definition moveOperations (cellData : list MoveEntry)
  (minRow maxRow minCol maxCol rowOffset colOffset : Z) : list CellOperation :=
(map (fun cell => SET_VALUE (sourcePos cell) (VStr "")) cellData
 ++ flat_map
      (fun cell =>
         [ SET_VALUE (targetPos cell) (VStr (entryValue cell));
           SET_STYLE (targetPos cell) (entryStyle cell) ])
      cellData
 ++ [ SELECT_RANGE
        {| start := {| row := minRow + rowOffset; col := minCol + colOffset |};
           end_ := {| row := maxRow + rowOffset; col := maxCol + colOffset |} |} ])%list.

(** The move for a drag that started at [(sourceRow, sourceCol)] and was
  released over [(dropRow, dropCol)]. *)
Definition moveRange (now : Z) (state : SpreadsheetState) (draggedRange : CellRange)
  (sourceRow sourceCol dropRow dropCol : Z) : Js.result SpreadsheetState :=
let minRow := Z.min (row (start draggedRange)) (row (end_ draggedRange)) in
let maxRow := Z.max (row (start draggedRange)) (row (end_ draggedRange)) in
let minCol := Z.min (col (start draggedRange)) (col (end_ draggedRange)) in
let maxCol := Z.max (col (start draggedRange)) (col (end_ draggedRange)) in
let rowOffset := dropRow - sourceRow in
let colOffset := dropCol - sourceCol in
cellData ← collectCellData state minRow maxRow minCol maxCol rowOffset colOffset;
dispatchAll now state
  (moveOperations cellData minRow maxRow minCol maxCol rowOffset colOffset).


End Engine.

(** ** A reference host

    An executable [Host] on exact decimal numbers, used for the concrete
    runs below.  It follows an ECMAScript engine in the [en-US] locale and
    the UTC time zone on plain decimal literals (no exponent part, no
    [Infinity]) and on ASCII text; it is one host among those the theorems
    quantify over. *)

Module RefHost.

(** [Dec m e] is the number [m / 10^e]. *)
Inductive dec : Set :=
| NaN
| Dec (m : Z) (e : nat).

Definition isSpace (a : ascii) : bool :=
  let n := nat_of_ascii a in
  (n =? 32)%nat || ((9 <=? n)%nat && (n <=? 13)%nat).

Definition isDigit (a : ascii) : bool :=
  let n := nat_of_ascii a in (48 <=? n)%nat && (n <=? 57)%nat.

Definition digitValue (a : ascii) : Z := Z.of_nat (nat_of_ascii a) - 48.

Fixpoint dropWhile (p : ascii -> bool) (l : list ascii) : list ascii :=
  match l with
  | a :: rest => if p a then dropWhile p rest else l
  | [] => []
  end.

Fixpoint takeWhile (p : ascii -> bool) (l : list ascii) : list ascii :=
  match l with
  | a :: rest => if p a then a :: takeWhile p rest else []
  | [] => []
  end.

Definition digitsValue (l : list ascii) : Z :=
  fold_left (fun acc a => 10 * acc + digitValue a) l 0.

Definition trim (s : string) : string :=
  string_of_list_ascii
    (rev (dropWhile isSpace (rev (dropWhile isSpace (list_ascii_of_string s))))).

Definition lowerChar (a : ascii) : ascii :=
  let n := nat_of_ascii a in
  if (65 <=? n)%nat && (n <=? 90)%nat then ascii_of_nat (n + 32) else a.

Definition toLowerCase (s : string) : string :=
  string_of_list_ascii (map lowerChar (list_ascii_of_string s)).

(** The longest prefix made of blanks, an optional sign, digits and an
    optional point followed by digits, with at least one digit. *)
Definition parseFloat (s : string) : dec :=
  let l := dropWhile isSpace (list_ascii_of_string s) in
  let '(negative, l) :=
    match l with
    | a :: rest =>
        if Ascii.eqb a "-" then (true, rest)
        else if Ascii.eqb a "+" then (false, rest)
        else (false, l)
    | [] => (false, l)
    end in
  let ip := takeWhile isDigit l in
  let after := dropWhile isDigit l in
  let fp :=
    match after with
    | a :: rest => if Ascii.eqb a "." then takeWhile isDigit rest else []
    | [] => []
    end in
  match (ip ++ fp)%list with
  | [] => NaN
  | ds => Dec ((if negative then -1 else 1) * digitsValue ds) (length fp)
  end.

Definition isNaN (x : dec) : bool :=
  match x with NaN => true | Dec _ _ => false end.

Definition isZero (x : dec) : bool :=
  match x with NaN => false | Dec m _ => Z.eqb m 0 end.

Fixpoint padZeros (n : nat) (l : list ascii) : list ascii :=
  if (length l <? n)%nat
  then match n with
       | O => l
       | S n' => "0"%char :: padZeros n' l
       end
  else l.

(** The digits of [|m| / 10^e], as integer part and [e] fraction digits. *)
Definition digitsOf (m : Z) (e : nat) : list ascii * list ascii :=
  let a := Z.abs m in
  let p := 10 ^ Z.of_nat e in
  (list_ascii_of_string (Js.toString (a / p)),
   match e with
   | O => []
   | _ => padZeros e (list_ascii_of_string (Js.toString (a mod p)))
   end).

Definition stripZeros (l : list ascii) : list ascii :=
  rev (dropWhile (fun a => Ascii.eqb a "0") (rev l)).

(** [m / 10^e] rounded to [d] fraction digits, half away from zero. *)
Definition roundTo (m : Z) (e d : nat) : Z :=
  let a := Z.abs m in
  let q := (2 * a * 10 ^ Z.of_nat d + 10 ^ Z.of_nat e) / (2 * 10 ^ Z.of_nat e) in
  if Z.ltb m 0 then - q else q.

Fixpoint groupRev (l : list ascii) (fuel : nat) : list ascii :=
  match fuel with
  | O => l
  | S fuel' =>
      match l with
      | a :: b :: c :: (d :: _) as rest =>
          a :: b :: c :: ","%char :: groupRev rest fuel'
      | _ => l
      end
  end.

(** Commas between groups of three digits. *)
Definition group (l : list ascii) : list ascii :=
  rev (groupRev (rev l) (length l)).

Definition withFraction (ip fp : list ascii) : list ascii :=
  match fp with
  | [] => ip
  | _ => (ip ++ "."%char :: fp)%list
  end.

Definition signOf (m : Z) : list ascii :=
  if Z.ltb m 0 then ["-"%char] else [].

Definition numberToString (x : dec) : string :=
  match x with
  | NaN => "NaN"
  | Dec m e =>
      let '(ip, fp) := digitsOf m e in
      string_of_list_ascii
        ((if Z.eqb m 0 then [] else signOf m) ++ withFraction ip (stripZeros fp))%list
  end.

(** The fixed-point rendering shared by the locale formatters. *)
Definition fixed (grouped : bool) (m : Z) (e d : nat) : list ascii :=
  let '(ip, fp) := digitsOf (roundTo m e d) d in
  withFraction (if grouped then group ip else ip) fp.

(** A digit count read from a number: its floor, when in [0 .. 100]. *)
Definition digitCount (x : dec) : option nat :=
  match x with
  | NaN => None
  | Dec m e =>
      let f := m / 10 ^ Z.of_nat e in
      if Z.leb 0 f && Z.leb f 100 then Some (Z.to_nat f) else None
  end.

Definition toLocaleFixed (x d : dec) : Js.result string :=
  match digitCount d with
  | None => Js.Throw Js.RangeError
  | Some k =>
      Js.Ok match x with
            | NaN => "NaN"
            | Dec m e => string_of_list_ascii (signOf m ++ fixed true m e k)%list
            end
  end.

Definition toLocaleDisplay (x : dec) : string :=
  match x with
  | NaN => "NaN"
  | Dec m e =>
      let '(ip, fp) := digitsOf (roundTo m e 2) 2 in
      string_of_list_ascii (signOf m ++ withFraction (group ip) (stripZeros fp))%list
  end.

Definition isLetter (a : ascii) : bool :=
  let n := nat_of_ascii (lowerChar a) in (97 <=? n)%nat && (n <=? 122)%nat.

Definition formatCurrency (code : string) (x : dec) : Js.result string :=
  let cs := list_ascii_of_string code in
  if (length cs =? 3)%nat && forallb isLetter cs then
    let symbol :=
      if String.eqb (toLowerCase code) "usd" then "$" else code ++ " " in
    Js.Ok match x with
          | NaN => symbol ++ "NaN"
          | Dec m e =>
              string_of_list_ascii (signOf m) ++ symbol
                ++ string_of_list_ascii (fixed true m e 2)
          end
  else Js.Throw Js.RangeError.

Definition toFixed1 (x : dec) : string :=
  match x with
  | NaN => "NaN"
  | Dec m e => string_of_list_ascii (signOf m ++ fixed false m e 1)%list
  end.

(** Dates: [YYYY-MM-DD] and [MM/DD/YYYY] are read, as year, month
    (from 1) and day; anything else is an invalid date. *)
Definition date : Set := option (Z * Z * Z).

Definition allDigits (l : list ascii) : bool :=
  negb (length l =? 0)%nat && forallb isDigit l.

Definition checkedDate (y m d : list ascii) : date :=
  if allDigits y && allDigits m && allDigits d
     && Z.leb 1 (digitsValue m) && Z.leb (digitsValue m) 12
     && Z.leb 1 (digitsValue d) && Z.leb (digitsValue d) 31
  then Some (digitsValue y, digitsValue m, digitsValue d)
  else None.

Definition newDate (s : string) : date :=
  match map list_ascii_of_string (Js.split "-" s) with
  | [y; m; d] => checkedDate y m d
  | _ =>
      match map list_ascii_of_string (Js.split "/" s) with
      | [m; d; y] => checkedDate y m d
      | _ => None
      end
  end.

Definition dateIsInvalid (d : date) : bool :=
  match d with Some _ => false | None => true end.

Definition getMonth (d : date) : Z :=
  match d with Some (_, m, _) => m - 1 | None => 0 end.

Definition getDate (d : date) : Z :=
  match d with Some (_, _, x) => x | None => 0 end.

Definition getFullYear (d : date) : Z :=
  match d with Some (y, _, _) => y | None => 0 end.

Definition plain (a : ascii) : bool :=
  negb (isSpace a) && negb (Ascii.eqb a "@").

(** Some point of [l] has at least one character on each side. *)
Fixpoint innerPoint (l : list ascii) : bool :=
  match l with
  | _ :: ((b :: (_ :: _)) as rest) => Ascii.eqb b "." || innerPoint rest
  | _ => false
  end.

Definition emailRegexTest (s : string) : bool :=
  match map list_ascii_of_string (Js.split "@" s) with
  | [localPart; domain] =>
      negb (length localPart =? 0)%nat
      && forallb plain localPart && forallb plain domain && innerPoint domain
  | _ => false
  end.

Definition urlParses (s : string) : bool :=
  let rest :=
    if String.prefix "http://" s then Some (String.substring 7 (String.length s) s)
    else if String.prefix "https://" s then Some (String.substring 8 (String.length s) s)
    else None in
  match rest with
  | Some r =>
      negb (String.eqb r "")
      && forallb (fun a => negb (isSpace a)) (list_ascii_of_string r)
  | None => false
  end.

#[export] Instance host : Host :=
  Build_Host dec (fun n => Dec n 0) isNaN isZero numberToString parseFloat
    toLocaleFixed toLocaleDisplay formatCurrency toFixed1 trim toLowerCase
    date newDate dateIsInvalid getMonth getDate getFullYear
    emailRegexTest urlParses.

End RefHost.

(** ** Vocabulary of the statements *)

(** [c] occurs in [s]. *)
Fixpoint occurs (c : ascii) (s : string) : bool :=
  match s with
  | EmptyString => false
  | String a rest => Ascii.eqb a c || occurs c rest
  end.

Section Vocabulary.
Context `{JS : Host}.

(** What [SET_VALUE] does when it skips validation: the column is missing
    or the value is the empty string. *)
Definition storeValue (s : SpreadsheetState) (p : CellPosition) (v : Value)
  : SpreadsheetState :=
  let k := getCellKey (row p) (col p) in
  saveToHistory (putCell s k (cellWithValue (cellsGet k (cells s)) v)).

(** What [SET_STYLE] does. *)
Definition storeStyle (s : SpreadsheetState) (p : CellPosition) (st : CellStyle)
  : SpreadsheetState :=
  let k := getCellKey (row p) (col p) in
  putCell s k (cellWithStyle (default emptyCell (cellsGet k (cells s))) st).

(** The out-of-range operations that a guard of [dispatch] turns away, and
    [SORT_COLUMN], which has no case in the switch. *)
Definition turnedAway (s : SpreadsheetState) (op : CellOperation) : Prop :=
  match op with
  | DELETE_COLUMN i => Z.of_nat (length (columns (data s))) <= i
  | DELETE_ROW i => Z.of_nat (length (items (data s))) <= i
  | UPDATE_COLUMN_NAME i _
  | UPDATE_COLUMN_TYPE i _ _ =>
      i < 0 \/ Z.of_nat (length (columns (data s))) <= i
  | SORT_COLUMN _ _ => True
  | _ => False
  end.

(** The history pointer sits on the last entry. *)
Definition atTip (s : SpreadsheetState) : Prop :=
  historyIndex s = Z.of_nat (length (history s)) - 1.

(** What the code does keep of the history invariant: the pointer may sit
    one past the last entry. *)
Definition historyBounds (s : SpreadsheetState) : Prop :=
  -1 <= historyIndex s <= Z.of_nat (length (history s))
  /\ (length (history s) <= 50)%nat.

(** Every key is the key of a position with non-negative coordinates. *)
Definition wellKeyed (keys : list string) : Prop :=
  Forall (fun k => exists r c, 0 <= r /\ 0 <= c /\ k = getCellKey r c) keys.

(** An order of the keys in which the delete loop at [d] clobbers nothing:
    no key of a column [c + 1 > d] comes before the key of the same row one
    column to the left. *)
Definition safeOrder (d : Z) (keys : list string) : Prop :=
  forall l1 l2 l3 r c,
    0 <= r -> d <= c ->
    keys = (l1 ++ getCellKey r (c + 1) :: l2 ++ getCellKey r c :: l3)%list ->
    False.

(** What the override map of [m] must hold at [(r, c)] while the keys of
    [rest] are still to be visited by the delete loop at [d]. *)
Definition pending (d : Z) (m : Cells) (rest : list string) (r c : Z) : option Cell :=
  if decide (getCellKey r c ∈ rest) then cellsGet (getCellKey r c) m
  else if Z.ltb c d then cellsGet (getCellKey r c) m
  else if decide (getCellKey r (c + 1) ∈ rest) then None
  else cellsGet (getCellKey r (c + 1)) m.

(** The value that [SET_VALUE] puts into the override: the formatted value
    of the column's validation when there is one, else the value given. *)
Definition storedValue (s : SpreadsheetState) (p : CellPosition) (v : Value)
  : Js.result Value :=
  match Js.index (columns (data s)) (col p) with
  | Some column =>
      if notEmptyString v then
        validation ← validateCellValue v (columnTypeName (type column)) (format column);
        Js.Ok (finalValue validation v)
      else Js.Ok v
  | None => Js.Ok v
  end.

(** [op] writes no override under key [k] and does not touch the dataset:
    a value or style write under another key, or a selection. *)
Definition leaves (k : string) (op : CellOperation) : Prop :=
  match op with
  | SET_VALUE p _ | SET_STYLE p _ => getCellKey (row p) (col p) <> k
  | SELECT_CELL _ | SELECT_RANGE _ => True
  | _ => False
  end.

(** [(r, c)] is inside the dataset. *)
Definition inBounds (s : SpreadsheetState) (r c : Z) : Prop :=
  0 <= r < Z.of_nat (length (items (data s)))
  /\ 0 <= c < Z.of_nat (length (columns (data s))).


End Vocabulary.

(** The dataset of the repository's own tests ([useSpreadsheet.test.ts]),
    on the reference host. *)
Module Sample.
Import RefHost.

Definition column (k : string) (t : ColumnType) : SpreadsheetColumn :=
  {| key := k; name := k; type := t; format := None |}.

Definition mockData : SpreadsheetData :=
  {| columns := [ column "product" text;
                  column "2020" currency;
                  column "2021" currency ];
     items := [ list_to_map [ ("product", VStr "Widget A");
                              ("2020", VNum (Dec 100 0));
                              ("2021", VNum (Dec 150 0)) ];
                list_to_map [ ("product", VStr "Widget B");
                              ("2020", VNum (Dec 200 0));
                              ("2021", VNum (Dec 250 0)) ] ] |}.

Definition loaded : SpreadsheetState := useSpreadsheet (Some mockData).

Definition at_ (r c : Z) : CellPosition := {| row := r; col := c |}.

(** The state after dispatching [ops] on the loaded store. *)
Definition run (ops : list CellOperation) : SpreadsheetState :=
  Js.get loaded (dispatchAll 0 loaded ops).


Definition twoEdits : list CellOperation :=
  [ SET_VALUE (at_ 0 0) (VStr "a"); SET_VALUE (at_ 0 0) (VStr "b") ].

Definition twoCommits : SpreadsheetState := run twoEdits.




Definition outOfBoundsWrite : SpreadsheetState :=
  run [ SET_VALUE (at_ 10 10) (VStr "x") ].

Definition changed : SpreadsheetState :=
  run [ SET_VALUE (at_ 0 0) (VStr "Changed Value") ].

Definition changedUndone : SpreadsheetState :=
  run ([ SET_VALUE (at_ 0 0) (VStr "Changed Value") ] ++ [ UNDO ]).

(** The override of column 2 is written before that of column 1. *)
Definition laterColumnFirst : list CellOperation :=
  [ SET_VALUE (at_ 0 2) (VStr "2"); SET_VALUE (at_ 0 1) (VStr "1") ].

(** The range [[(0,0),(1,1)]]. *)
Definition square : CellRange := {| start := at_ 0 0; end_ := at_ 1 1 |}.

(** The test dataset after [square] was dragged from [(0,0)] to [(1,1)]. *)
Definition mockMoved : SpreadsheetState :=
  Js.get loaded (moveRange 0 loaded square 0 0 1 1).

(** A text column next to a number column. *)
Definition ledger : SpreadsheetData :=
  {| columns := [ column "label" text; column "amount" number_ ];
     items := [ list_to_map [ ("label", VStr "5"); ("amount", VNum (Dec 1 0)) ];
                list_to_map [ ("label", VStr "x"); ("amount", VNum (Dec 2 0)) ] ] |}.

Definition ledgerLoaded : SpreadsheetState := useSpreadsheet (Some ledger).



Definition zeroDecimals : Format :=
  {| decimals := Some (Dec 0 0); currency_ := None;
     dateFormat := None; validation := None |}.

(** What an override shows, as a string. *)
Definition shown (c : option Cell) : option string :=
  valueToString <$> (value <$> c).

End Sample.

(** ** More of [cellUtils.ts] *)

(** [String.fromCharCode(n)], for the code units below 128 that the column
    names are made of. *)
Definition fromCharCode (n : Z) : ascii := ascii_of_nat (Z.to_nat n).

(** The loop of [getColumnName]: [fuel] bounds the number of rounds, and
    [Z.to_nat (index + 1)] rounds are always enough, because every round
    lowers a non-negative [index]. *)
Fixpoint getColumnNameLoop (fuel : nat) (index : Z) (result : string) : string :=
  match fuel with
  | O => result
  | S fuel' =>
      if Z.leb 0 index then
        getColumnNameLoop fuel' (index / 26 - 1)
          (String (fromCharCode (65 + index mod 26)) result)
      else result
  end.

Definition getColumnName (index : Z) : string :=
  getColumnNameLoop (Z.to_nat (index + 1)) index "".

Definition isInRange (position : CellPosition) (range : CellRange) : bool :=
  Z.leb (Z.min (row (start range)) (row (end_ range))) (row position)
  && Z.leb (row position) (Z.max (row (start range)) (row (end_ range)))
  && Z.leb (Z.min (col (start range)) (col (end_ range))) (col position)
  && Z.leb (col position) (Z.max (col (start range)) (col (end_ range))).

Definition normalizeRange (range : CellRange) : CellRange :=
  {| start := {| row := Z.min (row (start range)) (row (end_ range));
                 col := Z.min (col (start range)) (col (end_ range)) |};
     end_ := {| row := Z.max (row (start range)) (row (end_ range));
                col := Z.max (col (start range)) (col (end_ range)) |} |}.

Section MoreEngine.
Context `{JS : Host}.

(** [getCellValue]: the base dataset read, with its own guards. *)
Definition getCellValue (row col : Z) (data : SpreadsheetData) : string :=
  match Js.index (items data) row, Js.index (columns data) col with
  | Some item, Some column =>
      match item !! key column with
      | Some v => if falsy v then "" else valueToString v
      | None => ""
      end
  | _, _ => ""
  end.

Definition formatCellValue (v : Value) : string :=
  match v with
  | VNum n => toLocaleDisplay n
  | VStr s => s
  end.

(** ** More of [Spreadsheet.tsx] *)

(** [isSelected], [isInRange] and [isEditing] of the component. *)
Definition isSelected (state : SpreadsheetState) (r c : Z) : bool :=
  match selectedCell state with
  | Some p => Z.eqb (row p) r && Z.eqb (col p) c
  | None => false
  end.

Definition isInSelectedRange (state : SpreadsheetState) (r c : Z) : bool :=
  match selectedRange state with
  | None => false
  | Some range =>
      let minRow := Z.min (row (start range)) (row (end_ range)) in
      let maxRow := Z.max (row (start range)) (row (end_ range)) in
      let minCol := Z.min (col (start range)) (col (end_ range)) in
      let maxCol := Z.max (col (start range)) (col (end_ range)) in
      Z.leb minRow r && Z.leb r maxRow && Z.leb minCol c && Z.leb c maxCol
  end.


(** The fields of a [KeyboardEvent] that the key handler reads. *)
Record KeyboardEvent : Set := {
  eventKey : string;
  ctrlKey : bool;
  metaKey : bool;
  shiftKey : bool
}.

(** [handleKeyDown] of the document: the operations it dispatches, in
    order.  The [switch] comes first, then the undo and redo chords, then
    the move of the selection. *)
Definition handleKeyDown (state : SpreadsheetState) (e : KeyboardEvent)
  : list CellOperation :=
  match selectedCell state with
  | None => []
  | Some selected =>
      let r := row selected in
      let c := col selected in
      let k := eventKey e in
      let newPosition : option CellPosition :=
        if String.eqb k "ArrowUp" then
          if Z.ltb 0 r then Some {| row := r - 1; col := c |} else None
        else if String.eqb k "ArrowDown" then
          if Z.ltb r (Z.of_nat (length (items (data state))) - 1)
          then Some {| row := r + 1; col := c |} else None
        else if String.eqb k "ArrowLeft" then
          if Z.ltb 0 c then Some {| row := r; col := c - 1 |} else None
        else if String.eqb k "ArrowRight" then
          if Z.ltb c (Z.of_nat (length (columns (data state))) - 1)
          then Some {| row := r; col := c + 1 |} else None
        else None in
      let fromSwitch : list CellOperation :=
        if String.eqb k "Enter" then
          match editingCell state with
          | Some _ => [STOP_EDITING]
          | None => [START_EDITING selected]
          end
        else if String.eqb k "Escape" then
          match editingCell state with
          | Some _ => [STOP_EDITING]
          | None => []
          end
        else if String.eqb k "Delete" || String.eqb k "Backspace" then
          match editingCell state with
          | Some _ => []
          | None => [SET_VALUE selected (VStr "")]
          end
        else [] in
      let fromChord : list CellOperation :=
        if ctrlKey e || metaKey e then
          if String.eqb k "z" && negb (shiftKey e) then [UNDO]
          else if String.eqb k "y" || (String.eqb k "z" && shiftKey e) then [REDO]
          else []
        else [] in
      let fromMove : list CellOperation :=
        match newPosition with
        | Some p => [SELECT_CELL p]
        | None => []
        end in
      (fromSwitch ++ fromChord ++ fromMove)%list
  end.

(** [handleContextMenuAction]: the operation behind each menu entry, for
    the header at [index]. *)
Definition handleContextMenuAction (index : Z) (action : string) : list CellOperation :=
  if String.eqb action "add-column-left" then [ADD_COLUMN (Some index) None]
  else if String.eqb action "add-column-right" then [ADD_COLUMN (Some (index + 1)) None]
  else if String.eqb action "delete-column" then [DELETE_COLUMN index]
  else if String.eqb action "add-row-above" then [ADD_ROW (Some index)]
  else if String.eqb action "add-row-below" then [ADD_ROW (Some (index + 1))]
  else if String.eqb action "delete-row" then [DELETE_ROW index]
  else [].

(** [getRangeValues]: the displayed value and the column type of every
    cell of the selected range, row by row.  The two arrays are pushed in
    step; here they are the two projections of one list of pairs. *)
Definition getRangeValues (state : SpreadsheetState)
  : Js.result (list string * list string) :=
  match selectedRange state with
  | None => Js.Ok ([], [])
  | Some range =>
      let minRow := Z.min (row (start range)) (row (end_ range)) in
      let maxRow := Z.max (row (start range)) (row (end_ range)) in
      let minCol := Z.min (col (start range)) (col (end_ range)) in
      let maxCol := Z.max (col (start range)) (col (end_ range)) in
      pairs ←
        forEachAppend
          (fun r =>
             forEachAppend
               (fun c =>
                  v ← getCellDisplayValue state r c;
                  let columnType :=
                    match Js.index (columns (data state)) c with
                    | Some column => columnTypeName (type column)
                    | None => "text"
                    end in
                  Js.Ok [(v, columnType)])
               (seqZ minCol (maxCol - minCol + 1)))
          (seqZ minRow (maxRow - minRow + 1));
      Js.Ok (map fst pairs, map snd pairs)
  end.

End MoreEngine.

(** ** Vocabulary of the further statements *)

Section MoreVocabulary.
Context `{JS : Host}.

(** [op] reaches [saveToHistory] when dispatched on [s]. *)
Definition commits (s : SpreadsheetState) (op : CellOperation) : Prop :=
  match op with
  | SET_VALUE _ _ | SET_FORMULA _ _ | ADD_COLUMN _ _ | ADD_ROW _ => True
  | DELETE_COLUMN i => i < Z.of_nat (length (columns (data s)))
  | DELETE_ROW i => i < Z.of_nat (length (items (data s)))
  | UPDATE_COLUMN_NAME i _
  | UPDATE_COLUMN_TYPE i _ _ => 0 <= i < Z.of_nat (length (columns (data s)))
  | _ => False
  end.

(** At most one of the two selections is set. *)
Definition exclusive (s : SpreadsheetState) : Prop :=
  selectedCell s = None \/ selectedRange s = None.

(** The two situations in which [dispatch] can raise: a value written into
    a number or currency column, whose formatter may reject the column's
    format, and a column deleted at a negative index from a dataset that
    has rows. *)
Definition mayRaise (s : SpreadsheetState) (op : CellOperation) : Prop :=
  match op with
  | SET_VALUE p v =>
      exists column,
        Js.index (columns (data s)) (col p) = Some column
        /\ (type column = number_ \/ type column = currency)
        /\ isBlank v = false
  | DELETE_COLUMN i => i < 0 /\ items (data s) <> []
  | _ => False
  end.

(** [exclusive] for the state and for every snapshot it keeps. *)
Definition selectionInv (s : SpreadsheetState) : Prop :=
  exclusive s /\ Forall exclusive (history s).

(** The order of the keys that is safe for the row loop at [d]: no key of
    a row [r + 1 > d] comes before the key of the same column one row
    up. *)
Definition safeOrderRows (d : Z) (keys : list string) : Prop :=
  forall l1 l2 l3 r c,
    d <= r -> 0 <= c ->
    keys = (l1 ++ getCellKey (r + 1) c :: l2 ++ getCellKey r c :: l3)%list ->
    False.

(** [pending] for the row loop. *)
Definition pendingRows (d : Z) (m : Cells) (rest : list string) (r c : Z) : option Cell :=
  if decide (getCellKey r c ∈ rest) then cellsGet (getCellKey r c) m
  else if Z.ltb r d then cellsGet (getCellKey r c) m
  else if decide (getCellKey (r + 1) c ∈ rest) then None
  else cellsGet (getCellKey (r + 1) c) m.

(** [op] writes the override of position [p]. *)
Definition writesAt (p : CellPosition) (op : CellOperation) : Prop :=
  match op with
  | SET_VALUE q _ | SET_STYLE q _ | SET_FORMULA q _ => q = p
  | _ => False
  end.



End MoreVocabulary.

(** ** Further runs on the test dataset *)

Module MoreSample.
Import RefHost Sample.

Definition firstEdit : CellOperation := SET_VALUE (at_ 0 0) (VStr "a").
Definition secondEdit : CellOperation := SET_VALUE (at_ 0 0) (VStr "b").

Definition firstCommit : SpreadsheetState := run [firstEdit].

(** One column appended at clock reading [0]. *)
Definition columnAdded : SpreadsheetState := run [ADD_COLUMN None None].

Definition twoOverrides : SpreadsheetState := run laterColumnFirst.

Definition columnInserted : SpreadsheetState :=
  run (laterColumnFirst ++ [ADD_COLUMN (Some 1) None]).

(** One override, right of the first column. *)
Definition priced : SpreadsheetState := run [SET_VALUE (at_ 0 1) (VStr "7")].

(** One override, below the first row. *)
Definition secondRowEdited : SpreadsheetState :=
  run [SET_VALUE (at_ 1 0) (VStr "7")].

Definition cursor : SpreadsheetState := run [SELECT_CELL (at_ 0 0)].

Definition arrowDown : KeyboardEvent :=
  {| eventKey := "ArrowDown"; ctrlKey := false; metaKey := false; shiftKey := false |}.

Definition squareSelected : SpreadsheetState := run [SELECT_RANGE square].

Definition deleteKey : KeyboardEvent :=
  {| eventKey := "Delete"; ctrlKey := false; metaKey := false; shiftKey := false |}.


End MoreSample.

(** * Proofs *)

#[local] Arguments String.append !_ _ / : simpl nomatch.
#[local] Arguments dispatch : simpl never.
#[local] Arguments saveToHistory : simpl never.

(** ** Cell addressing *)

Section Addressing.

Lemma append_assoc_cons (s : string) (a : ascii) (t : string) :
  (s ++ String a EmptyString) ++ t = s ++ String a t.
Proof. induction s as [|b s IH]; simpl; [reflexivity | now f_equal]. Qed.

Lemma append_empty_r (s : string) : s ++ "" = s.
Proof. induction s as [|b s IH]; simpl; [reflexivity | now f_equal]. Qed.

Lemma splitAux_no_sep (sep : ascii) (s acc : string) :
  occurs sep s = false -> Js.splitAux sep acc s = [acc ++ s].
Proof.
  revert acc. induction s as [|a s IH]; intros acc Hs; simpl in *.
  - now rewrite append_empty_r.
  - apply orb_false_iff in Hs as [Ha Hs]. rewrite Ha.
    rewrite IH by assumption. now rewrite append_assoc_cons.
Qed.

Lemma splitAux_at_sep (sep : ascii) (s t acc : string) :
  occurs sep s = false ->
  Js.splitAux sep acc (s ++ String sep t) = (acc ++ s) :: Js.splitAux sep "" t.
Proof.
  revert acc. induction s as [|a s IH]; intros acc Hs; simpl in *.
  - rewrite Ascii.eqb_refl. now rewrite append_empty_r.
  - apply orb_false_iff in Hs as [Ha Hs]. rewrite Ha.
    rewrite IH by assumption. now rewrite append_assoc_cons.
Qed.

Lemma digits_no_dash (d : Decimal.uint) :
  occurs "-" (NilEmpty.string_of_uint d) = false.
Proof. induction d; simpl; auto. Qed.

(** A non-negative integer prints as its run of digits. *)
Lemma toString_nonneg (n : Z) :
  0 <= n ->
  exists d, Js.toString n = NilEmpty.string_of_uint d /\ Z.of_uint d = n.
Proof.
  intros Hn. unfold Js.toString.
  destruct n as [|p|p]; [| |lia].
  - exists (Decimal.D0 Decimal.Nil). split; reflexivity.
  - exists (Pos.to_uint p). split.
    + simpl. unfold NilZero.string_of_uint.
      destruct (Pos.to_uint p) eqn:E; try reflexivity.
      exfalso. now apply (DecimalPos.Unsigned.to_uint_nonnil p).
    + change (Z.of_int (Z.to_int (Z.pos p)) = Z.pos p). apply DecimalZ.of_to.
Qed.

Lemma toString_no_dash (n : Z) : 0 <= n -> occurs "-" (Js.toString n) = false.
Proof.
  intros Hn. destruct (toString_nonneg n Hn) as (d & -> & _).
  apply digits_no_dash.
Qed.

Lemma Number_toString (n : Z) : 0 <= n -> Js.Number (Js.toString n) = Some n.
Proof.
  intros Hn. destruct (toString_nonneg n Hn) as (d & -> & Hd).
  unfold Js.Number. rewrite NilEmpty.usu. now rewrite Hd.
Qed.

Lemma split_key (r c : Z) :
  0 <= r -> 0 <= c ->
  Js.split "-" (getCellKey r c) = [Js.toString r; Js.toString c].
Proof.
  intros Hr Hc. unfold Js.split, getCellKey, getCellKeyNum, Js.numString.
  change (Js.toString r ++ "-" ++ Js.toString c)
    with (Js.toString r ++ String "-" (Js.toString c)).
  rewrite splitAux_at_sep by now apply toString_no_dash.
  rewrite splitAux_no_sep by now apply toString_no_dash.
  reflexivity.
Qed.

Lemma parse_key (r c : Z) :
  0 <= r -> 0 <= c -> parseCellKey (getCellKey r c) = (Some r, Some c).
Proof.
  intros Hr Hc. unfold parseCellKey. rewrite split_key by assumption.
  simpl. now rewrite !Number_toString by assumption.
Qed.

(** C8.  For all non-negative integers [r] and [c], decoding the key that
    encodes [(r, c)] gives back [(r, c)], and encoding what was decoded
    gives back the key: [parseCellKey] and [getCellKey] are inverse to each
    other on non-negative pairs.  Neither function looks at any bound: the
    statement holds for every such pair, whatever the dataset. *)
Theorem parseCellKey_getCellKey (r c : Z) :
  0 <= r -> 0 <= c ->
  parseCellKey (getCellKey r c) = (Some r, Some c)
  /\ getCellKeyNum (fst (parseCellKey (getCellKey r c)))
                   (snd (parseCellKey (getCellKey r c)))
     = getCellKey r c.
Proof.
  intros Hr Hc. rewrite parse_key by assumption. split; reflexivity.
Qed.

Lemma parseCellKey_getCellKey_witness :
  0 <= 12 /\ 0 <= 0 /\ parseCellKey (getCellKey 12 0) = (Some 12, Some 0).
Proof.
  split; [lia|]. split; [lia|].
  apply (parseCellKey_getCellKey 12 0); lia.
Defined.

(** The keys of distinct non-negative positions differ. *)
Lemma getCellKey_inj (r c r' c' : Z) :
  0 <= r -> 0 <= c -> 0 <= r' -> 0 <= c' ->
  getCellKey r c = getCellKey r' c' -> r = r' /\ c = c'.
Proof.
  intros Hr Hc Hr' Hc' E.
  pose proof (f_equal parseCellKey E) as P.
  rewrite !parse_key in P by assumption. now injection P as -> ->.
Qed.

End Addressing.

(** ** The [cells] object and the readers *)

Section Store.
Context `{JS : Host}.

(** A sequence that returns has an intermediate result. *)
Lemma bind_Ok {A B} (m : Js.result A) (k : A -> Js.result B) (b : B) :
  (x ← m; k x) = Js.Ok b -> exists a, m = Js.Ok a /\ k a = Js.Ok b.
Proof. destruct m as [a|e]; simpl; [eauto | discriminate]. Qed.

Lemma cellsGet_cellsSet_eq (k : string) (c : Cell) (m : Cells) :
  cellsGet k (cellsSet k c m) = Some c.
Proof.
  induction m as [|[k' c'] m IH]; simpl.
  - now rewrite String.eqb_refl.
  - destruct (String.eqb k k') eqn:E; simpl.
    + now rewrite String.eqb_refl.
    + now rewrite E.
Qed.

Lemma cellsGet_cellsSet_ne (k k' : string) (c : Cell) (m : Cells) :
  k <> k' -> cellsGet k' (cellsSet k c m) = cellsGet k' m.
Proof.
  intros Hne. induction m as [|[k0 c0] m IH]; simpl.
  - destruct (String.eqb k' k) eqn:E; [|reflexivity].
    apply String.eqb_eq in E. congruence.
  - destruct (String.eqb k k0) eqn:E; simpl.
    + apply String.eqb_eq in E. subst k0.
      destruct (String.eqb k' k) eqn:E'; [|reflexivity].
      apply String.eqb_eq in E'. congruence.
    + now rewrite IH.
Qed.

Lemma cellsGet_cellsDelete_eq (k : string) (m : Cells) :
  cellsGet k (cellsDelete k m) = None.
Proof.
  induction m as [|[k' c'] m IH]; simpl; [reflexivity|].
  destruct (String.eqb k k') eqn:E; simpl; [assumption|]. now rewrite E.
Qed.

Lemma cellsGet_cellsDelete_ne (k k' : string) (m : Cells) :
  k <> k' -> cellsGet k' (cellsDelete k m) = cellsGet k' m.
Proof.
  intros Hne. induction m as [|[k0 c0] m IH]; simpl; [reflexivity|].
  destruct (String.eqb k k0) eqn:E; simpl.
  - apply String.eqb_eq in E. subst k0.
    destruct (String.eqb k' k) eqn:E'; [|assumption].
    apply String.eqb_eq in E'. congruence.
  - now rewrite IH.
Qed.

Lemma dispatch_SET_VALUE_empty (now : Z) (s : SpreadsheetState) (p : CellPosition) :
  dispatch now s (SET_VALUE p (VStr "")) = Js.Ok (storeValue s p (VStr "")).
Proof.
  unfold dispatch, storeValue.
  destruct (Js.index (columns (data s)) (col p)); reflexivity.
Qed.

Lemma dispatch_SET_VALUE_no_column (now : Z) (s : SpreadsheetState)
    (p : CellPosition) (v : Value) :
  Js.index (columns (data s)) (col p) = None ->
  dispatch now s (SET_VALUE p v) = Js.Ok (storeValue s p v).
Proof. intros E. unfold dispatch, storeValue. now rewrite E. Qed.

Lemma getCellRawValue_override (s : SpreadsheetState) (r c : Z) (cell : Cell) :
  cellsGet (getCellKey r c) (cells s) = Some cell ->
  getCellRawValue s r c = Js.Ok (value cell).
Proof. intros E. unfold getCellRawValue. now rewrite E. Qed.

Lemma getCellDisplayValue_string (s : SpreadsheetState) (r c : Z) (t : string) :
  getCellRawValue s r c = Js.Ok (VStr t) ->
  getCellDisplayValue s r c = Js.Ok t.
Proof.
  intros E. unfold getCellDisplayValue. rewrite E. simpl.
  destruct (Z.ltb c _); [|reflexivity].
  destruct (Js.index _ c); reflexivity.
Qed.

(** C10.  [SET_VALUE] with the empty string, at any position (so at every
    in-bounds one), returns normally and leaves an override under the
    position's key: the previous override with its value replaced by the
    empty string, or a new one.  The override is not removed, so
    [getCellRawValue] and [getCellDisplayValue] answer the empty string
    afterwards, whatever the base dataset holds there. *)
Theorem clearing_shadows_base (now : Z) (s : SpreadsheetState) (r c : Z) :
  exists s',
    dispatch now s (SET_VALUE {| row := r; col := c |} (VStr "")) = Js.Ok s'
    /\ cellsGet (getCellKey r c) (cells s')
       = Some (cellWithValue (cellsGet (getCellKey r c) (cells s)) (VStr ""))
    /\ getCellRawValue s' r c = Js.Ok (VStr "")
    /\ getCellDisplayValue s' r c = Js.Ok "".
Proof.
  eexists. split; [apply dispatch_SET_VALUE_empty|].
  assert (G : cellsGet (getCellKey r c)
                (cells (storeValue s {| row := r; col := c |} (VStr "")))
              = Some (cellWithValue (cellsGet (getCellKey r c) (cells s)) (VStr ""))).
  { unfold storeValue. simpl. apply cellsGet_cellsSet_eq. }
  split; [exact G|].
  assert (R : getCellRawValue (storeValue s {| row := r; col := c |} (VStr "")) r c
              = Js.Ok (VStr "")).
  { rewrite (getCellRawValue_override _ _ _ _ G).
    destruct (cellsGet (getCellKey r c) (cells s)); reflexivity. }
  split; [exact R|]. now apply getCellDisplayValue_string.
Qed.

End Store.

(** ** History *)

Section History.
Context `{JS : Host}.

Lemma slice_prefix {A} (l : list A) (i : Z) :
  -1 <= i -> Js.slice l 0 (i + 1) = take (Z.to_nat (i + 1)) l.
Proof.
  intros Hi. unfold Js.slice, Js.relIndex.
  destruct (Z.ltb_spec (i + 1) 0) as [?|_]; [lia|]. simpl.
  rewrite Nat.sub_0_r, drop_0.
  destruct (Nat.min_spec (Z.to_nat (i + 1)) (length l)) as [[_ ->]|[Hle ->]].
  - reflexivity.
  - now rewrite !take_ge by lia.
Qed.

Lemma sliceFrom_last50 {A} (l : list A) :
  Js.sliceFrom l (-50) = drop (length l - 50) l.
Proof.
  unfold Js.sliceFrom, Js.relIndex. simpl. f_equal. lia.
Qed.

Lemma saveToHistory_below_cap (s : SpreadsheetState) :
  atTip s -> (length (history s) < 50)%nat ->
  history (saveToHistory s) = (history s ++ [s])%list
  /\ historyIndex (saveToHistory s) = Z.of_nat (length (history s)).
Proof.
  unfold atTip. intros Ht Hlen. unfold saveToHistory. simpl.
  rewrite slice_prefix by lia.
  rewrite take_ge by lia.
  rewrite sliceFrom_last50, length_app. simpl.
  replace (length (history s) + 1 - 50)%nat with 0%nat by lia.
  split; [reflexivity | lia].
Qed.

(** The slip: with 50 entries and the pointer on the last one, the pointer
    is set from the 51 entries present before the cut. *)
Lemma saveToHistory_at_cap (s : SpreadsheetState) :
  atTip s -> length (history s) = 50%nat ->
  length (history (saveToHistory s)) = 50%nat
  /\ historyIndex (saveToHistory s) = 50.
Proof.
  unfold atTip. intros Ht Hlen. unfold saveToHistory. simpl.
  rewrite slice_prefix by lia.
  rewrite take_ge by lia.
  rewrite sliceFrom_last50, length_drop, !length_app. simpl. lia.
Qed.

Lemma dispatchAll_app (now : Z) (s : SpreadsheetState) (xs ys : list CellOperation) :
  dispatchAll now s (xs ++ ys) = (s' ← dispatchAll now s xs; dispatchAll now s' ys).
Proof.
  revert s. induction xs as [|x xs IH]; intros s; simpl; [reflexivity|].
  destruct (dispatch now s x) as [s1|e]; simpl; [apply IH | reflexivity].
Qed.

Lemma clears_below_cap (now : Z) (p : CellPosition) (n : nat) (s : SpreadsheetState) :
  atTip s -> (length (history s) + n <= 50)%nat ->
  exists s', dispatchAll now s (repeat (SET_VALUE p (VStr "")) n) = Js.Ok s'
             /\ atTip s'
             /\ length (history s') = (length (history s) + n)%nat.
Proof.
  revert s. induction n as [|n IH]; intros s Ht Hlen.
  - exists s. repeat split; [assumption | lia].
  - simpl. rewrite dispatch_SET_VALUE_empty. simpl. unfold storeValue.
    set (x := putCell s _ _).
    assert (Hx : atTip x) by exact Ht.
    destruct (saveToHistory_below_cap x Hx) as [Hh Hi]; [simpl; lia|].
    destruct (IH (saveToHistory x)) as (s' & Hrun & Ht' & Hlen').
    + unfold atTip. rewrite Hh, Hi, length_app. simpl. lia.
    + rewrite Hh, length_app. simpl. lia.
    + exists s'. split; [exact Hrun|]. split; [exact Ht'|].
      rewrite Hlen', Hh, length_app. simpl. lia.
Qed.

(** C3.  The run that breaks the invariant: from a freshly loaded store,
    51 committing operations (here: clearing one cell) leave 50 history
    entries and [historyIndex = 50], which is [history.length], not the
    index of the last retained entry. *)
Theorem history_index_past_end
    (now : Z) (initialData : option SpreadsheetData) (p : CellPosition) :
  exists s',
    dispatchAll now (useSpreadsheet initialData) (repeat (SET_VALUE p (VStr "")) 51)
      = Js.Ok s'
    /\ length (history s') = 50%nat
    /\ historyIndex s' = 50.
Proof.
  change 51%nat with (50 + 1)%nat. rewrite repeat_app, dispatchAll_app.
  destruct (clears_below_cap now p 50 (useSpreadsheet initialData))
    as (s50 & -> & Ht & Hlen); [reflexivity | simpl; lia |].
  simpl in Hlen. simpl. rewrite dispatch_SET_VALUE_empty. simpl.
  eexists. split; [reflexivity|].
  apply saveToHistory_at_cap; [exact Ht | exact Hlen].
Qed.

Lemma saveToHistory_bounds (x : SpreadsheetState) :
  historyBounds x -> historyBounds (saveToHistory x).
Proof.
  unfold historyBounds. intros [Hi Hlen]. unfold saveToHistory. simpl.
  rewrite slice_prefix by lia.
  rewrite sliceFrom_last50, length_drop, !length_app, !length_take. simpl. lia.
Qed.

(** Every dispatch that returns keeps [historyBounds]. *)
Lemma dispatch_bounds (now : Z) (s s' : SpreadsheetState) (op : CellOperation) :
  historyBounds s -> dispatch now s op = Js.Ok s' -> historyBounds s'.
Proof.
  intros Hb. unfold dispatch.
  destruct op; intros Hd;
    repeat match type of Hd with
           | context [match ?x with _ => _ end] => destruct x eqn:?
           | Js.Ok _ = Js.Ok _ => injection Hd as <-
           | Js.Throw _ = Js.Ok _ => discriminate Hd
           | (_ ← _; _) = Js.Ok _ => apply bind_Ok in Hd as (? & ? & Hd)
           end;
    try (apply saveToHistory_bounds; exact Hb);
    try exact Hb.
  - (* UNDO *)
    destruct Hb as [Hi Hlen]. split; simpl; [|exact Hlen].
    match goal with E : Z.ltb _ _ = true |- _ => apply Z.ltb_lt in E end. lia.
  - (* REDO *)
    destruct Hb as [Hi Hlen]. split; simpl; [|exact Hlen].
    match goal with E : Z.ltb _ _ = true |- _ => apply Z.ltb_lt in E end. lia.
Qed.

(** [UNDO] with the pointer at [0] or below, and [REDO] with the pointer
    on the last entry or beyond, change nothing. *)
Lemma dispatch_UNDO_bottom (now : Z) (s : SpreadsheetState) :
  historyIndex s <= 0 -> dispatch now s UNDO = Js.Ok s.
Proof.
  intros Hi. unfold dispatch.
  destruct (Z.ltb_spec 0 (historyIndex s)); [lia | reflexivity].
Qed.


(** The first commit of a session is therefore never undone: it is entry
    [0] of the history, and the loaded state is no entry at all. *)
Lemma first_commit_not_undone (now : Z) (x : SpreadsheetState) :
  history x = [] -> historyIndex x = -1 ->
  dispatch now (saveToHistory x) UNDO = Js.Ok (saveToHistory x).
Proof.
  intros Hh Hi. apply dispatch_UNDO_bottom.
  unfold saveToHistory. simpl. rewrite Hh, Hi. simpl. lia.
Qed.

End History.

(** ** Operations that are turned away, and those that are not *)

Section Guards.
Context `{JS : Host}.

Lemma index_None {A} (l : list A) (i : Z) :
  i < 0 \/ Z.of_nat (length l) <= i -> Js.index l i = None.
Proof.
  intros Hi. unfold Js.index. destruct (Z.ltb_spec i 0); [reflexivity|].
  apply lookup_ge_None_2. lia.
Qed.

Lemma turnedAway_noop (now : Z) (s : SpreadsheetState) (op : CellOperation) :
  turnedAway s op -> dispatch now s op = Js.Ok s.
Proof.
  destruct op; simpl; intros Hop; try contradiction; unfold dispatch.
  - destruct (Z.ltb_spec index (Z.of_nat (length (columns (data s)))));
      [lia | reflexivity].
  - destruct (Z.ltb_spec index (Z.of_nat (length (items (data s)))));
      [lia | reflexivity].
  - destruct (Z.leb_spec 0 columnIndex); simpl; [|reflexivity].
    destruct (Z.ltb_spec columnIndex (Z.of_nat (length (columns (data s)))));
      [lia | reflexivity].
  - destruct (Z.leb_spec 0 columnIndex); simpl; [|reflexivity].
    destruct (Z.ltb_spec columnIndex (Z.of_nat (length (columns (data s)))));
      [lia | reflexivity].
  - reflexivity.
Qed.

Lemma storeValue_override (s : SpreadsheetState) (p : CellPosition) (v : Value) :
  cellsGet (getCellKey (row p) (col p)) (cells (storeValue s p v))
  = Some (cellWithValue (cellsGet (getCellKey (row p) (col p)) (cells s)) v).
Proof. unfold storeValue. simpl. apply cellsGet_cellsSet_eq. Qed.

Lemma storeStyle_override (s : SpreadsheetState) (p : CellPosition) (st : CellStyle) :
  cellsGet (getCellKey (row p) (col p)) (cells (storeStyle s p st))
  = Some (cellWithStyle
            (default emptyCell (cellsGet (getCellKey (row p) (col p)) (cells s))) st).
Proof. unfold storeStyle. simpl. apply cellsGet_cellsSet_eq. Qed.

(** C1, as the code has it.  [dispatch] returns the state unchanged,
    without raising, for [DELETE_COLUMN] and [DELETE_ROW] at an index at or
    past the end, for [UPDATE_COLUMN_NAME] and [UPDATE_COLUMN_TYPE] at an
    index outside [0 .. length - 1], and for every [SORT_COLUMN].
    [SET_VALUE] and [SET_STYLE] check no bound: at a column outside the
    dataset [SET_VALUE] does not raise and stores the value as an override
    under the key of the position, committing it to the history;
    [SET_STYLE] at any position stores an override carrying the merged
    style. *)
Theorem dispatch_out_of_range (now : Z) (s : SpreadsheetState) :
  (forall op, turnedAway s op -> dispatch now s op = Js.Ok s)
  /\ (forall p v,
        col p < 0 \/ Z.of_nat (length (columns (data s))) <= col p ->
        dispatch now s (SET_VALUE p v) = Js.Ok (storeValue s p v)
        /\ cellsGet (getCellKey (row p) (col p)) (cells (storeValue s p v))
           = Some (cellWithValue (cellsGet (getCellKey (row p) (col p)) (cells s)) v)
        /\ history (storeValue s p v) <> [])
  /\ (forall p st,
        dispatch now s (SET_STYLE p st) = Js.Ok (storeStyle s p st)
        /\ cellsGet (getCellKey (row p) (col p)) (cells (storeStyle s p st))
           = Some (cellWithStyle
                     (default emptyCell
                        (cellsGet (getCellKey (row p) (col p)) (cells s))) st)).
Proof.
  split; [intros op; apply turnedAway_noop|]. split.
  - intros p v Hp. split; [|split].
    + apply dispatch_SET_VALUE_no_column. now apply index_None.
    + apply storeValue_override.
    + unfold storeValue, saveToHistory. simpl.
      rewrite sliceFrom_last50.
      set (h := Js.slice _ _ _). rewrite length_app. simpl.
      intros E. apply (f_equal length) in E.
      rewrite length_drop, length_app in E. simpl in E. lia.
  - intros p st. split; [reflexivity | apply storeStyle_override].
Qed.

End Guards.

(** ** Style changes and undo; number validation *)

Section StyleAndNumbers.
Context `{JS : Host}.

Lemma dispatch_UNDO_restores (now : Z) (s prev : SpreadsheetState) :
  0 < historyIndex s ->
  Js.index (history s) (historyIndex s - 1) = Some prev ->
  dispatch now s UNDO
  = Js.Ok (withHistory prev (history s) (historyIndex s - 1)).
Proof.
  intros Hi Hp. unfold dispatch.
  destruct (Z.ltb_spec 0 (historyIndex s)); [|lia]. now rewrite Hp.
Qed.



End StyleAndNumbers.

(** ** The range move *)

Section Move.
Context `{JS : Host}.

Lemma dispatch_SET_VALUE_eq (now : Z) (s : SpreadsheetState) (p : CellPosition) (v : Value) :
  dispatch now s (SET_VALUE p v)
  = (final ← storedValue s p v; Js.Ok (storeValue s p final)).
Proof.
  unfold dispatch, storedValue, storeValue.
  destruct (Js.index (columns (data s)) (col p)) as [column|]; [|reflexivity].
  destruct (notEmptyString v); [|reflexivity].
  destruct (validateCellValue v _ _); reflexivity.
Qed.


Lemma dispatch_leaves (now : Z) (k : string) (s s' : SpreadsheetState) (op : CellOperation) :
  leaves k op -> dispatch now s op = Js.Ok s' ->
  cellsGet k (cells s') = cellsGet k (cells s) /\ data s' = data s.
Proof.
  destruct op; simpl; intros Hk Hd; try contradiction.
  - rewrite dispatch_SET_VALUE_eq in Hd.
    apply bind_Ok in Hd as (final & _ & [= <-]).
    unfold storeValue. simpl. split; [|reflexivity].
    now apply cellsGet_cellsSet_ne.
  - injection Hd as <-. simpl. split; [|reflexivity].
    now apply cellsGet_cellsSet_ne.
  - injection Hd as <-. split; reflexivity.
  - injection Hd as <-. split; reflexivity.
Qed.








Lemma readers_frame (s s' : SpreadsheetState) (r c : Z) :
  cellsGet (getCellKey r c) (cells s') = cellsGet (getCellKey r c) (cells s) ->
  data s' = data s ->
  getCellRawValue s' r c = getCellRawValue s r c
  /\ getCellDisplayValue s' r c = getCellDisplayValue s r c.
Proof.
  intros Hc Hd.
  assert (R : getCellRawValue s' r c = getCellRawValue s r c).
  { unfold getCellRawValue. now rewrite Hc, Hd. }
  split; [exact R|]. unfold getCellDisplayValue. now rewrite R, Hd.
Qed.







End Move.

(** ** The delete-column remap, when the key order is safe *)

Section Remap.
Context `{JS : Host}.

Lemma cellsGet_not_key (k : string) (m : Cells) :
  k ∉ cellsKeys m -> cellsGet k m = None.
Proof.
  induction m as [|[k' c'] m IH]; simpl; intros Hk; [reflexivity|].
  apply not_elem_of_cons in Hk as [Hne Hk].
  destruct (String.eqb_spec k k'); [contradiction | now apply IH].
Qed.

Lemma cellsGet_key (k : string) (m : Cells) :
  k ∈ cellsKeys m -> exists cell, cellsGet k m = Some cell.
Proof.
  induction m as [|[k' c'] m IH]; simpl; intros Hk; [inversion Hk|].
  destruct (String.eqb_spec k k'); [eauto|].
  apply elem_of_cons in Hk as [?|?]; [contradiction | now apply IH].
Qed.

Lemma key_ne (r c r' c' : Z) :
  0 <= r -> 0 <= c -> 0 <= r' -> 0 <= c' ->
  r <> r' \/ c <> c' -> getCellKey r c <> getCellKey r' c'.
Proof.
  intros Hr Hc Hr' Hc' Hne E.
  apply getCellKey_inj in E as [-> ->]; [|assumption..]. now destruct Hne.
Qed.

Lemma pending_done (d : Z) (m : Cells) (r c : Z) :
  pending d m [] r c
  = if Z.ltb c d then cellsGet (getCellKey r c) m
    else cellsGet (getCellKey r (c + 1)) m.
Proof.
  unfold pending.
  rewrite !decide_False by apply not_elem_of_nil. reflexivity.
Qed.

(** Visiting [k] changes what is pending only at [k] itself and at the
    position left of it. *)
Lemma pending_skip (d : Z) (m : Cells) (k : string) (rest : list string) (r c : Z) :
  getCellKey r c <> k ->
  (Z.ltb c d = true \/ getCellKey r (c + 1) <> k) ->
  pending d m (k :: rest) r c = pending d m rest r c.
Proof.
  intros Hk Hk'. unfold pending.
  destruct (decide (getCellKey r c ∈ rest)) as [Hin|Hout].
  - rewrite decide_True by now right. reflexivity.
  - rewrite decide_False by (intros [?|?]%elem_of_cons; contradiction).
    destruct (Z.ltb c d) eqn:E; [reflexivity|].
    destruct Hk' as [?|Hk']; [discriminate|].
    destruct (decide (getCellKey r (c + 1) ∈ rest)) as [Hin'|Hout'].
    + rewrite decide_True by now right. reflexivity.
    + rewrite decide_False by (intros [?|?]%elem_of_cons; contradiction).
      reflexivity.
Qed.

Lemma remapColumns_pending (d : Z) (m : Cells) :
  0 <= d ->
  NoDup (cellsKeys m) -> wellKeyed (cellsKeys m) -> safeOrder d (cellsKeys m) ->
  forall rest done m',
    cellsKeys m = (done ++ rest)%list ->
    (forall r c, 0 <= r -> 0 <= c ->
                 cellsGet (getCellKey r c) m' = pending d m rest r c) ->
    forall r c, 0 <= r -> 0 <= c ->
                cellsGet (getCellKey r c) (remapColumns d rest m') = pending d m [] r c.
Proof.
  intros Hd Hnd Hwk Hsafe rest.
  induction rest as [|k rest IH]; intros done m' Hkeys Hinv r c Hr Hc.
  - exact (Hinv r c Hr Hc).
  - assert (Hk : k ∈ cellsKeys m) by (rewrite Hkeys; apply elem_of_app; right; left).
    destruct (proj1 (Forall_forall _ _) Hwk k Hk) as (r0 & c0 & Hr0 & Hc0 & ->).
    rewrite Hkeys in Hnd. apply NoDup_app in Hnd as (_ & Hdone & Hnd).
    apply NoDup_cons in Hnd as [Hfresh _].
    (* the override under the key being visited is still the original one *)
    assert (Hhere : cellsGet (getCellKey r0 c0) m' = cellsGet (getCellKey r0 c0) m).
    { rewrite (Hinv r0 c0 Hr0 Hc0). unfold pending.
      rewrite decide_True by left. reflexivity. }
    (* nothing right of it was visited before, when it is at or right of [d] *)
    assert (Hright : d <= c0 -> getCellKey r0 (c0 + 1) ∉ rest ->
                     cellsGet (getCellKey r0 (c0 + 1)) m = None).
    { intros Hdc Hrest. apply cellsGet_not_key. rewrite Hkeys.
      intros [Hin|Hin]%elem_of_app.
      - apply list_elem_of_split in Hin as (l1 & l2 & ->).
        apply (Hsafe l1 l2 rest r0 c0 Hr0 Hdc).
        rewrite Hkeys, <- app_assoc. reflexivity.
      - apply elem_of_cons in Hin as [E|Hin]; [|contradiction].
        apply getCellKey_inj in E as [_ E]; lia. }
    cbn [remapColumns]. rewrite parse_key by assumption.
    unfold Js.strictEq, Js.gt.
    destruct (Z.eqb_spec c0 d) as [->|Hne]; [|destruct (Z.ltb_spec d c0) as [Hgt|Hle]].
    + (* the deleted column: the override is dropped *)
      apply (IH (done ++ [getCellKey r0 d])%list);
        [rewrite <- app_assoc; exact Hkeys | | assumption..].
      clear r c Hr Hc. intros r c Hr Hc.
      destruct (decide (r = r0 /\ c = d)) as [[-> ->]|Hpos].
      * rewrite cellsGet_cellsDelete_eq. unfold pending.
        rewrite decide_False by assumption.
        rewrite Z.ltb_irrefl.
        destruct (decide (getCellKey r0 (d + 1) ∈ rest)) as [|Hout];
          [reflexivity|].
        symmetry. apply Hright; [lia | assumption].
      * rewrite cellsGet_cellsDelete_ne by (apply key_ne; lia).
        rewrite (Hinv r c Hr Hc). apply pending_skip.
        -- apply key_ne; lia.
        -- destruct (Z.ltb_spec c d); [now left|right].
           apply key_ne; lia.
    + (* a column right of [d]: the override moves one column left *)
      change (getCellKeyNum (Some r0) (Z.pred <$> Some c0))
        with (getCellKey r0 (Z.pred c0)).
      replace (Z.pred c0) with (c0 - 1) by lia.
      assert (Hleft : getCellKey r0 (c0 - 1) ∉ rest).
      { intros Hin. apply list_elem_of_split in Hin as (l2 & l3 & ->).
        apply (Hsafe done l2 l3 r0 (c0 - 1) Hr0); [lia|].
        rewrite Hkeys. now replace (c0 - 1 + 1) with c0 by lia. }
      destruct (cellsGet_key _ _ Hk) as [cell Hcell].
      rewrite Hhere, Hcell.
      apply (IH (done ++ [getCellKey r0 c0])%list);
        [rewrite <- app_assoc; exact Hkeys | | assumption..].
      clear r c Hr Hc. intros r c Hr Hc.
      destruct (decide (r = r0 /\ c = c0)) as [[-> ->]|Hpos].
      * rewrite cellsGet_cellsDelete_eq. unfold pending.
        rewrite decide_False by assumption.
        destruct (Z.ltb_spec c0 d); [lia|].
        destruct (decide (getCellKey r0 (c0 + 1) ∈ rest)) as [|Hout];
          [reflexivity|].
        symmetry. apply Hright; [lia | assumption].
      * rewrite cellsGet_cellsDelete_ne by (apply key_ne; lia).
        destruct (decide (r = r0 /\ c = c0 - 1)) as [[-> ->]|Hpos'].
        -- rewrite cellsGet_cellsSet_eq. unfold pending.
           rewrite decide_False by assumption.
           destruct (Z.ltb_spec (c0 - 1) d); [lia|].
           replace (c0 - 1 + 1) with c0 by lia.
           rewrite decide_False by assumption.
           now rewrite Hcell.
        -- rewrite cellsGet_cellsSet_ne by (apply key_ne; lia).
           rewrite (Hinv r c Hr Hc). apply pending_skip.
           ++ apply key_ne; lia.
           ++ destruct (Z.ltb_spec c d); [now left|right].
              apply key_ne; lia.
    + (* a column left of [d]: nothing changes *)
      apply (IH (done ++ [getCellKey r0 c0])%list);
        [rewrite <- app_assoc; exact Hkeys | | assumption..].
      clear r c Hr Hc. intros r c Hr Hc.
      rewrite (Hinv r c Hr Hc).
      destruct (decide (r = r0 /\ c = c0)) as [[-> ->]|Hpos].
      * unfold pending. rewrite decide_True by left.
        rewrite decide_False by assumption.
        destruct (Z.ltb_spec c0 d); [reflexivity | lia].
      * apply pending_skip.
        -- apply key_ne; lia.
        -- destruct (Z.ltb_spec c d); [now left|right].
           apply key_ne; lia.
Qed.

(** When the keys of the overrides are those of non-negative positions and
    come in a safe order, [DELETE_COLUMN] at [d] remaps them as intended:
    an override of a column left of [d] stays, and column [c >= d] holds
    afterwards what column [c + 1] held. *)
Lemma remapColumns_safe (d : Z) (m : Cells) (r c : Z) :
  0 <= d ->
  NoDup (cellsKeys m) -> wellKeyed (cellsKeys m) -> safeOrder d (cellsKeys m) ->
  0 <= r -> 0 <= c ->
  cellsGet (getCellKey r c) (remapColumns d (cellsKeys m) m)
  = if Z.ltb c d then cellsGet (getCellKey r c) m
    else cellsGet (getCellKey r (c + 1)) m.
Proof.
  intros Hd Hnd Hwk Hsafe Hr Hc. rewrite <- pending_done.
  apply (remapColumns_pending d m Hd Hnd Hwk Hsafe (cellsKeys m) []);
    [reflexivity | | assumption..].
  clear r c Hr Hc. intros r c Hr Hc. unfold pending.
  destruct (decide (getCellKey r c ∈ cellsKeys m)) as [|Hout]; [reflexivity|].
  rewrite (cellsGet_not_key _ _ Hout).
  destruct (Z.ltb c d); [reflexivity|].
  destruct (decide (getCellKey r (c + 1) ∈ cellsKeys m)) as [|Hout'];
    [reflexivity|].
  now rewrite (cellsGet_not_key _ _ Hout').
Qed.

End Remap.

(** ** Runs on the test dataset *)

Section RunLemmas.
Context `{JS : Host}.

Lemma get_Ok {A} (d : A) (m : Js.result A) :
  Js.isOk m = true -> m = Js.Ok (Js.get d m).
Proof. destruct m; [reflexivity | discriminate]. Qed.

Lemma dispatch_first (now : Z) (s d : SpreadsheetState) (op : CellOperation) :
  Js.isOk (dispatchAll now s [op]) = true ->
  dispatch now s op = Js.Ok (Js.get d (dispatchAll now s [op])).
Proof.
  simpl. destruct (dispatch now s op); [reflexivity | discriminate].
Qed.

Lemma dispatch_last (now : Z) (s d d' : SpreadsheetState)
    (ops : list CellOperation) (op : CellOperation) :
  Js.isOk (dispatchAll now s (ops ++ [op])) = true ->
  dispatch now (Js.get d (dispatchAll now s ops)) op
  = Js.Ok (Js.get d' (dispatchAll now s (ops ++ [op]))).
Proof.
  rewrite dispatchAll_app.
  destruct (dispatchAll now s ops) as [s1|e]; simpl; [|discriminate].
  destruct (dispatch now s1 op); [reflexivity | discriminate].
Qed.


End RunLemmas.

Section Runs.
Import RefHost Sample.

Lemma dispatch_out_of_range_witness :
  turnedAway loaded (DELETE_COLUMN 3)
  /\ dispatch 0 loaded (DELETE_COLUMN 3) = Js.Ok loaded
  /\ (col (at_ 0 7) < 0 \/ Z.of_nat (length (columns (data loaded))) <= col (at_ 0 7))
  /\ dispatch 0 loaded (SET_VALUE (at_ 0 7) (VStr "x"))
     = Js.Ok (storeValue loaded (at_ 0 7) (VStr "x")).
Proof.
  destruct (dispatch_out_of_range 0 loaded) as (A & B & _).
  assert (T : turnedAway loaded (DELETE_COLUMN 3)) by (simpl; lia).
  assert (O : col (at_ 0 7) < 0
              \/ Z.of_nat (length (columns (data loaded))) <= col (at_ 0 7))
    by (right; simpl; lia).
  split; [exact T|]. split; [exact (A _ T)|]. split; [exact O|].
  exact (proj1 (B (at_ 0 7) (VStr "x") O)).
Defined.

(** C1 fails as stated: [SET_VALUE] at [(10, 10)], outside the 2 by 3
    dataset, is no no-op.  It stores an override under ["10-10"] and
    commits it. *)
Lemma set_value_out_of_bounds_is_stored :
  dispatch 0 loaded (SET_VALUE (at_ 10 10) (VStr "x")) = Js.Ok outOfBoundsWrite
  /\ shown (cellsGet "10-10" (cells loaded)) = None
  /\ shown (cellsGet "10-10" (cells outOfBoundsWrite)) = Some "x"
  /\ historyIndex loaded = -1
  /\ historyIndex outOfBoundsWrite = 0
  /\ outOfBoundsWrite <> loaded.
Proof.
  split; [apply dispatch_first; reflexivity|].
  split; [reflexivity|]. split; [reflexivity|].
  split; [reflexivity|]. split; [reflexivity|].
  intros E. apply (f_equal historyIndex) in E. vm_compute in E. discriminate E.
Qed.

(** Clearing [(0, 0)] of the test dataset hides ["Widget A"]. *)
Example clearing_hides_widget_a :
  getCellDisplayValue loaded 0 0 = Js.Ok "Widget A"
  /\ getCellDisplayValue (run [ SET_VALUE (at_ 0 0) (VStr "") ]) 0 0 = Js.Ok ""
  /\ cellsKeys (cells (run [ SET_VALUE (at_ 0 0) (VStr "") ])) = ["0-0"].
Proof. repeat split; reflexivity. Qed.

(** The missing lower bound of [DELETE_COLUMN]: at index [-1] the column
    to delete is [undefined], and reading its [key] throws. *)
Example delete_column_negative_raises :
  dispatch 0 loaded (DELETE_COLUMN (-1)) = Js.Throw Js.TypeError.
Proof. reflexivity. Qed.

(** C2.  The run of the repository's test "should handle undo
    functionality": after the first commit of a session [historyIndex] is
    [0], [UNDO] changes nothing, and the cell still shows the edit, where
    the claim (and the test) expect the loaded value ["Widget A"] back. *)
Theorem undo_keeps_first_commit :
  getCellDisplayValue loaded 0 0 = Js.Ok "Widget A"
  /\ dispatch 0 loaded (SET_VALUE (at_ 0 0) (VStr "Changed Value")) = Js.Ok changed
  /\ getCellDisplayValue changed 0 0 = Js.Ok "Changed Value"
  /\ historyIndex changed = 0
  /\ dispatch 0 changed UNDO = Js.Ok changedUndone
  /\ getCellDisplayValue changedUndone 0 0 = Js.Ok "Changed Value".
Proof.
  split; [reflexivity|].
  split; [apply dispatch_first; reflexivity|].
  split; [reflexivity|]. split; [reflexivity|].
  split; [apply dispatch_last; reflexivity|]. reflexivity.
Qed.





(** [format.decimals = 0] is falsy under [||]: two fraction digits. *)
Example decimals_zero_falls_back_to_two :
  validateCellValue (VStr "5") "number" (Some zeroDecimals) = Js.Ok (valid "5.00").
Proof. reflexivity. Qed.

(** C5.  An order of writing in which the delete-column loop clobbers: the
    override of column 2 was written before that of column 1.  Deleting
    column 0 moves "0-2" onto "0-1" before "0-1" is visited, so the
    override of column 1 is lost and that of column 2 ends under "0-0".
    Deleting column 1 moves "0-2" onto "0-1" and then deletes "0-1" when
    visiting it, so the override of column 2 is lost. *)
Theorem delete_column_clobbers :
  Js.isOk (dispatchAll 0 loaded laterColumnFirst) = true
  /\ cellsKeys (cells (run laterColumnFirst)) = ["0-2"; "0-1"]
  /\ shown (cellsGet (getCellKey 0 1) (cells (run laterColumnFirst))) = Some "$1.00"
  /\ shown (cellsGet (getCellKey 0 2) (cells (run laterColumnFirst))) = Some "$2.00"
  /\ dispatch 0 (run laterColumnFirst) (DELETE_COLUMN 0)
     = Js.Ok (run (laterColumnFirst ++ [DELETE_COLUMN 0]))
  /\ cellsKeys (cells (run (laterColumnFirst ++ [DELETE_COLUMN 0]))) = ["0-0"]
  /\ shown (cellsGet (getCellKey 0 0) (cells (run (laterColumnFirst ++ [DELETE_COLUMN 0]))))
     = Some "$2.00"
  /\ dispatch 0 (run laterColumnFirst) (DELETE_COLUMN 1)
     = Js.Ok (run (laterColumnFirst ++ [DELETE_COLUMN 1]))
  /\ cellsKeys (cells (run (laterColumnFirst ++ [DELETE_COLUMN 1]))) = [].
Proof.
  split; [reflexivity|]. split; [reflexivity|].
  split; [reflexivity|]. split; [reflexivity|].
  split; [apply dispatch_last; reflexivity|].
  split; [reflexivity|]. split; [reflexivity|].
  split; [apply dispatch_last; reflexivity|]. reflexivity.
Qed.

(** The other order of writing is remapped as intended. *)
Example delete_column_in_key_order :
  let written := [ SET_VALUE (at_ 0 1) (VStr "1"); SET_VALUE (at_ 0 2) (VStr "2");
                   DELETE_COLUMN 0 ] in
  cellsKeys (cells (run written)) = ["0-0"; "0-1"]
  /\ shown (cellsGet (getCellKey 0 0) (cells (run written))) = Some "$1.00"
  /\ shown (cellsGet (getCellKey 0 1) (cells (run written))) = Some "$2.00".
Proof. repeat split; reflexivity. Qed.







(** The same move on the test dataset, cell by cell. *)
Example mock_move_cells :
  getCellDisplayValue mockMoved 0 0 = Js.Ok ""
  /\ getCellDisplayValue mockMoved 0 1 = Js.Ok ""
  /\ getCellDisplayValue mockMoved 1 1 = Js.Ok "Widget A"
  /\ getCellDisplayValue mockMoved 1 2 = Js.Ok "$100.00"
  /\ selectedRange mockMoved = Some {| start := at_ 1 1; end_ := at_ 2 2 |}.
Proof. repeat split; reflexivity. Qed.

End Runs.

(** * Further properties *)

(** ** History *)

Section MoreHistory.
Context `{JS : Host}.

Lemma fresh_bounds (initialData : option SpreadsheetData) :
  historyBounds (useSpreadsheet initialData).
Proof. unfold historyBounds. simpl. lia. Qed.

Lemma dispatchAll_bounds (now : Z) (ops : list CellOperation) (s s' : SpreadsheetState) :
  historyBounds s -> dispatchAll now s ops = Js.Ok s' -> historyBounds s'.
Proof.
  revert s. induction ops as [|op ops IH]; intros s Hb Hrun; simpl in Hrun.
  - now injection Hrun as <-.
  - apply bind_Ok in Hrun as (s1 & H1 & Hrest).
    exact (IH s1 (dispatch_bounds now s s1 op Hb H1) Hrest).
Qed.

Lemma index_Some {A} (l : list A) (i : Z) :
  0 <= i < Z.of_nat (length l) -> exists a, Js.index l i = Some a.
Proof.
  intros Hi. unfold Js.index. destruct (Z.ltb_spec i 0); [lia|].
  destruct (lookup_lt_is_Some_2 l (Z.to_nat i)) as [a Ha]; [lia|]. eauto.
Qed.

(** Within [historyBounds], [UNDO] and [REDO] find the snapshot they read. *)
Lemma undo_redo_return (now : Z) (s : SpreadsheetState) :
  historyBounds s ->
  (exists u, dispatch now s UNDO = Js.Ok u)
  /\ (exists r, dispatch now s REDO = Js.Ok r).
Proof.
  intros [Hi Hlen]. unfold dispatch. split.
  - destruct (Z.ltb_spec 0 (historyIndex s)); [|eauto].
    destruct (index_Some (history s) (historyIndex s - 1)) as [a ->]; [lia | eauto].
  - destruct (Z.ltb_spec (historyIndex s) (Z.of_nat (length (history s)) - 1)); [|eauto].
    destruct (index_Some (history s) (historyIndex s + 1)) as [a ->]; [lia | eauto].
Qed.

(** X1.  Whatever is dispatched on a freshly loaded store, as long as
    nothing raises, the history holds at most 50 entries and the pointer
    stays between [-1] and [history.length] (the last value being the one
    that C3 shows), and [UNDO] and [REDO] then return without raising:
    the snapshot they read is always there. *)
Theorem reachable_history_bounds
    (now : Z) (initialData : option SpreadsheetData)
    (ops : list CellOperation) (s : SpreadsheetState) :
  dispatchAll now (useSpreadsheet initialData) ops = Js.Ok s ->
  -1 <= historyIndex s <= Z.of_nat (length (history s))
  /\ (length (history s) <= 50)%nat
  /\ (exists u, dispatch now s UNDO = Js.Ok u)
  /\ (exists r, dispatch now s REDO = Js.Ok r).
Proof.
  intros Hrun.
  pose proof (dispatchAll_bounds now ops _ s (fresh_bounds initialData) Hrun) as Hb.
  destruct (undo_redo_return now s Hb) as [Hu Hr].
  destruct Hb as [Hi Hlen]. repeat split; (lia || assumption).
Qed.

(** What a committing operation returns: a snapshot [x] of the new state,
    saved; [x] has the history and the selection of the state before. *)
Lemma dispatch_commits (now : Z) (s s' : SpreadsheetState) (op : CellOperation) :
  commits s op -> dispatch now s op = Js.Ok s' ->
  exists x,
    s' = saveToHistory x
    /\ history x = history s /\ historyIndex x = historyIndex s
    /\ selectedCell x = selectedCell s /\ selectedRange x = selectedRange s
    /\ editingCell x = editingCell s.
Proof.
  destruct op; simpl; intros Hc Hd; try contradiction.
  - rewrite dispatch_SET_VALUE_eq in Hd.
    apply bind_Ok in Hd as (final & _ & [= <-]).
    eexists. split; [reflexivity|]. repeat split.
  - injection Hd as <-. eexists. split; [reflexivity|]. repeat split.
  - injection Hd as <-. eexists. split; [reflexivity|]. repeat split.
  - injection Hd as <-. eexists. split; [reflexivity|]. repeat split.
  - unfold dispatch in Hd.
    destruct (Z.ltb_spec index (Z.of_nat (length (columns (data s))))); [|lia].
    apply bind_Ok in Hd as (newItems & _ & [= <-]).
    eexists. split; [reflexivity|]. repeat split.
  - unfold dispatch in Hd.
    destruct (Z.ltb_spec index (Z.of_nat (length (items (data s))))); [|lia].
    injection Hd as <-. eexists. split; [reflexivity|]. repeat split.
  - unfold dispatch in Hd.
    destruct (Z.leb_spec 0 columnIndex); [|lia].
    destruct (Z.ltb_spec columnIndex (Z.of_nat (length (columns (data s))))); [|lia].
    injection Hd as <-. eexists. split; [reflexivity|]. repeat split.
  - unfold dispatch in Hd.
    destruct (Z.leb_spec 0 columnIndex); [|lia].
    destruct (Z.ltb_spec columnIndex (Z.of_nat (length (columns (data s))))); [|lia].
    injection Hd as <-. eexists. split; [reflexivity|]. repeat split.
Qed.



(** Below the cap, the snapshot just saved is the entry under the pointer. *)
Lemma saveToHistory_synced (x : SpreadsheetState) :
  -1 <= historyIndex x < 49 ->
  history (saveToHistory x)
  = (take (Z.to_nat (historyIndex x + 1)) (history x) ++ [x])%list
  /\ historyIndex (saveToHistory x)
     = Z.of_nat (length (take (Z.to_nat (historyIndex x + 1)) (history x))).
Proof.
  intros Hi. unfold saveToHistory. simpl. rewrite slice_prefix by lia.
  rewrite sliceFrom_last50, length_app. simpl.
  pose proof (length_take_le (history x) (Z.to_nat (historyIndex x + 1))) as Hle.
  rewrite length_take in *.
  replace (_ - 50)%nat with 0%nat by lia.
  split; [reflexivity | lia].
Qed.

Lemma index_app_last {A} (l : list A) (a : A) :
  Js.index (l ++ [a]) (Z.of_nat (length l)) = Some a.
Proof.
  unfold Js.index. destruct (Z.ltb_spec (Z.of_nat (length l)) 0); [lia|].
  rewrite Nat2Z.id. rewrite lookup_app_r by lia.
  now rewrite Nat.sub_diag.
Qed.

End MoreHistory.

Section UndoRedo.
Context `{JS : Host}.

Lemma index_app_l {A} (l k : list A) (i : Z) :
  0 <= i < Z.of_nat (length l) -> Js.index (l ++ k) i = Js.index l i.
Proof.
  intros Hi. unfold Js.index. destruct (Z.ltb_spec i 0); [lia|].
  apply lookup_app_l. lia.
Qed.

(** Two commits in a row, the first one at most the 48th: the history ends
    with the two snapshots and the pointer is on the last. *)
Lemma two_commits (x1 x2 : SpreadsheetState) :
  -1 <= historyIndex x1 < 48 ->
  history x2 = history (saveToHistory x1) ->
  historyIndex x2 = historyIndex (saveToHistory x1) ->
  exists T : list SpreadsheetState,
    history (saveToHistory x2) = ((T ++ [x1]) ++ [x2])%list
    /\ historyIndex (saveToHistory x2) = Z.of_nat (length T) + 1.
Proof.
  intros Hi Hh Hx.
  destruct (saveToHistory_synced x1) as [Hh1 Hi1]; [lia|].
  set (T := take (Z.to_nat (historyIndex x1 + 1)) (history x1)) in *.
  assert (HT : (length T <= Z.to_nat (historyIndex x1 + 1))%nat).
  { subst T. rewrite length_take. lia. }
  destruct (saveToHistory_synced x2) as [Hh2 Hi2]; [rewrite Hx, Hi1; lia|].
  exists T. rewrite Hh2, Hi2, Hh, Hx, Hi1, Hh1.
  rewrite take_ge by (rewrite length_app; simpl; lia).
  split; [reflexivity|]. rewrite length_app. simpl. lia.
Qed.

(** X3.  Undo and redo of a commit, away from the cap.  After two
    committing operations in a row (the first one starting at a pointer
    below 48), [UNDO] brings the dataset and the overrides back to what
    they were between the two, and [REDO] then returns exactly the state
    that was undone, history and pointer included. *)
Theorem undo_then_redo_of_a_commit
    (now : Z) (s s1 s2 : SpreadsheetState) (op1 op2 : CellOperation) :
  -1 <= historyIndex s < 48 ->
  commits s op1 -> dispatch now s op1 = Js.Ok s1 ->
  commits s1 op2 -> dispatch now s1 op2 = Js.Ok s2 ->
  exists s3,
    dispatch now s2 UNDO = Js.Ok s3
    /\ data s3 = data s1 /\ cells s3 = cells s1
    /\ selectedCell s3 = selectedCell s1 /\ selectedRange s3 = selectedRange s1
    /\ dispatch now s3 REDO = Js.Ok s2.
Proof.
  intros Hi Hc1 Hd1 Hc2 Hd2.
  destruct (dispatch_commits now s s1 op1 Hc1 Hd1) as (x1 & -> & Hh1 & Hx1 & _).
  destruct (dispatch_commits now _ s2 op2 Hc2 Hd2) as (x2 & -> & Hh2 & Hx2 & _).
  destruct (two_commits x1 x2) as (T & HhT & HiT); [lia | assumption..|].
  assert (Hprev : Js.index (history (saveToHistory x2))
                    (historyIndex (saveToHistory x2) - 1) = Some x1).
  { rewrite HhT, HiT. replace (_ + 1 - 1) with (Z.of_nat (length T)) by lia.
    rewrite index_app_l by (rewrite length_app; simpl; lia).
    apply index_app_last. }
  eexists. split; [apply dispatch_UNDO_restores; [lia | exact Hprev]|].
  repeat (split; [reflexivity|]).
  unfold dispatch. cbn [historyIndex history withHistory].
  rewrite HhT, HiT.
  replace (Z.of_nat (length T) + 1 - 1) with (Z.of_nat (length T)) by lia.
  rewrite !length_app. cbn [length].
  destruct (Z.ltb_spec (Z.of_nat (length T))
              (Z.of_nat (length T + 1 + 1) - 1)); [|lia].
  replace (Z.of_nat (length T) + 1) with (Z.of_nat (length (T ++ [x1]))).
  2:{ rewrite length_app. simpl. lia. }
  rewrite index_app_last. f_equal.
  unfold saveToHistory in *. cbn [history historyIndex withHistory] in *.
  unfold withHistory. f_equal.
  - rewrite <- HhT. reflexivity.
  - rewrite HiT, length_app. cbn [length]. lia.
Qed.

End UndoRedo.

(** ** Selection *)

Section Selection.
Context `{JS : Host}.

Lemma index_elem {A} (l : list A) (i : Z) (a : A) :
  Js.index l i = Some a -> a ∈ l.
Proof.
  unfold Js.index. destruct (Z.ltb i 0); [discriminate|].
  apply list_elem_of_lookup_2.
Qed.

Lemma saveToHistory_selection (x : SpreadsheetState) :
  selectionInv x -> selectionInv (saveToHistory x).
Proof.
  intros [He Hh]. split; [exact He|].
  unfold saveToHistory. cbn [history withHistory].
  rewrite sliceFrom_last50. apply Forall_drop, Forall_app. split.
  - unfold Js.slice. now apply Forall_take, Forall_drop.
  - now constructor.
Qed.

Lemma snapshot_selection (s prev : SpreadsheetState) (i j : Z) :
  selectionInv s -> Js.index (history s) i = Some prev ->
  selectionInv (withHistory prev (history s) j).
Proof.
  intros [He Hh] Hp. split; [|exact Hh].
  apply index_elem in Hp. rewrite Forall_forall in Hh. exact (Hh prev Hp).
Qed.

Lemma dispatch_selection (now : Z) (s s' : SpreadsheetState) (op : CellOperation) :
  selectionInv s -> dispatch now s op = Js.Ok s' -> selectionInv s'.
Proof.
  intros Hb. unfold dispatch.
  destruct op; intros Hd;
    repeat match type of Hd with
           | context [match ?x with _ => _ end] => destruct x eqn:?
           | Js.Ok _ = Js.Ok _ => injection Hd as <-
           | Js.Throw _ = Js.Ok _ => discriminate Hd
           | (_ ← _; _) = Js.Ok _ => apply bind_Ok in Hd as (? & ? & Hd)
           end;
    try (apply saveToHistory_selection; exact Hb);
    try exact Hb;
    try (eapply snapshot_selection; eassumption).
  - split; [now right | exact (proj2 Hb)].
  - split; [now left | exact (proj2 Hb)].
Qed.

(** X4.  The two selections exclude each other.  In every state reached
    from a freshly loaded store, at most one of [selectedCell] and
    [selectedRange] is set, and the same holds for every snapshot kept in
    the history, so that no [UNDO] or [REDO] can bring back a state with
    both. *)
Theorem selections_exclude_each_other
    (now : Z) (initialData : option SpreadsheetData)
    (ops : list CellOperation) (s : SpreadsheetState) :
  dispatchAll now (useSpreadsheet initialData) ops = Js.Ok s ->
  (selectedCell s = None \/ selectedRange s = None)
  /\ forall snapshot, snapshot ∈ history s ->
       selectedCell snapshot = None \/ selectedRange snapshot = None.
Proof.
  intros Hrun.
  assert (Hinv : selectionInv s).
  { assert (H0 : selectionInv (useSpreadsheet initialData))
      by (split; [now left | constructor]).
    revert Hrun H0. generalize (useSpreadsheet initialData).
    induction ops as [|op ops IH]; intros s0 Hrun H0; simpl in Hrun.
    - now injection Hrun as <-.
    - apply bind_Ok in Hrun as (s1 & H1 & Hrest).
      exact (IH s1 Hrest (dispatch_selection now s0 s1 op H0 H1)). }
  destruct Hinv as [He Hh]. split; [exact He|].
  now rewrite Forall_forall in Hh.
Qed.

End Selection.

(** ** Where the updater can raise *)

Section Raises.
Context `{JS : Host}.

Lemma mapThrowing_Ok {A B} (g : A -> B) (l : list A) :
  mapThrowing (fun a => Js.Ok (g a)) l = Js.Ok (map g l).
Proof.
  induction l as [|a l IH]; [reflexivity|]. simpl. now rewrite IH.
Qed.

(** Only the two locale formatters can make the validation raise. *)
Lemma validateCellValue_raises
    (v : Value) (t : ColumnType) (fmt : option Format) (e : Js.error) :
  validateCellValue v (columnTypeName t) fmt = Js.Throw e ->
  (t = number_ \/ t = currency) /\ isBlank v = false.
Proof.
  unfold validateCellValue. destruct (isBlank v); [discriminate|].
  destruct t; cbn [columnTypeName String.eqb Ascii.eqb Bool.eqb];
    intros Hv; try (split; [tauto | reflexivity]); exfalso;
    repeat match type of Hv with
           | context [if ?b then _ else _] => destruct b
           | Js.Ok _ = Js.Throw _ => discriminate Hv
           end.
Qed.

(** X5.  The only ways for the state updater to raise, from a state
    within the history bounds: a non-blank value written into a column of
    type number or currency (the locale formatter may reject the column's
    format), and a column deleted at a negative index while the dataset
    has rows.  Every other operation returns a state. *)
Theorem dispatch_raises_only
    (now : Z) (s : SpreadsheetState) (op : CellOperation) (e : Js.error) :
  historyBounds s ->
  dispatch now s op = Js.Throw e ->
  mayRaise s op.
Proof.
  intros Hb. destruct op; try discriminate.
  - (* SET_VALUE *)
    unfold dispatch, mayRaise.
    destruct (Js.index (columns (data s)) (col position)) as [column|];
      [|discriminate].
    destruct (notEmptyString value0); [|discriminate].
    destruct (validateCellValue value0 (columnTypeName (type column)) (format column))
      as [res|e'] eqn:Hv; [discriminate|].
    intros _. exists column. split; [reflexivity|].
    exact (validateCellValue_raises _ _ _ _ Hv).
  - (* DELETE_COLUMN *)
    unfold dispatch, mayRaise.
    destruct (Z.ltb_spec index (Z.of_nat (length (columns (data s)))));
      [|discriminate].
    destruct (Z.ltb_spec index 0) as [Hneg|Hpos].
    + destruct (items (data s)) as [|item rest]; [discriminate|].
      intros _. split; [exact Hneg | discriminate].
    + destruct (index_Some (columns (data s)) index) as [c ->]; [lia|].
      now rewrite mapThrowing_Ok.
  - (* DELETE_ROW *)
    unfold dispatch. now destruct (Z.ltb _ _).
  - unfold dispatch. now destruct (_ && _).
  - unfold dispatch. now destruct (_ && _).
  - (* UNDO *)
    destruct (undo_redo_return now s Hb) as [[u ->] _]. discriminate.
  - (* REDO *)
    destruct (undo_redo_return now s Hb) as [_ [r ->]]. discriminate.
Qed.

End Raises.

(** ** Rows and columns added *)

Section Adding.
Context `{JS : Host}.

Lemma spliceInsert_end {A} (l : list A) (x : A) :
  Js.spliceInsert l (Z.of_nat (length l)) x = (l ++ [x])%list.
Proof.
  unfold Js.spliceInsert, Js.relIndex.
  destruct (Z.ltb_spec (Z.of_nat (length l)) 0); [lia|].
  rewrite Nat2Z.id, Nat.min_id, firstn_all, drop_all. reflexivity.
Qed.

Lemma length_spliceInsert {A} (l : list A) (i : Z) (x : A) :
  length (Js.spliceInsert l i x) = S (length l).
Proof.
  unfold Js.spliceInsert. rewrite length_app. cbn [length].
  rewrite length_take, length_drop.
  assert (Js.relIndex (length l) i <= length l)%nat; [|lia].
  unfold Js.relIndex. destruct (Z.ltb_spec i 0); lia.
Qed.

(** The row built by the [forEach] of [ADD_ROW] holds nothing but empty
    strings, one under the key of each column. *)
Lemma newRow_blank (cols : list SpreadsheetColumn) (init : SpreadsheetItem) (k : string) :
  foldl (fun (r : SpreadsheetItem) column => <[key column := VStr ""]> r) init cols !! k
  = if decide (k ∈ map key cols) then Some (VStr "") else init !! k.
Proof.
  revert init. induction cols as [|column cols IH]; intros init; simpl.
  - destruct (decide (k ∈ [])) as [Hin|_]; [inversion Hin | reflexivity].
  - rewrite IH.
    destruct (decide (k ∈ map key cols)) as [Hin|Hout];
      destruct (decide (k ∈ key column :: map key cols)) as [Hin'|Hout'];
      try reflexivity.
    + exfalso. apply Hout'. now right.
    + apply elem_of_cons in Hin' as [->|?]; [|contradiction].
      apply (lookup_insert_eq (M := gmap string)).
    + apply (lookup_insert_ne (M := gmap string)). intros <-. apply Hout'. left.
Qed.

Lemma readers_saved (x : SpreadsheetState) (r c : Z) :
  getCellRawValue (saveToHistory x) r c = getCellRawValue x r c
  /\ getCellDisplayValue (saveToHistory x) r c = getCellDisplayValue x r c
  /\ getCellStyle (saveToHistory x) r c = getCellStyle x r c.
Proof. repeat split. Qed.

(** X6.  A row appended by [ADD_ROW] is an empty row.  The dataset has one
    row more, the columns and the overrides are untouched, every cell of
    the new row whose position carries no override reads as the empty
    string, and every row above reads as before. *)
Theorem add_row_reads_blank (now : Z) (s : SpreadsheetState) :
  let n := Z.of_nat (length (items (data s))) in
  exists s',
    dispatch now s (ADD_ROW None) = Js.Ok s'
    /\ Z.of_nat (length (items (data s'))) = n + 1
    /\ columns (data s') = columns (data s)
    /\ cells s' = cells s
    /\ (forall c, 0 <= c ->
          cellsGet (getCellKey n c) (cells s) = None ->
          getCellRawValue s' n c = Js.Ok (VStr "")
          /\ getCellDisplayValue s' n c = Js.Ok "")
    /\ (forall r c, 0 <= r < n ->
          getCellRawValue s' r c = getCellRawValue s r c).
Proof.
  intros n. eexists. split; [reflexivity|].
  set (newRow := foldl _ _ _).
  set (x := withData _ _).
  assert (Hitems : items (data x) = (items (data s) ++ [newRow])%list)
    by apply spliceInsert_end.
  assert (Hlen : Z.of_nat (length (items (data x))) = n + 1).
  { rewrite Hitems, length_app. simpl. lia. }
  assert (Hraw : forall c, 0 <= c ->
            cellsGet (getCellKey n c) (cells s) = None ->
            getCellRawValue x n c = Js.Ok (VStr "")).
  { intros c Hc Hnone. unfold getCellRawValue.
    change (cells x) with (cells s). rewrite Hnone, Hlen.
    change (columns (data x)) with (columns (data s)).
    destruct (Z.ltb_spec n (n + 1)); [|lia]. cbn [andb].
    destruct (Z.ltb_spec c (Z.of_nat (length (columns (data s))))); [|reflexivity].
    rewrite Hitems. unfold n at 1. rewrite index_app_last.
    destruct (index_Some (columns (data s)) c) as [column Hcol]; [lia|].
    rewrite Hcol. unfold newRow. rewrite newRow_blank.
    destruct (decide _); [reflexivity|].
    unfold SpreadsheetItem. now rewrite lookup_empty. }
  split; [exact Hlen|]. split; [reflexivity|]. split; [reflexivity|]. split.
  - intros c Hc Hnone.
    destruct (readers_saved x n c) as (-> & -> & _).
    split; [now apply Hraw|].
    unfold getCellDisplayValue. rewrite (Hraw c Hc Hnone). simpl.
    destruct (Z.ltb _ _); [|reflexivity]. now destruct (Js.index _ _).
  - intros r c Hr. destruct (readers_saved x r c) as (-> & _).
    unfold getCellRawValue. change (cells x) with (cells s).
    destruct (cellsGet _ _); [reflexivity|].
    rewrite Hlen. change (columns (data x)) with (columns (data s)).
    subst n.
    destruct (Z.ltb_spec r (Z.of_nat (length (items (data s))) + 1)); [|lia].
    destruct (Z.ltb_spec r (Z.of_nat (length (items (data s))))); [|lia].
    rewrite Hitems, index_app_l by lia. reflexivity.
Qed.

Lemma map_spliceInsert {A B} (f : A -> B) (l : list A) (i : Z) (x : A) :
  map f (Js.spliceInsert l i x) = Js.spliceInsert (map f l) i (f x).
Proof.
  unfold Js.spliceInsert. rewrite map_app, length_map. cbn [map].
  now rewrite <- fmap_take, <- fmap_drop.
Qed.

Lemma NoDup_spliceInsert {A} (l : list A) (i : Z) (x : A) :
  NoDup (Js.spliceInsert l i x) <-> (x ∉ l) /\ NoDup l.
Proof.
  unfold Js.spliceInsert. set (k := Js.relIndex (length l) i).
  assert (Hp : (take k l ++ x :: drop k l)%list ≡ₚ x :: l).
  { rewrite <- Permutation_middle. now rewrite take_drop. }
  rewrite Hp. apply NoDup_cons.
Qed.

(** X7.  [ADD_COLUMN] names the new column after the clock.  Starting from
    pairwise distinct column keys, the keys are distinct afterwards
    exactly when [column_<now>] is not a key already: a second column
    added at the same clock reading, wherever it is inserted, shares its
    key with the first. *)
Theorem add_column_keys_distinct
    (now : Z) (s s' : SpreadsheetState) (index : option Z) (nm : option string) :
  NoDup (map key (columns (data s))) ->
  dispatch now s (ADD_COLUMN index nm) = Js.Ok s' ->
  (NoDup (map key (columns (data s')))
   <-> ("column_" ++ Js.toString now) ∉ map key (columns (data s))).
Proof.
  intros Hnd [= <-]. unfold saveToHistory.
  cbn [data withHistory withData columns].
  rewrite map_spliceInsert, NoDup_spliceInsert. cbn [key]. tauto.
Qed.

End Adding.

Section Inserting.
Context `{JS : Host}.

Lemma index_spliceInsert {A} (l : list A) (i c : Z) (x : A) :
  0 <= i <= Z.of_nat (length l) ->
  Js.index (Js.spliceInsert l i x) c
  = if Z.ltb c i then Js.index l c
    else if Z.eqb c i then Some x else Js.index l (c - 1).
Proof.
  intros Hi. unfold Js.spliceInsert, Js.relIndex.
  destruct (Z.ltb_spec i 0); [lia|].
  replace (Nat.min (Z.to_nat i) (length l)) with (Z.to_nat i) by lia.
  unfold Js.index.
  destruct (Z.ltb_spec c 0) as [Hneg|Hpos].
  - destruct (Z.ltb_spec c i); [reflexivity | lia].
  - destruct (Z.ltb_spec c i) as [Hlt|Hge].
    + rewrite lookup_app_l by (rewrite length_take; lia).
      apply lookup_take_lt. lia.
    + rewrite lookup_app_r by (rewrite length_take; lia).
      rewrite length_take.
      replace (Nat.min (Z.to_nat i) (length l)) with (Z.to_nat i) by lia.
      destruct (Z.eqb_spec c i) as [->|Hne].
      * now rewrite Nat.sub_diag.
      * destruct (Z.ltb_spec (c - 1) 0); [lia|].
        rewrite lookup_cons_ne_0 by lia.
        rewrite lookup_drop. f_equal. lia.
Qed.

(** X8.  A column inserted inside the sheet moves the columns at and
    right of the insertion point one place to the right, with their data,
    but the overrides are keyed by position and stay where they are: after
    the insertion, an override written for column [c] shows in whichever
    column now stands at [c]. *)
Theorem add_column_keeps_overrides_in_place
    (now : Z) (s s' : SpreadsheetState) (i : Z) (nm : option string) :
  0 <= i <= Z.of_nat (length (columns (data s))) ->
  dispatch now s (ADD_COLUMN (Some i) nm) = Js.Ok s' ->
  (forall c, 0 <= c < i ->
     Js.index (columns (data s')) c = Js.index (columns (data s)) c)
  /\ (exists column,
        Js.index (columns (data s')) i = Some column
        /\ key column = "column_" ++ Js.toString now /\ type column = text)
  /\ (forall c, i <= c ->
        Js.index (columns (data s')) (c + 1) = Js.index (columns (data s)) c)
  /\ cells s' = cells s
  /\ (forall r c cell,
        cellsGet (getCellKey r c) (cells s) = Some cell ->
        getCellRawValue s' r c = Js.Ok (value cell)).
Proof.
  intros Hi [= <-]. unfold saveToHistory.
  cbn [data withHistory withData columns cells].
  repeat split.
  - intros c Hc. rewrite index_spliceInsert by assumption.
    destruct (Z.ltb_spec c i); [reflexivity | lia].
  - eexists. rewrite index_spliceInsert by assumption.
    rewrite Z.ltb_irrefl, Z.eqb_refl. repeat split.
  - intros c Hc. rewrite index_spliceInsert by assumption.
    destruct (Z.ltb_spec (c + 1) i); [lia|].
    destruct (Z.eqb_spec (c + 1) i); [lia|]. f_equal. lia.
  - intros r c cell Hcell. unfold getCellRawValue.
    cbn [cells withHistory withData]. now rewrite Hcell.
Qed.

End Inserting.

(** ** Rows and columns deleted *)

Section Deleting.
Context `{JS : Host}.

Lemma pendingRows_done (d : Z) (m : Cells) (r c : Z) :
  pendingRows d m [] r c
  = if Z.ltb r d then cellsGet (getCellKey r c) m
    else cellsGet (getCellKey (r + 1) c) m.
Proof.
  unfold pendingRows.
  rewrite !decide_False by apply not_elem_of_nil. reflexivity.
Qed.

(** Visiting [k] changes what is pending only at [k] itself and at the
    position above it. *)
Lemma pendingRows_skip (d : Z) (m : Cells) (k : string) (rest : list string) (r c : Z) :
  getCellKey r c <> k ->
  (Z.ltb r d = true \/ getCellKey (r + 1) c <> k) ->
  pendingRows d m (k :: rest) r c = pendingRows d m rest r c.
Proof.
  intros Hk Hk'. unfold pendingRows.
  destruct (decide (getCellKey r c ∈ rest)) as [Hin|Hout].
  - rewrite decide_True by now right. reflexivity.
  - rewrite decide_False by (intros [?|?]%elem_of_cons; contradiction).
    destruct (Z.ltb r d) eqn:E; [reflexivity|].
    destruct Hk' as [?|Hk']; [discriminate|].
    destruct (decide (getCellKey (r + 1) c ∈ rest)) as [Hin'|Hout'].
    + rewrite decide_True by now right. reflexivity.
    + rewrite decide_False by (intros [?|?]%elem_of_cons; contradiction).
      reflexivity.
Qed.

Lemma remapRows_pending (d : Z) (m : Cells) :
  0 <= d ->
  NoDup (cellsKeys m) -> wellKeyed (cellsKeys m) -> safeOrderRows d (cellsKeys m) ->
  forall rest done m',
    cellsKeys m = (done ++ rest)%list ->
    (forall r c, 0 <= r -> 0 <= c ->
                 cellsGet (getCellKey r c) m' = pendingRows d m rest r c) ->
    forall r c, 0 <= r -> 0 <= c ->
                cellsGet (getCellKey r c) (remapRows d rest m') = pendingRows d m [] r c.
Proof.
  intros Hd Hnd Hwk Hsafe rest.
  induction rest as [|k rest IH]; intros done m' Hkeys Hinv r c Hr Hc.
  - exact (Hinv r c Hr Hc).
  - assert (Hk : k ∈ cellsKeys m) by (rewrite Hkeys; apply elem_of_app; right; left).
    destruct (proj1 (Forall_forall _ _) Hwk k Hk) as (r0 & c0 & Hr0 & Hc0 & ->).
    rewrite Hkeys in Hnd. apply NoDup_app in Hnd as (_ & Hdone & Hnd).
    apply NoDup_cons in Hnd as [Hfresh _].
    (* the override under the key being visited is still the original one *)
    assert (Hhere : cellsGet (getCellKey r0 c0) m' = cellsGet (getCellKey r0 c0) m).
    { rewrite (Hinv r0 c0 Hr0 Hc0). unfold pendingRows.
      rewrite decide_True by left. reflexivity. }
    (* nothing below it was visited before, when it is at or below [d] *)
    assert (Hright : d <= r0 -> getCellKey (r0 + 1) c0 ∉ rest ->
                     cellsGet (getCellKey (r0 + 1) c0) m = None).
    { intros Hdc Hrest. apply cellsGet_not_key. rewrite Hkeys.
      intros [Hin|Hin]%elem_of_app.
      - apply list_elem_of_split in Hin as (l1 & l2 & ->).
        apply (Hsafe l1 l2 rest r0 c0 Hdc Hc0).
        rewrite Hkeys, <- app_assoc. reflexivity.
      - apply elem_of_cons in Hin as [E|Hin]; [|contradiction].
        apply getCellKey_inj in E as [E _]; lia. }
    cbn [remapRows]. rewrite parse_key by assumption.
    unfold Js.strictEq, Js.gt.
    destruct (Z.eqb_spec r0 d) as [->|Hne]; [|destruct (Z.ltb_spec d r0) as [Hgt|Hle]].
    + (* the deleted row: the override is dropped *)
      apply (IH (done ++ [getCellKey d c0])%list);
        [rewrite <- app_assoc; exact Hkeys | | assumption..].
      clear r c Hr Hc. intros r c Hr Hc.
      destruct (decide (r = d /\ c = c0)) as [[-> ->]|Hpos].
      * rewrite cellsGet_cellsDelete_eq. unfold pendingRows.
        rewrite decide_False by assumption.
        rewrite Z.ltb_irrefl.
        destruct (decide (getCellKey (d + 1) c0 ∈ rest)) as [|Hout];
          [reflexivity|].
        symmetry. apply Hright; [lia | assumption].
      * rewrite cellsGet_cellsDelete_ne by (apply key_ne; lia).
        rewrite (Hinv r c Hr Hc). apply pendingRows_skip.
        -- apply key_ne; lia.
        -- destruct (Z.ltb_spec r d); [now left|right].
           apply key_ne; lia.
    + (* a row below [d]: the override moves one row up *)
      change (getCellKeyNum (Z.pred <$> Some r0) (Some c0))
        with (getCellKey (Z.pred r0) c0).
      replace (Z.pred r0) with (r0 - 1) by lia.
      assert (Hleft : getCellKey (r0 - 1) c0 ∉ rest).
      { intros Hin. apply list_elem_of_split in Hin as (l2 & l3 & ->).
        apply (Hsafe done l2 l3 (r0 - 1) c0); [lia | assumption |].
        rewrite Hkeys. now replace (r0 - 1 + 1) with r0 by lia. }
      destruct (cellsGet_key _ _ Hk) as [cell Hcell].
      rewrite Hhere, Hcell.
      apply (IH (done ++ [getCellKey r0 c0])%list);
        [rewrite <- app_assoc; exact Hkeys | | assumption..].
      clear r c Hr Hc. intros r c Hr Hc.
      destruct (decide (r = r0 /\ c = c0)) as [[-> ->]|Hpos].
      * rewrite cellsGet_cellsDelete_eq. unfold pendingRows.
        rewrite decide_False by assumption.
        destruct (Z.ltb_spec r0 d); [lia|].
        destruct (decide (getCellKey (r0 + 1) c0 ∈ rest)) as [|Hout];
          [reflexivity|].
        symmetry. apply Hright; [lia | assumption].
      * rewrite cellsGet_cellsDelete_ne by (apply key_ne; lia).
        destruct (decide (r = r0 - 1 /\ c = c0)) as [[-> ->]|Hpos'].
        -- rewrite cellsGet_cellsSet_eq. unfold pendingRows.
           rewrite decide_False by assumption.
           destruct (Z.ltb_spec (r0 - 1) d); [lia|].
           replace (r0 - 1 + 1) with r0 by lia.
           rewrite decide_False by assumption.
           now rewrite Hcell.
        -- rewrite cellsGet_cellsSet_ne by (apply key_ne; lia).
           rewrite (Hinv r c Hr Hc). apply pendingRows_skip.
           ++ apply key_ne; lia.
           ++ destruct (Z.ltb_spec r d); [now left|right].
              apply key_ne; lia.
    + (* a row above [d]: nothing changes *)
      apply (IH (done ++ [getCellKey r0 c0])%list);
        [rewrite <- app_assoc; exact Hkeys | | assumption..].
      clear r c Hr Hc. intros r c Hr Hc.
      rewrite (Hinv r c Hr Hc).
      destruct (decide (r = r0 /\ c = c0)) as [[-> ->]|Hpos].
      * unfold pendingRows. rewrite decide_True by left.
        rewrite decide_False by assumption.
        destruct (Z.ltb_spec r0 d); [reflexivity | lia].
      * apply pendingRows_skip.
        -- apply key_ne; lia.
        -- destruct (Z.ltb_spec r d); [now left|right].
           apply key_ne; lia.
Qed.

(** The same for [DELETE_ROW]: an override of a row above [d] stays, and
    row [r >= d] holds afterwards what row [r + 1] held. *)
Lemma remapRows_safe (d : Z) (m : Cells) (r c : Z) :
  0 <= d ->
  NoDup (cellsKeys m) -> wellKeyed (cellsKeys m) -> safeOrderRows d (cellsKeys m) ->
  0 <= r -> 0 <= c ->
  cellsGet (getCellKey r c) (remapRows d (cellsKeys m) m)
  = if Z.ltb r d then cellsGet (getCellKey r c) m
    else cellsGet (getCellKey (r + 1) c) m.
Proof.
  intros Hd Hnd Hwk Hsafe Hr Hc. rewrite <- pendingRows_done.
  apply (remapRows_pending d m Hd Hnd Hwk Hsafe (cellsKeys m) []);
    [reflexivity | | assumption..].
  clear r c Hr Hc. intros r c Hr Hc. unfold pendingRows.
  destruct (decide (getCellKey r c ∈ cellsKeys m)) as [|Hout]; [reflexivity|].
  rewrite (cellsGet_not_key _ _ Hout).
  destruct (Z.ltb r d); [reflexivity|].
  destruct (decide (getCellKey (r + 1) c ∈ cellsKeys m)) as [|Hout'];
    [reflexivity|].
  now rewrite (cellsGet_not_key _ _ Hout').
Qed.

Lemma index_lt {A} (l : list A) (i : Z) (a : A) :
  Js.index l i = Some a -> 0 <= i < Z.of_nat (length l).
Proof.
  unfold Js.index. destruct (Z.ltb_spec i 0); [discriminate|].
  intros Hl. apply lookup_lt_Some in Hl. lia.
Qed.

(** X9.  [DELETE_COLUMN] inside the sheet.  The column leaves the column
    list and its field leaves every row.
    When the override keys are those of non-negative positions, pairwise
    distinct, and in an order that is safe for the loop, the overrides
    follow their columns: left of the deleted column they stay, and column
    [c] at or right of it holds afterwards what column [c + 1] held. *)
Theorem delete_column_shifts_overrides
    (now : Z) (s : SpreadsheetState) (d : Z) (column : SpreadsheetColumn) :
  Js.index (columns (data s)) d = Some column ->
  NoDup (cellsKeys (cells s)) ->
  wellKeyed (cellsKeys (cells s)) ->
  safeOrder d (cellsKeys (cells s)) ->
  exists s',
    dispatch now s (DELETE_COLUMN d) = Js.Ok s'
    /\ columns (data s') = delete (Z.to_nat d) (columns (data s))
    /\ items (data s') = map (delete (key column)) (items (data s))
    /\ (forall r c, 0 <= r -> 0 <= c ->
          cellsGet (getCellKey r c) (cells s')
          = if Z.ltb c d then cellsGet (getCellKey r c) (cells s)
            else cellsGet (getCellKey r (c + 1)) (cells s)).
Proof.
  intros Hcol Hnd Hwk Hsafe. pose proof (index_lt _ _ _ Hcol) as Hd.
  unfold dispatch.
  destruct (Z.ltb_spec d (Z.of_nat (length (columns (data s))))); [|lia].
  rewrite Hcol, mapThrowing_Ok.
  eexists. split; [reflexivity|]. unfold saveToHistory.
  cbn [data cells withHistory withData withCells columns items].
  split; [|split; [reflexivity|]].
  - unfold Js.removeAt. destruct (Z.ltb_spec d 0); [lia | reflexivity].
  - intros r c Hr Hc. apply remapColumns_safe; (lia || assumption).
Qed.

(** X10.  [DELETE_ROW] inside the sheet.  The row leaves the dataset, the
    columns stay, and, under the same conditions on the override keys as
    for columns, the overrides follow their rows: above the deleted row
    they stay, and row [r] at or below it holds afterwards what row
    [r + 1] held. *)
Theorem delete_row_shifts_overrides
    (now : Z) (s : SpreadsheetState) (d : Z) :
  0 <= d < Z.of_nat (length (items (data s))) ->
  NoDup (cellsKeys (cells s)) ->
  wellKeyed (cellsKeys (cells s)) ->
  safeOrderRows d (cellsKeys (cells s)) ->
  exists s',
    dispatch now s (DELETE_ROW d) = Js.Ok s'
    /\ columns (data s') = columns (data s)
    /\ items (data s') = delete (Z.to_nat d) (items (data s))
    /\ (forall r c, 0 <= r -> 0 <= c ->
          cellsGet (getCellKey r c) (cells s')
          = if Z.ltb r d then cellsGet (getCellKey r c) (cells s)
            else cellsGet (getCellKey (r + 1) c) (cells s)).
Proof.
  intros Hd Hnd Hwk Hsafe. unfold dispatch.
  destruct (Z.ltb_spec d (Z.of_nat (length (items (data s))))); [|lia].
  eexists. split; [reflexivity|]. unfold saveToHistory.
  cbn [data cells withHistory withData withCells columns items].
  split; [reflexivity|]. split.
  - unfold Js.removeAt. destruct (Z.ltb_spec d 0); [lia | reflexivity].
  - intros r c Hr Hc. apply remapRows_safe; (lia || assumption).
Qed.

End Deleting.

(** ** Writes and reads of single cells *)

Section Writes.
Context `{JS : Host}.

(** A validation result is one of the two shapes that the code builds. *)
Lemma validateCellValue_shape
    (v : Value) (columnType : string) (fmt : option Format) (res : ValidationResult) :
  validateCellValue v columnType fmt = Js.Ok res ->
  (exists t, res = valid t) \/ (exists m, res = invalid m).
Proof.
  unfold validateCellValue. intros Hv.
  repeat match type of Hv with
         | context [if ?b then _ else _] => destruct b
         | (_ ← ?m; _) = Js.Ok _ => apply bind_Ok in Hv as (? & _ & Hv)
         | Js.Ok _ = Js.Ok _ => injection Hv as <-
         end; eauto.
Qed.

(** X11.  What [SET_VALUE] leaves in a cell of an existing column, when
    the validation of the column type returns.  A rejected input is
    stored as it was typed, and the cell reads back exactly that; an
    accepted input is stored in its formatted form, unless that form is
    the empty string, in which case the input itself is stored. *)
Theorem set_value_stores_typed_or_formatted
    (now : Z) (s : SpreadsheetState) (p : CellPosition) (v : Value)
    (column : SpreadsheetColumn) (res : ValidationResult) :
  Js.index (columns (data s)) (col p) = Some column ->
  validateCellValue v (columnTypeName (type column)) (format column) = Js.Ok res ->
  exists s',
    dispatch now s (SET_VALUE p v) = Js.Ok s'
    /\ (isValid res = false ->
          formattedValue res = None
          /\ getCellRawValue s' (row p) (col p) = Js.Ok v)
    /\ (isValid res = true ->
          exists t,
            formattedValue res = Some t
            /\ getCellRawValue s' (row p) (col p)
               = Js.Ok (if String.eqb t "" then v else VStr t)).
Proof.
  intros Hcol Hv.
  assert (Hd : dispatch now s (SET_VALUE p v)
               = Js.Ok (storeValue s p (finalValue res v))).
  { unfold dispatch, storeValue. rewrite Hcol.
    destruct (notEmptyString v) eqn:Hne; [now rewrite Hv|].
    destruct v as [t|n]; [|discriminate]. simpl in Hne.
    destruct (String.eqb_spec t ""); [subst t | discriminate].
    unfold validateCellValue in Hv. simpl in Hv. injection Hv as <-.
    reflexivity. }
  eexists. split; [exact Hd|].
  assert (Hraw : forall w,
            getCellRawValue (storeValue s p w) (row p) (col p) = Js.Ok w).
  { intros w. erewrite getCellRawValue_override by apply storeValue_override.
    now destruct (cellsGet _ _). }
  rewrite Hraw.
  destruct (validateCellValue_shape _ _ _ _ Hv) as [[t ->]|[m ->]];
    (split; [intros Hval | intros Hval]); try discriminate.
  - exists t. split; reflexivity.
  - split; reflexivity.
Qed.

(** X12.  [SET_STYLE] and [SET_FORMULA] on a cell.  On a cell without an
    override both create one whose value is the empty string, so the cell
    reads as empty from then on, whatever the dataset holds at that
    position; on a cell with an override the value is kept.  The style
    given is merged over the style the cell had, field by field, and a
    formula leaves the style alone. *)
Theorem style_or_formula_blanks_untouched_cell
    (now : Z) (s : SpreadsheetState) (p : CellPosition)
    (st : CellStyle) (f : string) :
  let k := getCellKey (row p) (col p) in
  exists s1 s2,
    dispatch now s (SET_STYLE p st) = Js.Ok s1
    /\ dispatch now s (SET_FORMULA p f) = Js.Ok s2
    /\ (cellsGet k (cells s) = None ->
          getCellRawValue s1 (row p) (col p) = Js.Ok (VStr "")
          /\ getCellDisplayValue s1 (row p) (col p) = Js.Ok ""
          /\ getCellRawValue s2 (row p) (col p) = Js.Ok (VStr "")
          /\ getCellDisplayValue s2 (row p) (col p) = Js.Ok "")
    /\ (forall cell, cellsGet k (cells s) = Some cell ->
          getCellRawValue s1 (row p) (col p) = Js.Ok (value cell)
          /\ getCellRawValue s2 (row p) (col p) = Js.Ok (value cell))
    /\ getCellStyle s1 (row p) (col p)
       = mergeStyle (getCellStyle s (row p) (col p)) st
    /\ getCellStyle s2 (row p) (col p) = getCellStyle s (row p) (col p)
    /\ (formula <$> cellsGet k (cells s2)) = Some (Some f).
Proof.
  intros k.
  set (s1 := putCell s k (cellWithStyle (default emptyCell (cellsGet k (cells s))) st)).
  set (x2 := putCell s k (cellWithFormula (default emptyCell (cellsGet k (cells s))) f)).
  exists s1, (saveToHistory x2).
  split; [reflexivity|]. split; [reflexivity|].
  assert (H1 : cellsGet k (cells s1)
               = Some (cellWithStyle (default emptyCell (cellsGet k (cells s))) st))
    by apply cellsGet_cellsSet_eq.
  assert (H2 : cellsGet k (cells (saveToHistory x2))
               = Some (cellWithFormula (default emptyCell (cellsGet k (cells s))) f))
    by apply cellsGet_cellsSet_eq.
  pose proof (getCellRawValue_override s1 _ _ _ H1) as R1.
  pose proof (getCellRawValue_override (saveToHistory x2) _ _ _ H2) as R2.
  repeat split.
  - rewrite R1, H. reflexivity.
  - apply getCellDisplayValue_string. rewrite R1, H. reflexivity.
  - rewrite R2, H. reflexivity.
  - apply getCellDisplayValue_string. rewrite R2, H. reflexivity.
  - rewrite R1, H. reflexivity.
  - rewrite R2, H. reflexivity.
  - unfold getCellStyle. fold k. rewrite H1. now destruct (cellsGet k (cells s)).
  - unfold getCellStyle. fold k. rewrite H2. now destruct (cellsGet k (cells s)).
  - now rewrite H2.
Qed.

(** X13.  A write touches one cell.  After [SET_VALUE], [SET_STYLE] or
    [SET_FORMULA] at a position, every other position of the sheet reads
    as before: raw value, displayed value and style; and the dataset is
    the same. *)
Theorem writes_are_local
    (now : Z) (s s' : SpreadsheetState) (op : CellOperation)
    (p : CellPosition) (r c : Z) :
  writesAt p op ->
  0 <= row p -> 0 <= col p -> 0 <= r -> 0 <= c ->
  r <> row p \/ c <> col p ->
  dispatch now s op = Js.Ok s' ->
  getCellRawValue s' r c = getCellRawValue s r c
  /\ getCellDisplayValue s' r c = getCellDisplayValue s r c
  /\ getCellStyle s' r c = getCellStyle s r c
  /\ data s' = data s.
Proof.
  intros Hw Hrp Hcp Hr Hc Hne Hd.
  assert (Hk : getCellKey r c <> getCellKey (row p) (col p))
    by (apply key_ne; assumption).
  assert (H : cellsGet (getCellKey r c) (cells s') = cellsGet (getCellKey r c) (cells s)
              /\ data s' = data s).
  { destruct op; simpl in Hw; try contradiction; subst position.
    - apply (dispatch_leaves now _ s s' (SET_VALUE p value0)); [|exact Hd].
      simpl. congruence.
    - apply (dispatch_leaves now _ s s' (SET_STYLE p style0)); [|exact Hd].
      simpl. congruence.
    - injection Hd as <-. split; [|reflexivity].
      unfold saveToHistory. cbn [cells withHistory putCell withCells].
      now apply cellsGet_cellsSet_ne. }
  destruct H as [Hcells Hdata].
  destruct (readers_frame s s' r c Hcells Hdata) as [R D].
  repeat split; try assumption.
  unfold getCellStyle. now rewrite Hcells.
Qed.

Lemma readers_total (s : SpreadsheetState) (r c : Z) :
  0 <= r -> 0 <= c ->
  exists v t,
    getCellRawValue s r c = Js.Ok v /\ getCellDisplayValue s r c = Js.Ok t.
Proof.
  intros Hr Hc.
  assert (Hraw : exists v, getCellRawValue s r c = Js.Ok v).
  { unfold getCellRawValue. destruct (cellsGet _ _); [eauto|].
    destruct (Z.ltb_spec r (Z.of_nat (length (items (data s))))); [|eauto].
    destruct (Z.ltb_spec c (Z.of_nat (length (columns (data s))))); [|eauto].
    destruct (index_Some (items (data s)) r) as [item ->]; [lia|].
    destruct (index_Some (columns (data s)) c) as [column ->]; [lia|].
    cbn [andb]. destruct (item !! key column); eauto. }
  destruct Hraw as [v Hraw]. exists v. eexists. split; [exact Hraw|].
  unfold getCellDisplayValue. rewrite Hraw. reflexivity.
Qed.

(** X14.  Inside the non-negative quadrant the readers return: for every
    state and every position with non-negative coordinates, in or out of
    the dataset, with or without an override, [getCellRawValue] and
    [getCellDisplayValue] give a value. *)
Theorem readers_return_on_the_sheet (s : SpreadsheetState) (r c : Z) :
  0 <= r -> 0 <= c ->
  exists v t,
    getCellRawValue s r c = Js.Ok v /\ getCellDisplayValue s r c = Js.Ok t.
Proof. exact (readers_total s r c). Qed.

(** X15.  Reads outside the dataset, where no override is stored.  At or
    beyond the last row or column both readers give the empty string.
    With a negative coordinate, and the other coordinate below the size of
    the dataset, they raise a [TypeError]: the guard only compares with
    the sizes, and the row or column read is [undefined]. *)
Theorem readers_outside_the_dataset (s : SpreadsheetState) (r c : Z) :
  cellsGet (getCellKey r c) (cells s) = None ->
  (Z.of_nat (length (items (data s))) <= r
   \/ Z.of_nat (length (columns (data s))) <= c ->
   getCellRawValue s r c = Js.Ok (VStr "")
   /\ getCellDisplayValue s r c = Js.Ok "")
  /\ (r < Z.of_nat (length (items (data s))) ->
      c < Z.of_nat (length (columns (data s))) ->
      r < 0 \/ c < 0 ->
      getCellRawValue s r c = Js.Throw Js.TypeError
      /\ getCellDisplayValue s r c = Js.Throw Js.TypeError).
Proof.
  intros Hnone. split.
  - intros Hout.
    assert (Hraw : getCellRawValue s r c = Js.Ok (VStr "")).
    { unfold getCellRawValue. rewrite Hnone.
      destruct (Z.ltb_spec r (Z.of_nat (length (items (data s)))));
        destruct (Z.ltb_spec c (Z.of_nat (length (columns (data s)))));
        try reflexivity. lia. }
    split; [exact Hraw | now apply getCellDisplayValue_string].
  - intros Hr Hc Hneg.
    assert (Hraw : getCellRawValue s r c = Js.Throw Js.TypeError).
    { unfold getCellRawValue. rewrite Hnone.
      destruct (Z.ltb_spec r (Z.of_nat (length (items (data s))))); [|lia].
      destruct (Z.ltb_spec c (Z.of_nat (length (columns (data s))))); [|lia].
      cbn [andb]. destruct Hneg as [Hneg|Hneg].
      - now rewrite (index_None (items (data s)) r) by lia.
      - rewrite (index_None (columns (data s)) c) by lia.
        now destruct (Js.index _ r). }
    split; [exact Hraw|]. unfold getCellDisplayValue. now rewrite Hraw.
Qed.

(** X16.  The two reads of the base dataset agree.  Where no override is
    stored and [getCellRawValue] returns, [getCellValue] of [cellUtils]
    gives the string of the same value. *)
Theorem getCellValue_agrees_with_raw (s : SpreadsheetState) (r c : Z) (v : Value) :
  cellsGet (getCellKey r c) (cells s) = None ->
  getCellRawValue s r c = Js.Ok v ->
  getCellValue r c (data s) = valueToString v.
Proof.
  intros Hnone. unfold getCellRawValue, getCellValue. rewrite Hnone.
  destruct (Z.ltb_spec r (Z.of_nat (length (items (data s))))) as [Hr|Hr];
    [destruct (Z.ltb_spec c (Z.of_nat (length (columns (data s))))) as [Hc|Hc]|];
    cbn [andb].
  - destruct (Js.index (items (data s)) r) as [item|]; [|discriminate].
    destruct (Js.index (columns (data s)) c) as [column|]; [|discriminate].
    destruct (item !! key column) as [w|]; intros [= <-]; [|reflexivity].
    now destruct (falsy w).
  - intros [= <-]. rewrite (index_None (columns (data s)) c) by lia.
    now destruct (Js.index _ r).
  - intros [= <-]. now rewrite (index_None (items (data s)) r) by lia.
Qed.

End Writes.

(** ** Ranges and column names *)

Section Ranges.
Context `{JS : Host}.

(** X17.  Ranges are read up to the order of their corners.  Membership
    in a range is membership in its normal form, swapping the two corners
    changes nothing, normalizing twice is normalizing once, a normalized
    range has its start above and left of its end, and the component's own
    test on the selected range is [isInRange] of [cellUtils]. *)
Theorem isInRange_up_to_corner_order
    (s : SpreadsheetState) (p : CellPosition) (range : CellRange) :
  isInRange p (normalizeRange range) = isInRange p range
  /\ isInRange p {| start := end_ range; end_ := start range |} = isInRange p range
  /\ normalizeRange (normalizeRange range) = normalizeRange range
  /\ row (start (normalizeRange range)) <= row (end_ (normalizeRange range))
  /\ col (start (normalizeRange range)) <= col (end_ (normalizeRange range))
  /\ (selectedRange s = Some range ->
      isInSelectedRange s (row p) (col p) = isInRange p range).
Proof.
  destruct range as [[a b] [c d]]. unfold isInRange, normalizeRange.
  cbn [start end_ row col].
  replace (Z.min (Z.min a c) (Z.max a c)) with (Z.min a c) by lia.
  replace (Z.max (Z.min a c) (Z.max a c)) with (Z.max a c) by lia.
  replace (Z.min (Z.min b d) (Z.max b d)) with (Z.min b d) by lia.
  replace (Z.max (Z.min b d) (Z.max b d)) with (Z.max b d) by lia.
  rewrite (Z.min_comm c a), (Z.max_comm c a), (Z.min_comm d b), (Z.max_comm d b).
  repeat split; try lia.
  intros Hsel. unfold isInSelectedRange. now rewrite Hsel.
Qed.

End Ranges.

Section ColumnNames.

Lemma getColumnNameLoop_acc (fuel : nat) (index : Z) (result : string) :
  getColumnNameLoop fuel index result = getColumnNameLoop fuel index "" ++ result.
Proof.
  revert index result. induction fuel as [|fuel IH]; intros index result; simpl.
  - reflexivity.
  - destruct (Z.leb 0 index); [|reflexivity].
    rewrite IH. rewrite (IH _ (String _ "")).
    now rewrite append_assoc_cons.
Qed.

(** More rounds than [index + 1] change nothing: the loop has stopped. *)
Lemma getColumnNameLoop_enough (fuel1 : nat) :
  forall (fuel2 : nat) (index : Z) (result : string),
    (Z.to_nat (index + 1) <= fuel1)%nat ->
    (Z.to_nat (index + 1) <= fuel2)%nat ->
    getColumnNameLoop fuel1 index result = getColumnNameLoop fuel2 index result.
Proof.
  induction fuel1 as [|fuel1 IH]; intros [|fuel2] index result H1 H2; simpl;
    try reflexivity;
    destruct (Z.leb_spec 0 index) as [Hi|Hi]; try reflexivity; try lia.
  assert (index / 26 - 1 < index).
  { pose proof (Z.div_le_upper_bound index 26 index). nia. }
  apply IH; lia.
Qed.

Lemma getColumnNameLoop_fuel (fuel : nat) (index : Z) (result : string) :
  (Z.to_nat (index + 1) <= fuel)%nat ->
  getColumnNameLoop fuel index result
  = getColumnNameLoop (Z.to_nat (index + 1)) index result.
Proof. intros Hf. apply getColumnNameLoop_enough; lia. Qed.

(** The recursion that the loop computes. *)
Lemma getColumnName_step (index : Z) :
  0 <= index ->
  getColumnName index
  = getColumnName (index / 26 - 1)
    ++ String (fromCharCode (65 + index mod 26)) "".
Proof.
  intros Hi. unfold getColumnName.
  replace (Z.to_nat (index + 1)) with (S (Z.to_nat index)) by lia.
  simpl. destruct (Z.leb_spec 0 index); [|lia].
  rewrite getColumnNameLoop_acc. f_equal.
  apply getColumnNameLoop_fuel.
  assert (index / 26 - 1 < index).
  { pose proof (Z.div_le_upper_bound index 26 index). nia. }
  lia.
Qed.

Lemma getColumnName_negative (index : Z) : index < 0 -> getColumnName index = "".
Proof.
  intros Hi. unfold getColumnName.
  replace (Z.to_nat (index + 1)) with 0%nat by lia. reflexivity.
Qed.

Lemma append_last_inj (s t : string) (a b : ascii) :
  s ++ String a "" = t ++ String b "" -> s = t /\ a = b.
Proof.
  revert t. induction s as [|x s IH]; intros [|y t] E; simpl in E.
  - now injection E.
  - injection E as _ E. now destruct t.
  - injection E as _ E. now destruct s.
  - injection E as -> E. destruct (IH t E) as [-> ->]. now split.
Qed.

Lemma fromCharCode_letter_inj (m n : Z) :
  0 <= m < 26 -> 0 <= n < 26 ->
  fromCharCode (65 + m) = fromCharCode (65 + n) -> m = n.
Proof.
  intros Hm Hn E. unfold fromCharCode in E.
  apply (f_equal nat_of_ascii) in E.
  rewrite !nat_ascii_embedding in E by lia. lia.
Qed.

Lemma getColumnName_inj_aux (n : nat) :
  forall i j, 0 <= i -> 0 <= j -> (Z.to_nat i < n)%nat ->
    getColumnName i = getColumnName j -> i = j.
Proof.
  induction n as [|n IH]; intros i j Hi Hj Hn E; [lia|].
  rewrite (getColumnName_step i Hi), (getColumnName_step j Hj) in E.
  apply append_last_inj in E as [Ep El].
  apply fromCharCode_letter_inj in El;
    [|apply Z.mod_pos_bound; lia | apply Z.mod_pos_bound; lia].
  assert (Hq : i / 26 - 1 = j / 26 - 1).
  { destruct (Z.ltb_spec (i / 26 - 1) 0) as [Hqi|Hqi];
      destruct (Z.ltb_spec (j / 26 - 1) 0) as [Hqj|Hqj].
    - pose proof (Z.div_pos i 26). pose proof (Z.div_pos j 26). lia.
    - rewrite (getColumnName_negative _ Hqi) in Ep.
      rewrite (getColumnName_step _ Hqj) in Ep.
      now destruct (getColumnName _).
    - rewrite (getColumnName_negative _ Hqj) in Ep.
      rewrite (getColumnName_step _ Hqi) in Ep.
      now destruct (getColumnName _).
    - apply IH; try assumption.
      pose proof (Z.div_le_upper_bound i 26 i). nia. }
  rewrite (Z.div_mod i 26), (Z.div_mod j 26) by lia. lia.
Qed.

(** X18.  Column names.  Distinct column indices get distinct names; the
    first 26 names are the single letters from [A] on, as the toolbar
    computes them on its own with [String.fromCharCode(65 + col)]; from 26
    on a name is the name of [index / 26 - 1] followed by the letter of
    [index mod 26]; and a negative index has the empty name. *)
Theorem getColumnName_distinct (i j : Z) :
  0 <= i -> 0 <= j ->
  (getColumnName i = getColumnName j -> i = j)
  /\ (i < 26 -> getColumnName i = String (fromCharCode (65 + i)) "")
  /\ (26 <= i ->
      getColumnName i
      = getColumnName (i / 26 - 1) ++ String (fromCharCode (65 + i mod 26)) "")
  /\ getColumnName (- i - 1) = "".
Proof.
  intros Hi Hj. repeat split.
  - apply (getColumnName_inj_aux (S (Z.to_nat i))); (lia || assumption).
  - intros Hlt. rewrite getColumnName_step by assumption.
    rewrite Z.div_small, Z.mod_small by lia.
    now rewrite getColumnName_negative by lia.
  - intros _. now apply getColumnName_step.
  - apply getColumnName_negative. lia.
Qed.

End ColumnNames.

(** ** The keyboard *)

Section Keyboard.
Context `{JS : Host}.

(** X19.  Arrow keys keep the selection inside the dataset.  When the
    selected cell is inside the dataset, every [SELECT_CELL] that the key
    handler dispatches goes to a cell inside the dataset, one step away
    from the selected one in a single direction. *)
Theorem arrow_keys_stay_inside
    (s : SpreadsheetState) (e : KeyboardEvent) (p q : CellPosition) :
  selectedCell s = Some p ->
  inBounds s (row p) (col p) ->
  SELECT_CELL q ∈ handleKeyDown s e ->
  inBounds s (row q) (col q)
  /\ Z.abs (row q - row p) + Z.abs (col q - col p) = 1.
Proof.
  intros Hsel [Hr Hc] Hin. unfold handleKeyDown in Hin. rewrite Hsel in Hin.
  apply elem_of_app in Hin as [Hin|Hin]; [exfalso|].
  { repeat match type of Hin with
           | context [if ?b then _ else _] => destruct b
           | context [match ?x with _ => _ end] => destruct x
           end;
      repeat (apply elem_of_cons in Hin as [Hin|Hin]; [discriminate|]);
      inversion Hin. }
  apply elem_of_app in Hin as [Hin|Hin]; [exfalso|].
  { repeat match type of Hin with
           | context [if ?b then _ else _] => destruct b
           end;
      repeat (apply elem_of_cons in Hin as [Hin|Hin]; [discriminate|]);
      inversion Hin. }
  unfold inBounds.
  destruct (String.eqb (eventKey e) "ArrowUp");
    [|destruct (String.eqb (eventKey e) "ArrowDown");
      [|destruct (String.eqb (eventKey e) "ArrowLeft");
        [|destruct (String.eqb (eventKey e) "ArrowRight")]]];
    repeat match type of Hin with
           | context [Z.ltb ?a ?b] => destruct (Z.ltb_spec a b)
           end;
    try (inversion Hin; fail);
    apply list_elem_of_singleton in Hin; injection Hin as ->;
    cbn [row col]; lia.
Qed.

End Keyboard.

(** ** The range move and the history *)

Section MoveHistory.
Context `{JS : Host}.







End MoveHistory.

(** ** The values of the selected range *)

Section RangeValues.
Context `{JS : Host}.

Lemma forEachAppend_length {A B} (f : A -> Js.result (list B)) (l : list A) (n : nat) :
  (forall a, a ∈ l -> exists out, f a = Js.Ok out /\ length out = n) ->
  exists out, forEachAppend f l = Js.Ok out /\ length out = (length l * n)%nat.
Proof.
  induction l as [|a l IH]; intros Hf; simpl.
  - now exists [].
  - destruct (Hf a) as (xs & -> & Hxs); [left|].
    destruct IH as (ys & -> & Hys); [intros b Hb; apply Hf; now right|].
    simpl. eexists. split; [reflexivity|]. rewrite length_app. lia.
Qed.

(** X21.  [getRangeValues] on a selected range that starts at
    non-negative coordinates returns, and gives one value and one column
    type for every cell of the range: both lists have as many entries as
    the range has cells, whether or not the range lies inside the
    dataset. *)
Theorem getRangeValues_one_entry_per_cell
    (s : SpreadsheetState) (range : CellRange) :
  let n := normalizeRange range in
  selectedRange s = Some range ->
  0 <= row (start n) -> 0 <= col (start n) ->
  exists values columnTypes,
    getRangeValues s = Js.Ok (values, columnTypes)
    /\ Z.of_nat (length values)
       = (row (end_ n) - row (start n) + 1) * (col (end_ n) - col (start n) + 1)
    /\ length columnTypes = length values.
Proof.
  intros n Hsel Hr Hc. unfold getRangeValues. rewrite Hsel.
  subst n. cbn [normalizeRange start end_ row col] in *.
  set (minRow := Z.min (row (start range)) (row (end_ range))) in *.
  set (maxRow := Z.max (row (start range)) (row (end_ range))) in *.
  set (minCol := Z.min (col (start range)) (col (end_ range))) in *.
  set (maxCol := Z.max (col (start range)) (col (end_ range))) in *.
  assert (minRow <= maxRow) by (subst minRow maxRow; lia).
  assert (minCol <= maxCol) by (subst minCol maxCol; lia).
  edestruct (forEachAppend_length
               (fun r =>
                  forEachAppend
                    (fun c =>
                       v ← getCellDisplayValue s r c;
                       Js.Ok [(v, match Js.index (columns (data s)) c with
                                  | Some column => columnTypeName (type column)
                                  | None => "text"
                                  end)])
                    (seqZ minCol (maxCol - minCol + 1)))
               (seqZ minRow (maxRow - minRow + 1))
               (Z.to_nat (maxCol - minCol + 1)))
    as (pairs & Hpairs & Hlen).
  { intros r Hin. apply elem_of_seqZ in Hin.
    edestruct (forEachAppend_length
                 (fun c =>
                    v ← getCellDisplayValue s r c;
                    Js.Ok [(v, match Js.index (columns (data s)) c with
                               | Some column => columnTypeName (type column)
                               | None => "text"
                               end)])
                 (seqZ minCol (maxCol - minCol + 1)) 1)
      as (out & Hout & Hl).
    { intros c Hin'. apply elem_of_seqZ in Hin'.
      destruct (readers_total s r c) as (v & t & _ & ->); [lia | lia |].
      simpl. eauto. }
    exists out. split; [exact Hout|].
    rewrite Hl, length_seqZ. lia. }
  rewrite Hpairs. simpl. eexists. eexists. split; [reflexivity|].
  rewrite !length_map, Hlen, length_seqZ. split; [nia | reflexivity].
Qed.

End RangeValues.

(** ** Keys of positions off the sheet *)

Section NegativeKeys.

Lemma toString_negative (p : positive) :
  Js.toString (Z.neg p) = String "-" (Js.toString (Z.pos p)).
Proof. reflexivity. Qed.

(** X22.  The key of a position with a negative row does not decode to
    that position: the minus sign is read as a separator, so the row comes
    back as [0] and the column as the absolute value of the row, the real
    column being dropped.  The decoding is therefore an inverse of the
    encoding on non-negative positions only, and two distinct keys can
    decode to the same position. *)
Theorem parseCellKey_negative_row (r c : Z) :
  r < 0 -> 0 <= c ->
  parseCellKey (getCellKey r c) = (Some 0, Some (- r))
  /\ (0 < c -> parseCellKey (getCellKey r c) = parseCellKey (getCellKey 0 (- r))
              /\ getCellKey r c <> getCellKey 0 (- r)).
Proof.
  intros Hr Hc. destruct r as [|p|p]; try lia.
  assert (Hparse : parseCellKey (getCellKey (Z.neg p) c) = (Some 0, Some (Z.pos p))).
  { unfold parseCellKey, getCellKey, getCellKeyNum, Js.numString, Js.split.
    rewrite toString_negative.
    change (String "-" (Js.toString (Z.pos p)) ++ "-" ++ Js.toString c)
      with (String "-" (Js.toString (Z.pos p) ++ String "-" (Js.toString c))).
    cbn [Js.splitAux]. rewrite Ascii.eqb_refl.
    rewrite splitAux_at_sep by now apply toString_no_dash.
    rewrite splitAux_no_sep by now apply toString_no_dash.
    simpl. now rewrite Number_toString by lia. }
  split; [exact Hparse|]. intros Hpos. split.
  - rewrite Hparse. change (- Z.neg p) with (Z.pos p).
    now rewrite parse_key by lia.
  - unfold getCellKey, getCellKeyNum, Js.numString.
    rewrite toString_negative. discriminate.
Qed.

End NegativeKeys.

(** ** Column updates and the context menu *)

Section Columns.
Context `{JS : Host}.

Lemma index_alter {A} (f : A -> A) (l : list A) (i j : Z) :
  0 <= i ->
  Js.index (alter f (Z.to_nat i) l) j
  = if Z.eqb j i then f <$> Js.index l j else Js.index l j.
Proof.
  intros Hi. unfold Js.index.
  destruct (Z.ltb_spec j 0); [destruct (Z.eqb_spec j i); [lia | reflexivity]|].
  destruct (Z.eqb_spec j i) as [->|Hne].
  - apply list_lookup_alter_eq.
  - apply list_lookup_alter_ne. lia.
Qed.

(** The reads of the raw value depend on a column through its key only. *)
Lemma raw_same_keys (s s' : SpreadsheetState) (r c : Z) :
  cells s' = cells s -> items (data s') = items (data s) ->
  length (columns (data s')) = length (columns (data s)) ->
  (key <$> Js.index (columns (data s')) c) = (key <$> Js.index (columns (data s)) c) ->
  getCellRawValue s' r c = getCellRawValue s r c.
Proof.
  intros Hcells Hitems Hlen Hkey. unfold getCellRawValue.
  rewrite Hcells, Hitems, Hlen.
  destruct (cellsGet _ _); [reflexivity|].
  destruct (_ && _); [|reflexivity].
  destruct (Js.index (items (data s)) r) as [item|]; [|reflexivity].
  destruct (Js.index (columns (data s')) c) as [column'|],
           (Js.index (columns (data s)) c) as [column|];
    try discriminate; [|reflexivity].
  injection Hkey as ->. reflexivity.
Qed.

(** X23.  Renaming or retyping a column changes that column and nothing
    else.  The other columns, the rows and the overrides are untouched, the
    column keeps its key, and every cell keeps its raw value: a change of
    type does not validate or reformat what is already stored.  The new
    type comes with the format given, or with an empty one: the format the
    column had is dropped. *)
Theorem column_update_keeps_values
    (now : Z) (s : SpreadsheetState) (i : Z)
    (newName : string) (columnType : ColumnType) (fmt : option Format) :
  0 <= i < Z.of_nat (length (columns (data s))) ->
  exists old s1 s2,
    Js.index (columns (data s)) i = Some old
    /\ dispatch now s (UPDATE_COLUMN_NAME i newName) = Js.Ok s1
    /\ dispatch now s (UPDATE_COLUMN_TYPE i columnType fmt) = Js.Ok s2
    /\ Js.index (columns (data s1)) i
       = Some {| key := key old; name := newName;
                 type := type old; format := format old |}
    /\ Js.index (columns (data s2)) i
       = Some {| key := key old; name := name old; type := columnType;
                 format := Some (default emptyFormat fmt) |}
    /\ (forall j, j <> i ->
          Js.index (columns (data s1)) j = Js.index (columns (data s)) j
          /\ Js.index (columns (data s2)) j = Js.index (columns (data s)) j)
    /\ items (data s1) = items (data s) /\ items (data s2) = items (data s)
    /\ cells s1 = cells s /\ cells s2 = cells s
    /\ (forall r c,
          getCellRawValue s1 r c = getCellRawValue s r c
          /\ getCellRawValue s2 r c = getCellRawValue s r c).
Proof.
  intros Hi. destruct (index_Some (columns (data s)) i Hi) as [old Hold].
  exists old. unfold dispatch.
  destruct (Z.leb_spec 0 i); [|lia].
  destruct (Z.ltb_spec i (Z.of_nat (length (columns (data s))))); [|lia].
  cbn [andb]. eexists. eexists.
  split; [exact Hold|]. split; [reflexivity|]. split; [reflexivity|].
  unfold saveToHistory. cbn [data cells withHistory withData columns items].
  split; [rewrite index_alter, Z.eqb_refl, Hold by lia; reflexivity|].
  split; [rewrite index_alter, Z.eqb_refl, Hold by lia; reflexivity|].
  split.
  { intros j Hj. rewrite !index_alter by lia.
    destruct (Z.eqb_spec j i); [contradiction | split; reflexivity]. }
  repeat (split; [reflexivity|]).
  intros r c. split; apply raw_same_keys; try reflexivity;
    cbn [data cells withHistory withData columns items];
    try apply length_alter;
    rewrite index_alter by lia;
    (destruct (Z.eqb_spec c i); [|reflexivity]);
    now destruct (Js.index _ c).
Qed.

Lemma removeAt_spliceInsert {A} (l : list A) (i : Z) (x : A) :
  0 <= i <= Z.of_nat (length l) ->
  Js.removeAt (Js.spliceInsert l i x) i = l.
Proof.
  intros Hi. unfold Js.removeAt, Js.spliceInsert, Js.relIndex.
  destruct (Z.ltb_spec i 0); [lia|].
  replace (Nat.min (Z.to_nat i) (length l)) with (Z.to_nat i) by lia.
  rewrite <- (take_drop (Z.to_nat i) l) at 3.
  assert (Hlen : length (take (Z.to_nat i) l) = Z.to_nat i)
    by (rewrite length_take; lia).
  rewrite <- Hlen at 1. rewrite delete_middle. reflexivity.
Qed.

(** X24.  A column added from the context menu and deleted again.  The
    two menu entries, one after the other on the same header, always
    return, and leave the columns as they were; the rows are as they were
    too, provided that no row had a field under the key of the column that
    came and went. *)
Theorem add_then_delete_column
    (now : Z) (s : SpreadsheetState) (i : Z) :
  0 <= i <= Z.of_nat (length (columns (data s))) ->
  exists s',
    dispatchAll now s
      (handleContextMenuAction i "add-column-left"
       ++ handleContextMenuAction i "delete-column")%list
    = Js.Ok s'
    /\ columns (data s') = columns (data s)
    /\ ((forall item, item ∈ items (data s) ->
           item !! ("column_" ++ Js.toString now) = None) ->
        items (data s') = items (data s)).
Proof.
  intros Hi.
  change (handleContextMenuAction i "add-column-left"
          ++ handleContextMenuAction i "delete-column")%list
    with [ADD_COLUMN (Some i) None; DELETE_COLUMN i].
  cbn [dispatchAll].
  change (dispatch now s (ADD_COLUMN (Some i) None))
    with (Js.Ok (saveToHistory
                   (withData s
                      {| columns :=
                           Js.spliceInsert (columns (data s)) i
                             {| key := "column_" ++ Js.toString now;
                                name := stringOr None
                                          ("Column " ++
                                           Js.toString
                                             (Z.of_nat (length (columns (data s))) + 1));
                                type := text; format := None |};
                         items :=
                           map (fun item : SpreadsheetItem =>
                                  <["column_" ++ Js.toString now := VStr ""]> item)
                               (items (data s)) |}))).
  set (x := withData s _). cbn [mbind result_bind Js.bind].
  unfold dispatch.
  change (data (saveToHistory x)) with (data x).
  change (cells (saveToHistory x)) with (cells s).
  cbn [data x withData columns items].
  rewrite length_spliceInsert.
  destruct (Z.ltb_spec i (Z.of_nat (S (length (columns (data s)))))); [|lia].
  rewrite index_spliceInsert by assumption.
  rewrite Z.ltb_irrefl, Z.eqb_refl, mapThrowing_Ok.
  cbn [mbind result_bind Js.bind key].
  eexists. split; [reflexivity|].
  unfold saveToHistory. cbn [data withHistory withData withCells columns items].
  split; [now apply removeAt_spliceInsert|].
  intros Hfresh. rewrite map_map.
  rewrite <- (map_id (items (data s))) at 2.
  apply map_ext_in. intros item Hin. apply list_elem_of_In in Hin.
  unfold SpreadsheetItem in *.
  rewrite delete_insert_eq. apply delete_id. now apply Hfresh.
Qed.

End Columns.

(** ** Keys that edit, and what the grid highlights *)

Section Editing.
Context `{JS : Host}.

Lemma deleteKey_operations (s : SpreadsheetState) (e : KeyboardEvent) (p : CellPosition) :
  selectedCell s = Some p -> editingCell s = None ->
  eventKey e = "Delete" \/ eventKey e = "Backspace" ->
  handleKeyDown s e = [SET_VALUE p (VStr "")].
Proof.
  intros Hsel Hed [Hk|Hk]; unfold handleKeyDown; rewrite Hsel, Hed, Hk;
    cbn [String.eqb Ascii.eqb Bool.eqb andb orb];
    now destruct (ctrlKey e || metaKey e).
Qed.

(** X25.  The Delete and Backspace keys clear the selected cell.  With a
    cell selected and no cell being edited, the handler dispatches one
    [SET_VALUE] of the empty string, whatever the modifier keys; the
    dispatch returns, the cell then displays the empty string even where
    the dataset holds a value, and the dataset itself is not changed. *)
Theorem delete_key_clears_selected_cell
    (now : Z) (s : SpreadsheetState) (e : KeyboardEvent) (p : CellPosition) :
  selectedCell s = Some p -> editingCell s = None ->
  eventKey e = "Delete" \/ eventKey e = "Backspace" ->
  exists s',
    dispatchAll now s (handleKeyDown s e) = Js.Ok s'
    /\ getCellRawValue s' (row p) (col p) = Js.Ok (VStr "")
    /\ getCellDisplayValue s' (row p) (col p) = Js.Ok ""
    /\ data s' = data s
    /\ selectedCell s' = Some p.
Proof.
  intros Hsel Hed Hk. rewrite (deleteKey_operations s e p Hsel Hed Hk).
  cbn [dispatchAll]. rewrite dispatch_SET_VALUE_empty.
  cbn [mbind result_bind Js.bind mret result_ret].
  eexists. split; [reflexivity|].
  assert (Hraw : getCellRawValue (storeValue s p (VStr "")) (row p) (col p)
                 = Js.Ok (VStr "")).
  { erewrite getCellRawValue_override by apply storeValue_override.
    now destruct (cellsGet _ _). }
  split; [exact Hraw|]. split; [now apply getCellDisplayValue_string|].
  split; [reflexivity | exact Hsel].
Qed.



(** X27.  What the grid highlights after a selection.  After
    [SELECT_CELL] exactly the chosen cell is selected and no cell lies in
    a selected range; after [SELECT_RANGE] no single cell is selected and
    the cells of the selected range are those of the range given, in
    whatever order its corners come. *)
Theorem selection_is_what_was_selected
    (now : Z) (s : SpreadsheetState) (p : CellPosition) (range : CellRange) :
  exists s1 s2,
    dispatch now s (SELECT_CELL p) = Js.Ok s1
    /\ dispatch now s (SELECT_RANGE range) = Js.Ok s2
    /\ (forall r c, isSelected s1 r c = true <-> r = row p /\ c = col p)
    /\ (forall r c, isInSelectedRange s1 r c = false)
    /\ (forall r c, isSelected s2 r c = false)
    /\ (forall r c,
          isInSelectedRange s2 r c = isInRange {| row := r; col := c |} range).
Proof.
  eexists. eexists. split; [reflexivity|]. split; [reflexivity|].
  repeat split; try reflexivity; unfold isSelected in *;
    cbn [selectedCell withSelection] in *.
  - apply andb_true_iff in H as [H _]. apply Z.eqb_eq in H. now symmetry.
  - apply andb_true_iff in H as [_ H]. apply Z.eqb_eq in H. now symmetry.
  - intros [-> ->]. now rewrite !Z.eqb_refl.
Qed.

(** X28.  The displayed value and [formatCellValue].  Where the column
    exists and the raw value is read, a cell of a number or currency
    column displays what [formatCellValue] of [cellUtils] gives for the
    raw value; in a column of any other type a number is displayed by its
    plain conversion to a string, without the locale format. *)
Theorem display_follows_column_type
    (s : SpreadsheetState) (r c : Z) (column : SpreadsheetColumn) (v : Value) :
  Js.index (columns (data s)) c = Some column ->
  getCellRawValue s r c = Js.Ok v ->
  (type column = number_ \/ type column = currency ->
   getCellDisplayValue s r c = Js.Ok (formatCellValue v))
  /\ (type column <> number_ -> type column <> currency ->
      getCellDisplayValue s r c = Js.Ok (valueToString v)).
Proof.
  intros Hcol Hraw. pose proof (index_lt _ _ _ Hcol) as Hc.
  unfold getCellDisplayValue. rewrite Hraw. cbn [mbind result_bind Js.bind].
  destruct (Z.ltb_spec c (Z.of_nat (length (columns (data s))))); [|lia].
  rewrite Hcol. split.
  - intros [Ht|Ht]; rewrite Ht; now destruct v.
  - intros Hn Hcur. destruct v; [reflexivity|].
    destruct (type column); try reflexivity; contradiction.
Qed.

End Editing.

(** ** Further runs on the test dataset *)

Section MoreRuns.
Import RefHost Sample MoreSample.

Lemma run_twoEdits : dispatchAll 0 (useSpreadsheet (Some mockData)) twoEdits = Js.Ok twoCommits.
Proof. apply get_Ok. reflexivity. Qed.

Lemma run_firstEdit : dispatch 0 loaded firstEdit = Js.Ok firstCommit.
Proof. apply dispatch_first. reflexivity. Qed.

Lemma run_secondEdit : dispatch 0 firstCommit secondEdit = Js.Ok twoCommits.
Proof. apply (dispatch_last 0 loaded loaded loaded [firstEdit] secondEdit). reflexivity. Qed.

Lemma reachable_history_bounds_witness :
  dispatchAll 0 (useSpreadsheet (Some mockData)) twoEdits = Js.Ok twoCommits
  /\ -1 <= historyIndex twoCommits <= Z.of_nat (length (history twoCommits))
  /\ (exists u, dispatch 0 twoCommits UNDO = Js.Ok u).
Proof.
  split; [exact run_twoEdits|].
  destruct (reachable_history_bounds 0 (Some mockData) twoEdits twoCommits run_twoEdits)
    as (A & _ & B & _).
  split; [exact A | exact B].
Defined.


Lemma undo_then_redo_of_a_commit_witness :
  -1 <= historyIndex loaded < 48
  /\ commits loaded firstEdit /\ commits firstCommit secondEdit
  /\ exists s3,
       dispatch 0 twoCommits UNDO = Js.Ok s3
       /\ cells s3 = cells firstCommit
       /\ dispatch 0 s3 REDO = Js.Ok twoCommits.
Proof.
  assert (A : -1 <= historyIndex loaded < 48) by (simpl; lia).
  assert (B : commits loaded firstEdit) by exact I.
  assert (C : commits firstCommit secondEdit) by exact I.
  split; [exact A|]. split; [exact B|]. split; [exact C|].
  destruct (undo_then_redo_of_a_commit 0 loaded firstCommit twoCommits
              firstEdit secondEdit A B run_firstEdit C run_secondEdit)
    as (s3 & U & _ & Hc & _ & _ & R).
  exists s3. split; [exact U|]. split; [exact Hc | exact R].
Defined.

Lemma selections_exclude_each_other_witness :
  dispatchAll 0 (useSpreadsheet (Some mockData)) twoEdits = Js.Ok twoCommits
  /\ (selectedCell twoCommits = None \/ selectedRange twoCommits = None).
Proof.
  split; [exact run_twoEdits|].
  exact (proj1 (selections_exclude_each_other 0 (Some mockData) twoEdits twoCommits
                  run_twoEdits)).
Defined.

Lemma dispatch_raises_only_witness :
  historyBounds loaded
  /\ dispatch 0 loaded (DELETE_COLUMN (-1)) = Js.Throw Js.TypeError
  /\ mayRaise loaded (DELETE_COLUMN (-1)).
Proof.
  assert (A : historyBounds loaded) by (unfold historyBounds; simpl; lia).
  assert (B : dispatch 0 loaded (DELETE_COLUMN (-1)) = Js.Throw Js.TypeError)
    by reflexivity.
  split; [exact A|]. split; [exact B|].
  exact (dispatch_raises_only 0 loaded (DELETE_COLUMN (-1)) Js.TypeError A B).
Defined.

Lemma add_column_keys_distinct_witness :
  NoDup (map key (columns (data loaded)))
  /\ dispatch 0 loaded (ADD_COLUMN None None) = Js.Ok columnAdded
  /\ (NoDup (map key (columns (data columnAdded)))
      <-> ("column_" ++ Js.toString 0) ∉ map key (columns (data loaded))).
Proof.
  assert (A : NoDup (map key (columns (data loaded)))).
  { change (map key (columns (data loaded))) with ["product"; "2020"; "2021"].
    apply (bool_decide_unpack _). vm_compute. exact I. }
  assert (B : dispatch 0 loaded (ADD_COLUMN None None) = Js.Ok columnAdded)
    by (apply dispatch_first; reflexivity).
  split; [exact A|]. split; [exact B|].
  exact (add_column_keys_distinct 0 loaded columnAdded None None A B).
Defined.

Lemma add_column_keeps_overrides_in_place_witness :
  0 <= 1 <= Z.of_nat (length (columns (data twoOverrides)))
  /\ dispatch 0 twoOverrides (ADD_COLUMN (Some 1) None) = Js.Ok columnInserted
  /\ cells columnInserted = cells twoOverrides.
Proof.
  assert (A : 0 <= 1 <= Z.of_nat (length (columns (data twoOverrides))))
    by (simpl; lia).
  assert (B : dispatch 0 twoOverrides (ADD_COLUMN (Some 1) None) = Js.Ok columnInserted).
  { apply (dispatch_last 0 loaded loaded loaded laterColumnFirst). reflexivity. }
  split; [exact A|]. split; [exact B|].
  destruct (add_column_keeps_overrides_in_place 0 twoOverrides columnInserted 1 None A B)
    as (_ & _ & _ & C & _).
  exact C.
Defined.

Lemma keys_priced : cellsKeys (cells priced) = [getCellKey 0 1].
Proof. reflexivity. Qed.

Lemma keys_secondRowEdited : cellsKeys (cells secondRowEdited) = [getCellKey 1 0].
Proof. reflexivity. Qed.

Lemma wellKeyed_one (r c : Z) : 0 <= r -> 0 <= c -> wellKeyed [getCellKey r c].
Proof. intros Hr Hc. constructor; [|constructor]. now exists r, c. Qed.

Lemma delete_column_shifts_overrides_witness :
  Js.index (columns (data priced)) 0 = Some (column "product" text)
  /\ NoDup (cellsKeys (cells priced))
  /\ wellKeyed (cellsKeys (cells priced))
  /\ safeOrder 0 (cellsKeys (cells priced))
  /\ exists s',
       dispatch 0 priced (DELETE_COLUMN 0) = Js.Ok s'
       /\ cellsGet (getCellKey 0 0) (cells s') = cellsGet (getCellKey 0 1) (cells priced).
Proof.
  assert (A : Js.index (columns (data priced)) 0 = Some (column "product" text))
    by reflexivity.
  assert (B : NoDup (cellsKeys (cells priced))).
  { rewrite keys_priced. apply NoDup_singleton. }
  assert (C : wellKeyed (cellsKeys (cells priced))).
  { rewrite keys_priced. apply wellKeyed_one; lia. }
  assert (D : safeOrder 0 (cellsKeys (cells priced))).
  { rewrite keys_priced. intros l1 l2 l3 r c _ _ E.
    apply (f_equal (@length string)) in E.
    rewrite length_app in E. cbn [length] in E.
    rewrite length_app in E. cbn [length] in E. lia. }
  split; [exact A|]. split; [exact B|]. split; [exact C|]. split; [exact D|].
  destruct (delete_column_shifts_overrides 0 priced 0 (column "product" text) A B C D)
    as (s' & E & _ & _ & F).
  exists s'. split; [exact E|]. apply (F 0 0); lia.
Defined.

Lemma delete_row_shifts_overrides_witness :
  0 <= 0 < Z.of_nat (length (items (data secondRowEdited)))
  /\ NoDup (cellsKeys (cells secondRowEdited))
  /\ wellKeyed (cellsKeys (cells secondRowEdited))
  /\ safeOrderRows 0 (cellsKeys (cells secondRowEdited))
  /\ exists s',
       dispatch 0 secondRowEdited (DELETE_ROW 0) = Js.Ok s'
       /\ cellsGet (getCellKey 0 0) (cells s')
          = cellsGet (getCellKey 1 0) (cells secondRowEdited).
Proof.
  assert (A : 0 <= 0 < Z.of_nat (length (items (data secondRowEdited))))
    by (simpl; lia).
  assert (B : NoDup (cellsKeys (cells secondRowEdited))).
  { rewrite keys_secondRowEdited. apply NoDup_singleton. }
  assert (C : wellKeyed (cellsKeys (cells secondRowEdited))).
  { rewrite keys_secondRowEdited. apply wellKeyed_one; lia. }
  assert (D : safeOrderRows 0 (cellsKeys (cells secondRowEdited))).
  { rewrite keys_secondRowEdited. intros l1 l2 l3 r c _ _ E.
    apply (f_equal (@length string)) in E.
    rewrite length_app in E. cbn [length] in E.
    rewrite length_app in E. cbn [length] in E. lia. }
  split; [exact A|]. split; [exact B|]. split; [exact C|]. split; [exact D|].
  destruct (delete_row_shifts_overrides 0 secondRowEdited 0 A B C D)
    as (s' & E & _ & _ & F).
  exists s'. split; [exact E|]. apply (F 0 0); lia.
Defined.

Lemma set_value_stores_typed_or_formatted_witness :
  Js.index (columns (data ledgerLoaded)) (col (at_ 0 1)) = Some (column "amount" number_)
  /\ validateCellValue (VStr "abc") "number" None
     = Js.Ok (invalid "Must be a valid number")
  /\ exists s',
       dispatch 0 ledgerLoaded (SET_VALUE (at_ 0 1) (VStr "abc")) = Js.Ok s'
       /\ getCellRawValue s' 0 1 = Js.Ok (VStr "abc").
Proof.
  assert (A : Js.index (columns (data ledgerLoaded)) (col (at_ 0 1))
              = Some (column "amount" number_)) by reflexivity.
  assert (B : validateCellValue (VStr "abc") "number" None
              = Js.Ok (invalid "Must be a valid number")) by reflexivity.
  split; [exact A|]. split; [exact B|].
  destruct (set_value_stores_typed_or_formatted 0 ledgerLoaded (at_ 0 1) (VStr "abc")
              (column "amount" number_) (invalid "Must be a valid number") A B)
    as (s' & D & R & _).
  exists s'. split; [exact D|]. exact (proj2 (R eq_refl)).
Defined.

Lemma writes_are_local_witness :
  writesAt (at_ 0 0) (SET_VALUE (at_ 0 0) (VStr "Changed Value"))
  /\ dispatch 0 loaded (SET_VALUE (at_ 0 0) (VStr "Changed Value")) = Js.Ok changed
  /\ getCellDisplayValue changed 1 1 = getCellDisplayValue loaded 1 1.
Proof.
  assert (A : writesAt (at_ 0 0) (SET_VALUE (at_ 0 0) (VStr "Changed Value")))
    by reflexivity.
  assert (B : dispatch 0 loaded (SET_VALUE (at_ 0 0) (VStr "Changed Value"))
              = Js.Ok changed) by (apply dispatch_first; reflexivity).
  split; [exact A|]. split; [exact B|].
  destruct (writes_are_local 0 loaded changed _ (at_ 0 0) 1 1 A) as (_ & D & _);
    [simpl; lia | simpl; lia | lia | lia | left; simpl; lia | exact B | exact D].
Defined.

Lemma readers_return_on_the_sheet_witness :
  0 <= 5 /\ 0 <= 7
  /\ exists v t, getCellRawValue changed 5 7 = Js.Ok v
                 /\ getCellDisplayValue changed 5 7 = Js.Ok t.
Proof.
  split; [lia|]. split; [lia|].
  apply (readers_return_on_the_sheet changed 5 7); lia.
Defined.

Lemma readers_outside_the_dataset_witness :
  cellsGet (getCellKey (-1) 0) (cells loaded) = None
  /\ -1 < Z.of_nat (length (items (data loaded)))
  /\ 0 < Z.of_nat (length (columns (data loaded)))
  /\ getCellRawValue loaded (-1) 0 = Js.Throw Js.TypeError.
Proof.
  assert (A : cellsGet (getCellKey (-1) 0) (cells loaded) = None) by reflexivity.
  assert (B : -1 < Z.of_nat (length (items (data loaded)))) by (simpl; lia).
  assert (C : 0 < Z.of_nat (length (columns (data loaded)))) by (simpl; lia).
  split; [exact A|]. split; [exact B|]. split; [exact C|].
  destruct (readers_outside_the_dataset loaded (-1) 0 A) as [_ T].
  exact (proj1 (T B C (or_introl eq_refl))).
Defined.

Lemma getCellValue_agrees_with_raw_witness :
  cellsGet (getCellKey 0 0) (cells loaded) = None
  /\ getCellRawValue loaded 0 0 = Js.Ok (VStr "Widget A")
  /\ getCellValue 0 0 (data loaded) = "Widget A".
Proof.
  assert (A : cellsGet (getCellKey 0 0) (cells loaded) = None) by reflexivity.
  assert (B : getCellRawValue loaded 0 0 = Js.Ok (VStr "Widget A")) by reflexivity.
  split; [exact A|]. split; [exact B|].
  exact (getCellValue_agrees_with_raw loaded 0 0 (VStr "Widget A") A B).
Defined.

Lemma getColumnName_distinct_witness :
  0 <= 27 /\ 0 <= 701
  /\ (getColumnName 27 = getColumnName 701 -> 27 = 701)
  /\ getColumnName (- 27 - 1) = "".
Proof.
  split; [lia|]. split; [lia|].
  destruct (getColumnName_distinct 27 701) as (A & _ & _ & B); [lia | lia |].
  split; [exact A | exact B].
Defined.

Lemma arrowDown_on_cursor : handleKeyDown cursor arrowDown = [SELECT_CELL (at_ 1 0)].
Proof. reflexivity. Qed.

Lemma arrow_keys_stay_inside_witness :
  selectedCell cursor = Some (at_ 0 0)
  /\ inBounds cursor (row (at_ 0 0)) (col (at_ 0 0))
  /\ SELECT_CELL (at_ 1 0) ∈ handleKeyDown cursor arrowDown
  /\ inBounds cursor (row (at_ 1 0)) (col (at_ 1 0)).
Proof.
  assert (A : selectedCell cursor = Some (at_ 0 0)) by reflexivity.
  assert (B : inBounds cursor (row (at_ 0 0)) (col (at_ 0 0)))
    by (unfold inBounds; simpl; lia).
  assert (C : SELECT_CELL (at_ 1 0) ∈ handleKeyDown cursor arrowDown)
    by (rewrite arrowDown_on_cursor; left).
  split; [exact A|]. split; [exact B|]. split; [exact C|].
  exact (proj1 (arrow_keys_stay_inside cursor arrowDown (at_ 0 0) (at_ 1 0) A B C)).
Defined.


Lemma getRangeValues_one_entry_per_cell_witness :
  selectedRange squareSelected = Some square
  /\ 0 <= row (start (normalizeRange square))
  /\ 0 <= col (start (normalizeRange square))
  /\ exists values columnTypes,
       getRangeValues squareSelected = Js.Ok (values, columnTypes)
       /\ Z.of_nat (length values) = 4.
Proof.
  assert (A : selectedRange squareSelected = Some square) by reflexivity.
  assert (B : 0 <= row (start (normalizeRange square))) by (simpl; lia).
  assert (C : 0 <= col (start (normalizeRange square))) by (simpl; lia).
  split; [exact A|]. split; [exact B|]. split; [exact C|].
  destruct (getRangeValues_one_entry_per_cell squareSelected square A B C)
    as (values & columnTypes & E & L & _).
  exists values, columnTypes. split; [exact E | exact L].
Defined.

Lemma parseCellKey_negative_row_witness :
  -1 < 0 /\ 0 <= 2 /\ parseCellKey (getCellKey (-1) 2) = (Some 0, Some 1).
Proof.
  split; [lia|]. split; [lia|].
  apply (parseCellKey_negative_row (-1) 2); lia.
Defined.

Lemma column_update_keeps_values_witness :
  0 <= 1 < Z.of_nat (length (columns (data loaded)))
  /\ exists s2,
       dispatch 0 loaded (UPDATE_COLUMN_TYPE 1 text None) = Js.Ok s2
       /\ getCellRawValue s2 0 1 = getCellRawValue loaded 0 1.
Proof.
  assert (A : 0 <= 1 < Z.of_nat (length (columns (data loaded)))) by (simpl; lia).
  split; [exact A|].
  destruct (column_update_keeps_values 0 loaded 1 "Revenue" text None A)
    as (old & s1 & s2 & _ & _ & D & _ & _ & _ & _ & _ & _ & _ & R).
  exists s2. split; [exact D | exact (proj2 (R 0 1))].
Defined.

Lemma add_then_delete_column_witness :
  0 <= 1 <= Z.of_nat (length (columns (data loaded)))
  /\ exists s',
       dispatchAll 0 loaded [ADD_COLUMN (Some 1) None; DELETE_COLUMN 1] = Js.Ok s'
       /\ columns (data s') = columns (data loaded).
Proof.
  assert (A : 0 <= 1 <= Z.of_nat (length (columns (data loaded)))) by (simpl; lia).
  split; [exact A|].
  destruct (add_then_delete_column 0 loaded 1 A) as (s' & D & E & _).
  exists s'. split; [exact D | exact E].
Defined.

Lemma delete_key_clears_selected_cell_witness :
  selectedCell cursor = Some (at_ 0 0) /\ editingCell cursor = None
  /\ (eventKey deleteKey = "Delete" \/ eventKey deleteKey = "Backspace")
  /\ getCellDisplayValue cursor 0 0 = Js.Ok "Widget A"
  /\ exists s',
       dispatchAll 0 cursor (handleKeyDown cursor deleteKey) = Js.Ok s'
       /\ getCellDisplayValue s' 0 0 = Js.Ok "".
Proof.
  assert (A : selectedCell cursor = Some (at_ 0 0)) by reflexivity.
  assert (B : editingCell cursor = None) by reflexivity.
  assert (C : eventKey deleteKey = "Delete" \/ eventKey deleteKey = "Backspace")
    by (left; reflexivity).
  split; [exact A|]. split; [exact B|]. split; [exact C|].
  split; [reflexivity|].
  destruct (delete_key_clears_selected_cell 0 cursor deleteKey (at_ 0 0) A B C)
    as (s' & D & _ & E & _).
  exists s'. split; [exact D | exact E].
Defined.


Lemma display_follows_column_type_witness :
  Js.index (columns (data loaded)) 1 = Some (column "2020" currency)
  /\ getCellRawValue loaded 0 1 = Js.Ok (VNum (Dec 100 0))
  /\ getCellDisplayValue loaded 0 1 = Js.Ok (formatCellValue (VNum (Dec 100 0))).
Proof.
  assert (A : Js.index (columns (data loaded)) 1 = Some (column "2020" currency))
    by reflexivity.
  assert (B : getCellRawValue loaded 0 1 = Js.Ok (VNum (Dec 100 0))) by reflexivity.
  split; [exact A|]. split; [exact B|].
  destruct (display_follows_column_type loaded 0 1 _ _ A B) as [D _].
  apply D. right. reflexivity.
Defined.

End MoreRuns.
